(** * Obsidian <-> GitHub Discussions synchronisation: a shallow embedding

    The development follows [src/main.ts] (the current plugin source, the
    second document of that file) and [src/graphql.ts].  JavaScript values
    that flow through the plugin as [any] are embedded as [Value]; a call
    that may throw returns a [result]; the remote service and the vault are
    explicit state. *)

From Stdlib Require Import String Ascii List Bool Arith Lia DecimalString.
From Stdlib Require DecimalNat DecimalFacts.
Import ListNotations.
Open Scope list_scope.
Open Scope string_scope.

Set Implicit Arguments.

(** ** JavaScript values and exceptions *)

(** The values a front-matter field or a GraphQL variable holds in this
    program: the absent and the null value, booleans, text, and arrays of
    strings (tags, label ids).  A YAML number or a nested mapping is not
    among them.  Of a field the plugin only asks whether it is truthy,
    whether it is text (so that it can be split) and whether it is an array
    (so that it can be mapped); the statements about failures below are put
    in these terms. *)
Inductive Value : Type :=
| VUndefined
| VNull
| VBool (b : bool)
| VStr (s : string)
| VList (l : list string).

Inductive JsError : Type :=
| TypeError
| Error (msg : string).

Inductive result (A : Type) : Type :=
| Ok (a : A)
| Throw (e : JsError).

Arguments Ok {A} a.
Arguments Throw {A} e.

Definition rbind {A B} (r : result A) (k : A -> result B) : result B :=
  match r with
  | Ok a => k a
  | Throw e => Throw e
  end.

Module JS.

(** [if (v)] *)
Definition truthy (v : Value) : bool :=
  match v with
  | VUndefined | VNull => false
  | VBool b => b
  | VStr s => negb (s =? "")
  | VList _ => true
  end.

(** [Array.prototype.join] on an array of strings. *)
Definition join (sep : string) (l : list string) : string := String.concat sep l.

(** Interpolation of a value in a template literal. *)
Definition template (v : Value) : string :=
  match v with
  | VUndefined => "undefined"
  | VNull => "null"
  | VBool true => "true"
  | VBool false => "false"
  | VStr s => s
  | VList l => join "," l
  end.

(** [a === b].  Two arrays are equal only when they are the same object;
    every parse allocates its own, so arrays never compare equal here. *)
Definition strictEq (a b : Value) : bool :=
  match a, b with
  | VUndefined, VUndefined => true
  | VNull, VNull => true
  | VBool x, VBool y => Bool.eqb x y
  | VStr x, VStr y => (x =? y)
  | _, _ => false
  end.

(** [String.prototype.startsWith] *)
Definition startsWith (s p : string) : bool := String.prefix p s.

(** [String.prototype.split] for a non-empty separator: [skip] counts the
    characters of a matched separator still to be passed over, [cur] is
    the piece under construction. *)
Fixpoint splitFrom (sep : string) (skip : nat) (cur : string) (s : string)
  : list string :=
  match s with
  | EmptyString => [cur]
  | String c rest =>
      match skip with
      | S k => splitFrom sep k cur rest
      | O =>
          if String.prefix sep s
          then cur :: splitFrom sep (String.length sep - 1) EmptyString rest
          else splitFrom sep O (cur ++ String c EmptyString) rest
      end
  end.

Definition split (sep s : string) : list string := splitFrom sep 0 "" s.

(** [v.split(sep)] on a value of type [any]: only strings have the
    method. *)
Definition splitValue (sep : string) (v : Value) : result (list string) :=
  match v with
  | VStr s => Ok (split sep s)
  | _ => Throw TypeError
  end.

(** [arr[i]], [undefined] past the end. *)
Definition index (l : list string) (i : nat) : Value :=
  match nth_error l i with
  | Some s => VStr s
  | None => VUndefined
  end.

(** A string of the program is held as its UTF-8 encoding, one [ascii] for
    each byte.  The separators the plugin splits on are ASCII, and no byte of
    a longer UTF-8 sequence is ASCII, so splitting on the bytes gives the
    pieces that splitting on the characters gives; comparison and prefix
    tests of encoded strings agree with those of the strings.  Trimming has
    to know the white space beyond ASCII. *)

(** White space and line terminators of one byte: TAB, LF, VT, FF, CR and
    the space. *)
Definition isSpace (c : ascii) : bool :=
  match nat_of_ascii c with
  | 9 | 10 | 11 | 12 | 13 | 32 => true
  | _ => false
  end.

(** Of two bytes: U+00A0, the no-break space. *)
Definition isSpace2 (c1 c2 : ascii) : bool :=
  Nat.eqb (nat_of_ascii c1) 194 && Nat.eqb (nat_of_ascii c2) 160.

(** Of three bytes: U+1680, U+2000 to U+200A, the line and paragraph
    separators U+2028 and U+2029, U+202F, U+205F, U+3000, and the byte order
    mark U+FEFF. *)
Definition isSpace3 (c1 c2 c3 : ascii) : bool :=
  let b1 := nat_of_ascii c1 in
  let b2 := nat_of_ascii c2 in
  let b3 := nat_of_ascii c3 in
  (Nat.eqb b1 225 && Nat.eqb b2 154 && Nat.eqb b3 128)
  || (Nat.eqb b1 226 && Nat.eqb b2 128
      && ((Nat.leb 128 b3 && Nat.leb b3 138)
          || Nat.eqb b3 168 || Nat.eqb b3 169 || Nat.eqb b3 175))
  || (Nat.eqb b1 226 && Nat.eqb b2 129 && Nat.eqb b3 159)
  || (Nat.eqb b1 227 && Nat.eqb b2 128 && Nat.eqb b3 128)
  || (Nat.eqb b1 239 && Nat.eqb b2 187 && Nat.eqb b3 191).

(** [String.prototype.trimStart] *)
Fixpoint trimStart (s : string) : string :=
  match s with
  | EmptyString => EmptyString
  | String c1 rest1 =>
      if isSpace c1 then trimStart rest1
      else
        match rest1 with
        | EmptyString => s
        | String c2 rest2 =>
            if isSpace2 c1 c2 then trimStart rest2
            else
              match rest2 with
              | EmptyString => s
              | String c3 rest3 => if isSpace3 c1 c2 c3 then trimStart rest3 else s
              end
        end
  end.

(** The string is made of white space and line terminators only. *)
Fixpoint allSpace (s : string) : bool :=
  match s with
  | EmptyString => true
  | String c1 rest1 =>
      if isSpace c1 then allSpace rest1
      else
        match rest1 with
        | EmptyString => false
        | String c2 rest2 =>
            if isSpace2 c1 c2 then allSpace rest2
            else
              match rest2 with
              | EmptyString => false
              | String c3 rest3 => isSpace3 c1 c2 c3 && allSpace rest3
              end
        end
  end.

(** [String.prototype.trimEnd]: the string up to the white space it ends
    with. *)
Fixpoint trimEnd (s : string) : string :=
  match s with
  | EmptyString => EmptyString
  | String c rest => if allSpace s then EmptyString else String c (trimEnd rest)
  end.

(** [String.prototype.trim]: the white space and the line terminators of
    ECMAScript are removed from both ends. *)
Definition trim (s : string) : string := trimEnd (trimStart s).

(** Does the character occur in the string? *)
Fixpoint occurs (c : ascii) (s : string) : bool :=
  match s with
  | EmptyString => false
  | String d rest => Ascii.eqb c d || occurs c rest
  end.

(** [String.prototype.replace] with a string pattern: the first occurrence
    only. *)
Fixpoint dropChars (n : nat) (s : string) : string :=
  match n, s with
  | S k, String _ rest => dropChars k rest
  | _, _ => s
  end.

Fixpoint replace (pat rep s : string) : string :=
  match s with
  | EmptyString => if String.prefix pat s then rep else s
  | String c rest =>
      if String.prefix pat s
      then rep ++ dropChars (String.length pat) s
      else String c (replace pat rep rest)
  end.

(** [n.toString()] for a length or a count. *)
Definition numberToString (n : nat) : string :=
  DecimalString.NilZero.string_of_uint (Nat.to_uint n).

Definition newline : string := String (ascii_of_nat 10) EmptyString.

End JS.

(** ** Date conversion (main.ts, convertDateFormatToObsidian / convertDateFormatToGH) *)

Definition convertDateFormatToObsidian (dateStr : Value) : result string :=
  rbind (JS.splitValue "-" dateStr) (fun parts =>
  let year := JS.index parts 0 in
  let month := JS.index parts 1 in
  let day := JS.index parts 2 in
  Ok (JS.template month ++ "/" ++ JS.template day ++ "/" ++ JS.template year)).

Definition convertDateFormatToGH (dateStr : Value) : result string :=
  rbind (JS.splitValue "/" dateStr) (fun parts =>
  let month := JS.index parts 0 in
  let day := JS.index parts 1 in
  let year := JS.index parts 2 in
  Ok (JS.template year ++ "-" ++ JS.template month ++ "-" ++ JS.template day)).

(** The copy of [convertDateFormatToObsidian] in the earlier revision of the
    plugin (first document of main.ts) split on the local separator. *)
Module Legacy.
Definition convertDateFormatToObsidian (dateStr : Value) : result string :=
  rbind (JS.splitValue "/" dateStr) (fun parts =>
  let year := JS.index parts 0 in
  let month := JS.index parts 1 in
  let day := JS.index parts 2 in
  Ok (JS.template month ++ "/" ++ JS.template day ++ "/" ++ JS.template year)).
End Legacy.


(** ** Objects and insertion-ordered maps *)

(** A JavaScript object used as a record of named fields, in insertion
    order. *)
Definition object : Type := list (string * Value).

Module Object.
Fixpoint get (k : string) (o : object) : Value :=
  match o with
  | [] => VUndefined
  | (k', v) :: rest => if k =? k' then v else get k rest
  end.

Fixpoint set (k : string) (v : Value) (o : object) : object :=
  match o with
  | [] => [(k, v)]
  | (k', v') :: rest => if k =? k' then (k, v) :: rest else (k', v') :: set k v rest
  end.
End Object.

(** [Map<K, V>]: [set] keeps the position of a key already present, so
    [values] and [entries] come in first-insertion order. *)
Module JsMap.
Section Ops.
Variables K V : Type.
Variable eqb : K -> K -> bool.

Fixpoint get (k : K) (m : list (K * V)) : option V :=
  match m with
  | [] => None
  | (k', v) :: rest => if eqb k k' then Some v else get k rest
  end.

Definition has (k : K) (m : list (K * V)) : bool :=
  match get k m with
  | Some _ => true
  | None => false
  end.

Fixpoint set (k : K) (v : V) (m : list (K * V)) : list (K * V) :=
  match m with
  | [] => [(k, v)]
  | (k', v') :: rest => if eqb k k' then (k, v) :: rest else (k', v') :: set k v rest
  end.

Definition values (m : list (K * V)) : list V := map snd m.

Definition keys (m : list (K * V)) : list K := map fst m.

(** [new Map(entries)] *)
Definition ofEntries (l : list (K * V)) : list (K * V) :=
  fold_left (fun m kv => set (fst kv) (snd kv) m) l [].
End Ops.
End JsMap.

(** [Map<string, string>], as [existingLabels] and [labelIds]. *)
Definition LabelMap : Type := list (string * string).

(** ** Settings and records of the remote API *)

Record OGDSettings : Type := {
  articlesDir : string;
  makeMd : bool;
  owner : string;
  repo : string;
  blogPostCategory : string;
  draftLabel : string;
  tagLabelPrefix : string;
  seriesLabelPrefix : string
}.

Definition DEFAULT_SETTINGS : OGDSettings := {|
  articlesDir := "Blog";
  makeMd := false;
  owner := "";
  repo := "";
  blogPostCategory := "Blog Posts";
  draftLabel := "state/draft";
  tagLabelPrefix := "tag/";
  seriesLabelPrefix := "series/"
|}.

Record Label : Type := { label_id : string; label_name : string }.

Record Category : Type := { category_id : string; category_name : string }.

(** Modelled from the spec: types.ts, which declares [GitHubPost], is not
    among the sources.  Of the remote record of the data model, the fields
    main.ts reads: id, title and body, and the classification the client
    derives from the labels ([article.tags], [article.series]['id']). *)
Record GitHubPost : Type := {
  post_id : string;
  post_title : string;
  post_body : string;
  post_tags : list string;
  post_series : option string
}.

(** ** GraphQL documents (graphql.ts and the two inline documents of upload) *)

Definition CREATE_DISCUSSION_MUTATION : string := "
  mutation CreateDiscussion($repositoryId: ID!, $categoryId: ID!, $title: String!, $body: String!) {
    createDiscussion(input: {
      repositoryId: $repositoryId,
      categoryId: $categoryId,
      title: $title,
      body: $body
    }) {
      discussion {
        id
        number
      }
    }
  }
".

Definition UPDATE_DISCUSSION_MUTATION : string := "
  mutation UpdateDiscussion($discussionId: ID!, $title: String!, $body: String!) {
    updateDiscussion(input: {
      discussionId: $discussionId,
      title: $title,
      body: $body
    }) {
      discussion {
        id
        number
      }
    }
  }
".

Definition CREATE_LABEL_MUTATION : string := "
  mutation CreateLabel($repositoryId: ID!, $name: String!, $description: String, $color: String!) {
    createLabel(input: {
      repositoryId: $repositoryId,
      name: $name,
      description: $description,
      color: $color
    }) {
      label {
        id
        name
      }
    }
  }
".

Definition ADD_LABELS_TO_DISCUSSION : string := "
  mutation AddLabelsToDiscussion($labelableId: ID!, $labelIds: [ID!]!) {
    addLabelsToLabelable(input: {
      labelableId: $labelableId,
      labelIds: $labelIds
    }) {
      labelable {
        labels(first: 100) {
          nodes {
            id
            name
          }
        }
      }
    }
  }
".

Definition GET_REPOSITORY_INFO : string := "
  query GetRepositoryInfo($owner: String!, $name: String!) {
    repository(owner: $owner, name: $name) {
      id
      discussionCategories(first: 100) {
        nodes {
          id
          name
        }
      }
      labels(first: 100) {
        nodes {
          id
          name
        }
      }
    }
  }
".

Definition GET_DISCUSSION_LABELS : string := "query getDiscussionLabels($id: ID!) {
                                        node(id: $id) {
                                            ... on Discussion {
                                                labels(first: 100) {
                                                    nodes {
                                                        id
                                                        name
                                                    }
                                                }
                                            }
                                        }
                                    }".

Definition REMOVE_LABELS : string := "mutation removeLabels($labelableId: ID!, $labelIds: [ID!]!) {
                                            removeLabelsFromLabelable(input: {
                                                labelableId: $labelableId,
                                                labelIds: $labelIds
                                            }) {
                                                clientMutationId
                                            }
                                        }".

(** A document is a mutation when its first token is [mutation]. *)
Definition isMutation (document : string) : bool :=
  JS.startsWith (JS.trimStart document) "mutation".


(** ** Calls to the remote API, responses, the vault *)

(** One invocation of [executeGitHubGraphQL(query, variables, token)]. *)
Record Call : Type := {
  query : string;
  variables : object;
  token : string
}.

(** The [data] member of a response, by the shape main.ts reads from it. *)
Inductive Data : Type :=
| RepositoryData (id : string) (discussionCategories : list Category) (labels : list Label)
| CreateLabelData (id : string)
| CreateDiscussionData (id : string)
| DiscussionLabelsData (nodes : list Label)
| OtherData.

(** The JSON a request resolves to: [errors] (messages) when present, and
    [data]. *)
Record Response : Type := {
  resp_errors : option (list string);
  resp_data : Data
}.

(** Options handed to [githubClient] by [fetchGithubDiscussions]. *)
Record GitHubClientOptions : Type := {
  co_auth : string;
  co_owner : string;
  co_name : string;
  co_blogPostCategory : string;
  co_draftLabel : string;
  co_tagLabelPrefix : string;
  co_seriesLabelPrefix : string
}.

Record TFile : Type := {
  path : string;
  name : string;
  basename : string;
  content : string
}.

(** The vault: names of the loaded folders and the markdown files with the
    text [vault.read] returns for each. *)
Record Vault : Type := {
  vault_folders : list string;
  vault_markdownFiles : list TFile
}.

(** What the run shows or sends, in order. *)
Inductive Event : Type :=
| Fetch (c : Call)
| ClientFetch (o : GitHubClientOptions)
| Notice (msg : string)
| ErrorNotice (e : JsError).

(** A local file that passed the scan of upload. *)
Record LocalEntry : Type := {
  entry_file : TFile;
  entry_frontMatter : object;
  entry_sections : list string
}.

(** A value of [ghArticleMap]: [[frontMatter, body, article.title]]. *)
Record RemoteEntry : Type := {
  remote_frontMatter : object;
  remote_body : Value;
  remote_title : string
}.

Inductive Modal : Type :=
| CreateDiscussionsModal
| UpdateLabelsModal
| UpdateContentModal.

Definition Modal_eqb (a b : Modal) : bool :=
  match a, b with
  | CreateDiscussionsModal, CreateDiscussionsModal => true
  | UpdateLabelsModal, UpdateLabelsModal => true
  | UpdateContentModal, UpdateContentModal => true
  | _, _ => false
  end.

(** [obj.key] where [obj] came out of [parseYaml]: reading a property of
    [null] throws. *)
Definition prop (doc : option object) (k : string) : result Value :=
  match doc with
  | Some o => Ok (Object.get k o)
  | None => Throw TypeError
  end.

(** [obj[key] = v] *)
Definition setProp (doc : option object) (k : string) (v : Value) : result object :=
  match doc with
  | Some o => Ok (Object.set k v o)
  | None => Throw TypeError
  end.

(** [error.message].  The text of a TypeError is the engine's own; it
    stands here as the name of the error. *)
Definition message (e : JsError) : string :=
  match e with
  | TypeError => "TypeError"
  | Error msg => msg
  end.

(** The labels pushed for a document (upload, the [labels] array of both
    the new-file and the existing-file branch). *)
Definition labelsOf (settings : OGDSettings) (frontMatter : object) : result (list string) :=
  let tags := Object.get "tags" frontMatter in
  let series := Object.get "series" frontMatter in
  rbind (if JS.truthy tags
         then match tags with
              | VList l => Ok (map (fun tag => tagLabelPrefix settings ++ tag) l)
              | _ => Throw TypeError
              end
         else Ok [])
        (fun tagLabels =>
           Ok (List.app tagLabels
                 (if JS.truthy series
                  then [seriesLabelPrefix settings ++ JS.template series]
                  else []))).

(** The filter of upload that selects the labels to detach from a matched
    discussion, and the ids sent. *)
Definition managedPrefix (settings : OGDSettings) (labelName : string) : bool :=
  JS.startsWith labelName (tagLabelPrefix settings) ||
  JS.startsWith labelName (seriesLabelPrefix settings).

Definition existingLabelsToRemove (settings : OGDSettings) (nodes : list Label) : list string :=
  map label_id (filter (fun label => managedPrefix settings (label_name label)) nodes).

(** [githubFrontMatter] and [discussionBody] of upload. *)
Definition githubFrontMatter (frontMatter : object) : result object :=
  rbind (convertDateFormatToGH (Object.get "published" frontMatter)) (fun published =>
  Ok [("slug", Object.get "slug" frontMatter);
      ("description", Object.get "description" frontMatter);
      ("published", VStr published)]).

(** [sections[2].trim()] *)
Definition trimmedBody (sections : list string) : result string :=
  match JS.index sections 2 with
  | VStr s => Ok (JS.trim s)
  | _ => Throw TypeError
  end.

(** ** The world the plugin acts on, and the monad of its async code *)

Record World (Remote : Type) : Type := {
  remote : Remote;
  events : list Event
}.

(** An async computation: it may throw, and the events it caused before
    throwing stay. *)
Definition M (Remote A : Type) : Type := World Remote -> result A * World Remote.

Definition ret {Remote A : Type} (a : A) : M Remote A :=
  fun w => (Ok a, w).

Definition bind {Remote A B : Type} (c : M Remote A) (k : A -> M Remote B) : M Remote B :=
  fun w =>
    match c w with
    | (Ok a, w') => k a w'
    | (Throw e, w') => (Throw e, w')
    end.

Definition throw {Remote A : Type} (e : JsError) : M Remote A :=
  fun w => (Throw e, w).

Definition liftR {Remote A : Type} (r : result A) : M Remote A :=
  fun w => (r, w).

Definition emit {Remote : Type} (e : Event) : M Remote unit :=
  fun w => (Ok tt, {| remote := remote w; events := events w ++ [e] |}).

(** [try { c } catch (error) { h error }] *)
Definition tryCatch {Remote A : Type} (c : M Remote A) (h : JsError -> M Remote A) : M Remote A :=
  fun w =>
    match c w with
    | (Ok a, w') => (Ok a, w')
    | (Throw e, w') => h e w'
    end.

Notation "x <- c ;; k" := (bind c (fun x => k))
  (at level 61, c at next level, right associativity).
Notation "c ;;; k" := (bind c (fun _ => k))
  (at level 61, right associativity).
Notation "x <~ r ;; k" := (rbind r (fun x => k))
  (at level 61, r at next level, right associativity).

(** [for (const x of l) { await f(x) }] *)
Fixpoint forEach {Remote A : Type} (f : A -> M Remote unit) (l : list A) : M Remote unit :=
  match l with
  | [] => ret tt
  | x :: rest => f x ;;; forEach f rest
  end.

(** What upload has gathered when it opens its dialogs. *)
Record Plan : Type := {
  plan_repoId : string;
  plan_categoryId : string;
  plan_existingLabels : LabelMap;
  plan_ghArticles : list GitHubPost;
  plan_newFiles : list LocalEntry;
  plan_existingFiles : list LocalEntry
}.

Definition createLabelId (d : Data) : result string :=
  match d with
  | CreateLabelData id => Ok id
  | _ => Throw TypeError
  end.

Definition createDiscussionId (d : Data) : result string :=
  match d with
  | CreateDiscussionData id => Ok id
  | _ => Throw TypeError
  end.

Definition discussionLabelNodes (d : Data) : result (list Label) :=
  match d with
  | DiscussionLabelsData nodes => Ok nodes
  | _ => Throw TypeError
  end.

(** The variables of a create-label request. *)
Definition createLabelVariables (repoId labelName : string) : object :=
  [("repositoryId", VStr repoId);
   ("name", VStr labelName);
   ("description",
     if JS.startsWith labelName "series/"
     then VStr (JS.replace "series/" "" labelName)
     else VUndefined)].

(** [markdownFiles] of upload, download and checkSettings. *)
Definition articleFiles (settings : OGDSettings) (vault : Vault) : list TFile :=
  let markdownFiles :=
    filter (fun file => JS.startsWith (path file) (articlesDir settings ++ "/"))
           (vault_markdownFiles vault) in
  if makeMd settings
  then
    let filename := List.last (JS.split "/" (articlesDir settings)) "" ++ ".md" in
    filter (fun file => negb (name file =? filename)) markdownFiles
  else markdownFiles.

(** [new Map(labels.nodes.map(label => [label.name, label.id]))] *)
Definition existingLabelsOf (labels : list Label) : LabelMap :=
  JsMap.ofEntries String.eqb (map (fun label => (label_name label, label_id label)) labels).

(** [GITHUB_TOKEN!] *)
Definition tokenText (GITHUB_TOKEN : option string) : string :=
  match GITHUB_TOKEN with
  | Some t => t
  | None => ""
  end.

(** ** The plugin (main.ts) *)

Section Plugin.

(** The remote service behind [fetch], the client of client.ts, and the
    YAML functions of the host application are the environment. *)
Variable Remote : Type.
Variable transport : Call -> Remote -> result Response * Remote.
Variable getAllPosts : GitHubClientOptions -> Remote -> result (list GitHubPost) * Remote.
Variable parseYaml : Value -> result (option object).
Variable stringifyYaml : object -> string.

Definition executeGitHubGraphQL (query : string) (variables : object) (token : string)
  : M Remote Data :=
  fun w =>
    let call := {| query := query; variables := variables; token := token |} in
    let (r, remote') := transport call (remote w) in
    let w' := {| remote := remote'; events := events w ++ [Fetch call] |} in
    match r with
    | Throw e => (Throw e, w')
    | Ok response =>
        match resp_errors response with
        | Some (msg :: _) => (Throw (Error msg), w')
        | Some [] => (Throw TypeError, w')
        | None => (Ok (resp_data response), w')
        end
    end.

Fixpoint createOrUpdateLabelsFrom (repoId : string) (existingLabels : LabelMap)
  (labelNames : list string) (token : string) (labelIds : LabelMap) : M Remote LabelMap :=
  match labelNames with
  | [] => ret labelIds
  | labelName :: rest =>
      match JsMap.get String.eqb labelName existingLabels with
      | Some id =>
          createOrUpdateLabelsFrom repoId existingLabels rest token
            (JsMap.set String.eqb labelName id labelIds)
      | None =>
          result <- executeGitHubGraphQL CREATE_LABEL_MUTATION
                      (createLabelVariables repoId labelName) token ;;
          id <- liftR (createLabelId result) ;;
          createOrUpdateLabelsFrom repoId existingLabels rest token
            (JsMap.set String.eqb labelName id labelIds)
      end
  end.

Definition createOrUpdateLabels (repoId : string) (existingLabels : LabelMap)
  (labelNames : list string) (token : string) : M Remote LabelMap :=
  createOrUpdateLabelsFrom repoId existingLabels labelNames token [].

Definition fetchGithubDiscussions (auth username repo : string) (options : OGDSettings)
  : M Remote (list GitHubPost) :=
  if auth =? "" then throw (Error "GitHub authentication token is required")
  else if username =? "" then throw (Error "GitHub username is required")
  else if repo =? "" then throw (Error "Repository name is required")
  else
    let clientOptions := {|
      co_auth := auth;
      co_owner := username;
      co_name := repo;
      co_blogPostCategory := blogPostCategory options;
      co_draftLabel := draftLabel options;
      co_tagLabelPrefix :=
        if tagLabelPrefix options =? "" then "tag/" else tagLabelPrefix options;
      co_seriesLabelPrefix :=
        if seriesLabelPrefix options =? "" then "series/" else seriesLabelPrefix options
    |} in
    fun w =>
      let (r, remote') := getAllPosts clientOptions (remote w) in
      let w' := {| remote := remote'; events := events w ++ [ClientFetch clientOptions] |} in
      match r with
      | Ok posts => (Ok posts, w')
      | Throw e => (Throw (Error ("Failed to fetch GitHub discussions: " ++ message e)), w')
      end.

(** [ghArticles.find(post => parseYaml(post.body.split("---")[1]).slug === slug)] *)
Fixpoint findPost (ghArticles : list GitHubPost) (slug : Value) : result (option GitHubPost) :=
  match ghArticles with
  | [] => Ok None
  | post :: rest =>
      postFrontMatter <~ parseYaml (JS.index (JS.split "---" (post_body post)) 1) ;;
      postSlug <~ prop postFrontMatter "slug" ;;
      if JS.strictEq postSlug slug then Ok (Some post) else findPost rest slug
  end.

(** The loop of upload over [markdownFiles] that fills [newFiles] and
    [existingFiles]. *)
Fixpoint scan (ghArticles : list GitHubPost) (markdownFiles : list TFile)
  (newFiles existingFiles : list LocalEntry) : result (list LocalEntry * list LocalEntry) :=
  match markdownFiles with
  | [] => Ok (newFiles, existingFiles)
  | file :: rest =>
      let sections := JS.split "---" (content file) in
      if (List.length sections <? 3)%nat then scan ghArticles rest newFiles existingFiles
      else
        parsed <~ parseYaml (JS.index sections 1) ;;
        slug <~ prop parsed "slug" ;;
        match parsed with
        | None => Throw TypeError
        | Some frontMatter =>
            if negb (JS.truthy slug) then scan ghArticles rest newFiles existingFiles
            else
              existingPost <~ findPost ghArticles slug ;;
              let entry := {| entry_file := file;
                              entry_frontMatter := frontMatter;
                              entry_sections := sections |} in
              match existingPost with
              | Some _ => scan ghArticles rest newFiles (existingFiles ++ [entry])
              | None => scan ghArticles rest (newFiles ++ [entry]) existingFiles
              end
        end
  end.

Definition checkSettings (settings : OGDSettings) (GITHUB_TOKEN : option string)
  (vault : Vault) : M Remote bool :=
  if (List.length (vault_folders vault) =? 0)%nat
  then
    emit (Notice "OGD: Does the Blog directory exist? Did you configure it in OGDSettings?") ;;;
    ret false
  else
    let markdownFiles := articleFiles settings vault in
    (if (List.length markdownFiles =? 0)%nat
     then emit (Notice "OGD: No markdown files found in the specified directory.")
     else emit (Notice ("OGD: Found " ++ JS.numberToString (List.length markdownFiles)
                         ++ " markdown files in the directory."))) ;;;
    tokenOk <- (if tokenText GITHUB_TOKEN =? ""
                then emit (Notice "OGD: This plugin requires an environment variable to be set with the name OGD_GITHUB_TOKEN") ;;; ret false
                else ret true) ;;
    if (owner settings =? "") || (repo settings =? "")
    then
      emit (Notice "OGD: Please ensure owner and repo are configured correctly. Owner should be a Github username and repo should be the name of the repository where we want to publish md to discussions.") ;;;
      ret false
    else ret tokenOk.

(** Body of the loop of the first dialog: one new discussion. *)
Definition createDiscussion (settings : OGDSettings) (plan : Plan) (token : string)
  (entry : LocalEntry) : M Remote unit :=
  let frontMatter := entry_frontMatter entry in
  body <- liftR (trimmedBody (entry_sections entry)) ;;
  labels <- liftR (labelsOf settings frontMatter) ;;
  labelIds <- createOrUpdateLabels (plan_repoId plan) (plan_existingLabels plan) labels token ;;
  front <- liftR (githubFrontMatter frontMatter) ;;
  let discussionBody :=
    "---" ++ JS.newline ++ stringifyYaml front ++ "---" ++ JS.newline ++ body in
  result <- executeGitHubGraphQL CREATE_DISCUSSION_MUTATION
              [("repositoryId", VStr (plan_repoId plan));
               ("categoryId", VStr (plan_categoryId plan));
               ("title", VStr (basename (entry_file entry)));
               ("body", VStr discussionBody)] token ;;
  discussionId <- liftR (createDiscussionId result) ;;
  executeGitHubGraphQL ADD_LABELS_TO_DISCUSSION
    [("labelableId", VStr discussionId);
     ("labelIds", VList (JsMap.values labelIds))] token ;;;
  ret tt.

(** The second half of the label update of a matched discussion: read the
    labels on the discussion, detach those with a managed prefix, attach the
    ids gathered in [labelIds]. *)
Definition replaceLabels (settings : OGDSettings) (token : string)
  (existingPost : GitHubPost) (labelIds : LabelMap) : M Remote unit :=
  existingDiscussion <- executeGitHubGraphQL GET_DISCUSSION_LABELS
                          [("id", VStr (post_id existingPost))] token ;;
  nodes <- liftR (discussionLabelNodes existingDiscussion) ;;
  let toRemove := existingLabelsToRemove settings nodes in
  (if (0 <? List.length toRemove)%nat
   then executeGitHubGraphQL REMOVE_LABELS
          [("labelableId", VStr (post_id existingPost));
           ("labelIds", VList toRemove)] token ;;; ret tt
   else ret tt) ;;;
  if (0 <? List.length labelIds)%nat
  then executeGitHubGraphQL ADD_LABELS_TO_DISCUSSION
         [("labelableId", VStr (post_id existingPost));
          ("labelIds", VList (JsMap.values labelIds))] token ;;; ret tt
  else ret tt.

(** The label update of one matched discussion (upload, the body of
    [if (existingPost)] in the second dialog): create missing labels, then
    replace the managed labels of the discussion. *)
Definition reconcileLabels (settings : OGDSettings) (repoId : string)
  (existingLabels : LabelMap) (token : string) (existingPost : GitHubPost)
  (frontMatter : object) : M Remote unit :=
  labels <- liftR (labelsOf settings frontMatter) ;;
  labelIds <- createOrUpdateLabels repoId existingLabels labels token ;;
  replaceLabels settings token existingPost labelIds.

(** Body of the loop of the second dialog. *)
Definition updateLabels (settings : OGDSettings) (plan : Plan) (token : string)
  (entry : LocalEntry) : M Remote unit :=
  let frontMatter := entry_frontMatter entry in
  existingPost <- liftR (findPost (plan_ghArticles plan) (Object.get "slug" frontMatter)) ;;
  match existingPost with
  | Some post =>
      reconcileLabels settings (plan_repoId plan) (plan_existingLabels plan) token
        post frontMatter
  | None => ret tt
  end.

(** The request of the third dialog for one matched discussion. *)
Definition contentUpdate (token : string) (existingPost : GitHubPost) (entry : LocalEntry)
  : M Remote unit :=
  let frontMatter := entry_frontMatter entry in
  body <- liftR (trimmedBody (entry_sections entry)) ;;
  front <- liftR (githubFrontMatter frontMatter) ;;
  let discussionBody :=
    "---" ++ JS.newline ++ stringifyYaml front ++ "---" ++ JS.newline ++ body in
  executeGitHubGraphQL UPDATE_DISCUSSION_MUTATION
    [("discussionId", VStr (post_id existingPost));
     ("title", VStr (basename (entry_file entry)));
     ("body", VStr discussionBody)] token ;;;
  ret tt.

(** Body of the loop of the third dialog. *)
Definition updateContent (plan : Plan) (token : string) (entry : LocalEntry)
  : M Remote unit :=
  existingPost <- liftR (findPost (plan_ghArticles plan)
                           (Object.get "slug" (entry_frontMatter entry))) ;;
  match existingPost with
  | Some post => contentUpdate token post entry
  | None => ret tt
  end.

(** The [onSubmit] callback of each dialog. *)
Definition onSubmit (settings : OGDSettings) (plan : Plan) (token : string)
  (modal : Modal) (result : bool) : M Remote unit :=
  if result
  then
    match modal with
    | CreateDiscussionsModal =>
        forEach (createDiscussion settings plan token) (plan_newFiles plan) ;;;
        emit (Notice ("Created " ++ JS.numberToString (List.length (plan_newFiles plan))
                        ++ " new discussions"))
    | UpdateLabelsModal =>
        forEach (updateLabels settings plan token) (plan_existingFiles plan) ;;;
        emit (Notice "Updated frontmatter and labels in GitHub Discussions")
    | UpdateContentModal =>
        forEach (updateContent plan token) (plan_existingFiles plan) ;;;
        emit (Notice "Updated discussion content in GitHub")
    end
  else ret tt.

Definition repositoryOf (d : Data) : result (string * list Category * list Label) :=
  match d with
  | RepositoryData id categories labels => Ok (id, categories, labels)
  | _ => Throw TypeError
  end.

(** The click handler of upload up to the point where its dialogs are
    open: [None] when it returned or caught an error before. *)
Definition prepareUpload (settings : OGDSettings) (GITHUB_TOKEN : option string)
  (vault : Vault) : M Remote (option Plan) :=
  passing <- checkSettings settings GITHUB_TOKEN vault ;;
  if negb passing then ret None
  else
    tryCatch
      (repoInfo <- executeGitHubGraphQL GET_REPOSITORY_INFO
                     [("owner", VStr (owner settings)); ("name", VStr (repo settings))]
                     (tokenText GITHUB_TOKEN) ;;
       repository <- liftR (repositoryOf repoInfo) ;;
       let '(repoId, categories, labels) := repository in
       let categoryId :=
         match find (fun cat => category_name cat =? blogPostCategory settings) categories with
         | Some cat => category_id cat
         | None => ""
         end in
       if categoryId =? ""
       then
         emit (Notice ("Category '" ++ blogPostCategory settings
                         ++ "' not found in repository")) ;;;
         ret None
       else
         let existingLabels := existingLabelsOf labels in
         ghArticles <- fetchGithubDiscussions (tokenText GITHUB_TOKEN)
                         (owner settings) (repo settings) settings ;;
         files <- liftR (scan ghArticles (articleFiles settings vault) [] []) ;;
         ret (Some {| plan_repoId := repoId;
                      plan_categoryId := categoryId;
                      plan_existingLabels := existingLabels;
                      plan_ghArticles := ghArticles;
                      plan_newFiles := fst files;
                      plan_existingFiles := snd files |}))
      (fun error => emit (ErrorNotice error) ;;; ret None).

(** The dialogs upload opens. *)
Definition openModals (plan : Plan) : list Modal :=
  List.app
    (if (0 <? List.length (plan_newFiles plan))%nat then [CreateDiscussionsModal] else [])
    (if (0 <? List.length (plan_existingFiles plan))%nat
     then [UpdateLabelsModal; UpdateContentModal] else []).

(** The user submits dialogs one after the other; a dialog closes when it
    is submitted, and an error thrown by its callback stays in it. *)
Fixpoint submitAll (settings : OGDSettings) (plan : Plan) (token : string)
  (open : list Modal) (clicks : list (Modal * bool)) (w : World Remote) : World Remote :=
  match clicks with
  | [] => w
  | (modal, result) :: rest =>
      if existsb (Modal_eqb modal) open
      then
        submitAll settings plan token
          (filter (fun m => negb (Modal_eqb modal m)) open) rest
          (snd (onSubmit settings plan token modal result w))
      else submitAll settings plan token open rest w
  end.

(** One use of the upload ribbon icon, with the dialogs the user submits
    afterwards. *)
Definition upload (settings : OGDSettings) (GITHUB_TOKEN : option string) (vault : Vault)
  (clicks : list (Modal * bool)) (w : World Remote) : World Remote :=
  match prepareUpload settings GITHUB_TOKEN vault w with
  | (Ok (Some plan), w') =>
      submitAll settings plan (tokenText GITHUB_TOKEN) (openModals plan) clicks w'
  | (_, w') => w'
  end.

(** *** download: the map of remote articles and the new ones *)

(** [ghArticles.forEach(article => ... ghArticleMap.set(frontMatter['slug'], ...))] *)
Fixpoint ghArticleMapFrom (ghArticles : list GitHubPost)
  (ghArticleMap : list (Value * RemoteEntry)) : result (list (Value * RemoteEntry)) :=
  match ghArticles with
  | [] => Ok ghArticleMap
  | article :: rest =>
      let parts := JS.split "---" (post_body article) in
      let frontMatterString := JS.index parts 1 in
      let body := JS.index parts 2 in
      parsed <~ parseYaml frontMatterString ;;
      withTags <~ setProp parsed "tags" (VList (post_tags article)) ;;
      let frontMatter :=
        match post_series article with
        | Some id => Object.set "series" (VStr id) withTags
        | None => withTags
        end in
      ghArticleMapFrom rest
        (JsMap.set JS.strictEq (Object.get "slug" frontMatter)
           {| remote_frontMatter := frontMatter;
              remote_body := body;
              remote_title := post_title article |}
           ghArticleMap)
  end.

(** [existingFileSlugs], a [Set]. *)
Fixpoint existingFileSlugsFrom (markdownFiles : list TFile) (slugs : list Value)
  : result (list Value) :=
  match markdownFiles with
  | [] => Ok slugs
  | file :: rest =>
      frontmatter <~ parseYaml (JS.index (JS.split "---" (content file)) 1) ;;
      slug <~ prop frontmatter "slug" ;;
      if JS.truthy slug
      then existingFileSlugsFrom rest
             (if existsb (JS.strictEq slug) slugs then slugs else (slugs ++ [slug])%list)
      else existingFileSlugsFrom rest slugs
  end.

(** [newArticles] of download. *)
Definition newArticles (ghArticles : list GitHubPost) (markdownFiles : list TFile)
  : result (list (Value * RemoteEntry)) :=
  ghArticleMap <~ ghArticleMapFrom ghArticles [] ;;
  existingFileSlugs <~ existingFileSlugsFrom markdownFiles [] ;;
  Ok (filter (fun entry => negb (existsb (JS.strictEq (fst entry)) existingFileSlugs))
             ghArticleMap).

(** *** download: what the three dialogs write *)

(** The path and the text of the file the first dialog creates for a new
    article: [[slug, [frontMatter, body, title]]] of [newArticles]. *)
Definition newArticleFile (settings : OGDSettings) (entry : Value * RemoteEntry)
  : result (string * string) :=
  let frontMatter := remote_frontMatter (snd entry) in
  let fileName := remote_title (snd entry) ++ ".md" in
  let filePath := articlesDir settings ++ "/" ++ fileName in
  dated <~ (if JS.truthy (Object.get "published" frontMatter)
            then
              published <~ convertDateFormatToObsidian (Object.get "published" frontMatter) ;;
              Ok (Object.set "published" (VStr published) frontMatter)
            else Ok frontMatter) ;;
  Ok (filePath,
      "---" ++ JS.newline ++ stringifyYaml dated ++ "---" ++ JS.newline
      ++ JS.template (remote_body (snd entry))).

(** The callback the second dialog hands to [processFrontMatter] for a
    local file: the front matter of the file after it. *)
Definition updateFrontMatter (ghArticleMap : list (Value * RemoteEntry))
  (frontmatter : object) : result object :=
  match JsMap.get JS.strictEq (Object.get "slug" frontmatter) ghArticleMap with
  | None => Ok frontmatter
  | Some entry =>
      let ghFrontmatter := remote_frontMatter entry in
      let f1 := Object.set "description" (Object.get "description" ghFrontmatter) frontmatter in
      let f2 := Object.set "tags"
                  (if JS.truthy (Object.get "tags" ghFrontmatter)
                   then Object.get "tags" ghFrontmatter else VList []) f1 in
      published <~ convertDateFormatToObsidian (Object.get "published" ghFrontmatter) ;;
      let f3 := Object.set "published" (VStr published) f2 in
      let f4 := if JS.truthy (Object.get "tags" ghFrontmatter)
                then Object.set "tags" (Object.get "tags" ghFrontmatter) f3 else f3 in
      Ok (if JS.truthy (Object.get "series" ghFrontmatter)
          then Object.set "series" (Object.get "series" ghFrontmatter) f4 else f4)
  end.

(** The third dialog for a local file: the new text of the file, [None]
    when the file is left alone. *)
Definition updateBody (ghArticleMap : list (Value * RemoteEntry)) (file : TFile)
  : result (option string) :=
  parsed <~ parseYaml (JS.index (JS.split "---" (content file)) 1) ;;
  slug <~ prop parsed "slug" ;;
  match parsed, JsMap.get JS.strictEq slug ghArticleMap with
  | Some frontmatter, Some entry =>
      Ok (Some ("---" ++ JS.newline ++ stringifyYaml frontmatter ++ "---" ++ JS.newline
                ++ JS.template (remote_body entry)))
  | _, _ => Ok None
  end.


End Plugin.

(** ** A YAML reader and writer for flat documents

    The host's [parseYaml] and [stringifyYaml] are parameters of the plugin.
    The examples below run it with this pair, which covers documents made of
    [key: value] lines whose values are plain scalars, [true]/[false], or a
    flow list [[a, b]]. *)
Module FlatYaml.

Definition scalar (text : string) : Value :=
  if text =? "true" then VBool true
  else if text =? "false" then VBool false
  else if JS.startsWith text "[" && JS.startsWith (String.substring (String.length text - 1) 1 text) "]"
  then
    let inner := String.substring 1 (String.length text - 2) text in
    if inner =? "" then VList [] else VList (JS.split ", " inner)
  else VStr text.

Fixpoint fields (lines : list string) : object :=
  match lines with
  | [] => []
  | line :: rest =>
      match JS.split ": " line with
      | key :: (_ :: _) as value =>
          Object.set key (scalar (JS.join ": " value)) (fields rest)
      | _ => fields rest
      end
  end.

Definition parseYaml (text : Value) : result (option object) :=
  match text with
  | VStr s =>
      match fields (rev (JS.split JS.newline s)) with
      | [] => Ok None
      | o => Ok (Some o)
      end
  | _ => Ok None
  end.

Definition line (field : string * Value) : string :=
  match snd field with
  | VUndefined => ""
  | VList l => fst field ++ ": [" ++ JS.join ", " l ++ "]" ++ JS.newline
  | v => fst field ++ ": " ++ JS.template v ++ JS.newline
  end.

Definition stringifyYaml (o : object) : string :=
  String.concat "" (map line o).

End FlatYaml.

(** ** A model of the remote service

    The service is not part of the plugin: the plugin takes it as a
    parameter ([transport]), and the statements made for every remote
    service do not depend on this model.  It is what the runs below and the
    statements about the state of a discussion are made against: repository
    labels with unique ids and names, discussions with the ids of their
    labels, and a counter for new ids.  [strict] says whether the service
    rejects a request that leaves out a variable its document declares as
    non-null. *)
Record Discussion : Type := {
  discussion_id : string;
  discussion_title : string;
  discussion_body : string;
  discussion_labels : list string
}.

Record GitHub : Type := {
  gh_repositoryId : string;
  gh_categories : list Category;
  gh_labels : list Label;
  gh_discussions : list Discussion;
  gh_created : nat
}.

Module GitHubModel.

Definition failure (msg : string) : Response :=
  {| resp_errors := Some [msg]; resp_data := OtherData |}.

Definition success (d : Data) : Response :=
  {| resp_errors := None; resp_data := d |}.

Definition newLabelId (n : nat) : string := "LA_" ++ JS.numberToString n.

Definition newDiscussionId (n : nat) : string := "D_" ++ JS.numberToString n.

Definition member (x : string) (l : list string) : bool := existsb (String.eqb x) l.

Definition findDiscussion (id : string) (g : GitHub) : option Discussion :=
  find (fun d => discussion_id d =? id) (gh_discussions g).

Definition labelOfId (g : GitHub) (id : string) : option Label :=
  find (fun label => label_id label =? id) (gh_labels g).

(** The labels of a discussion as the API lists them. *)
Fixpoint resolve (g : GitHub) (ids : list string) : list Label :=
  match ids with
  | [] => []
  | id :: rest =>
      match labelOfId g id with
      | Some label => label :: resolve g rest
      | None => resolve g rest
      end
  end.

Definition labelsOn (id : string) (g : GitHub) : list string :=
  match findDiscussion id g with
  | Some d => discussion_labels d
  | None => []
  end.

Definition updateDiscussion (id : string) (f : Discussion -> Discussion) (g : GitHub) : GitHub :=
  {| gh_repositoryId := gh_repositoryId g;
     gh_categories := gh_categories g;
     gh_labels := gh_labels g;
     gh_discussions :=
       map (fun d => if discussion_id d =? id then f d else d) (gh_discussions g);
     gh_created := gh_created g |}.

Definition withLabels (labels : list string) (d : Discussion) : Discussion :=
  {| discussion_id := discussion_id d;
     discussion_title := discussion_title d;
     discussion_body := discussion_body d;
     discussion_labels := labels |}.

(** Attach: ids already on the discussion are left where they are. *)
Fixpoint attach (ids : list string) (current : list string) : list string :=
  match ids with
  | [] => current
  | id :: rest => attach rest (if member id current then current else (current ++ [id])%list)
  end.

Definition detach (ids : list string) (current : list string) : list string :=
  filter (fun id => negb (member id ids)) current.

Definition createLabel (strict : bool) (vars : object) (g : GitHub) : Response * GitHub :=
  match Object.get "name" vars, Object.get "color" vars with
  | VStr labelName, color =>
      if strict && negb (match color with VStr _ => true | _ => false end)
      then (failure "Variable $color of type String! was provided invalid value", g)
      else if existsb (fun label => label_name label =? labelName) (gh_labels g)
      then (failure "Name has already been taken", g)
      else
        let id := newLabelId (gh_created g) in
        (success (CreateLabelData id),
         {| gh_repositoryId := gh_repositoryId g;
            gh_categories := gh_categories g;
            gh_labels := (gh_labels g ++ [{| label_id := id; label_name := labelName |}])%list;
            gh_discussions := gh_discussions g;
            gh_created := S (gh_created g) |})
  | _, _ => (failure "Variable $name of type String! was provided invalid value", g)
  end.

Definition createDiscussion (vars : object) (g : GitHub) : Response * GitHub :=
  match Object.get "title" vars, Object.get "body" vars with
  | VStr title, VStr body =>
      let id := newDiscussionId (gh_created g) in
      (success (CreateDiscussionData id),
       {| gh_repositoryId := gh_repositoryId g;
          gh_categories := gh_categories g;
          gh_labels := gh_labels g;
          gh_discussions :=
            (gh_discussions g ++
             [{| discussion_id := id; discussion_title := title;
                 discussion_body := body; discussion_labels := [] |}])%list;
          gh_created := S (gh_created g) |})
  | _, _ => (failure "Variable $title of type String! was provided invalid value", g)
  end.

Definition transport (strict : bool) (c : Call) (g : GitHub) : result Response * GitHub :=
  let vars := variables c in
  if query c =? GET_REPOSITORY_INFO then
    (Ok (success (RepositoryData (gh_repositoryId g)
                    (firstn 100 (gh_categories g)) (firstn 100 (gh_labels g)))), g)
  else if query c =? CREATE_LABEL_MUTATION then
    let (response, g') := createLabel strict vars g in (Ok response, g')
  else if query c =? CREATE_DISCUSSION_MUTATION then
    let (response, g') := createDiscussion vars g in (Ok response, g')
  else if query c =? GET_DISCUSSION_LABELS then
    match Object.get "id" vars with
    | VStr id =>
        match findDiscussion id g with
        | Some d =>
            (Ok (success (DiscussionLabelsData
                            (firstn 100 (resolve g (discussion_labels d))))), g)
        | None => (Ok (failure "Could not resolve to a node with the global id"), g)
        end
    | _ => (Ok (failure "Variable $id of type ID! was provided invalid value"), g)
    end
  else if query c =? REMOVE_LABELS then
    match Object.get "labelableId" vars, Object.get "labelIds" vars with
    | VStr id, VList ids =>
        match findDiscussion id g with
        | Some _ =>
            (Ok (success OtherData),
             updateDiscussion id (fun d => withLabels (detach ids (discussion_labels d)) d) g)
        | None => (Ok (failure "Could not resolve to a node with the global id"), g)
        end
    | _, _ => (Ok (failure "Variable $labelIds of type [ID!]! was provided invalid value"), g)
    end
  else if query c =? ADD_LABELS_TO_DISCUSSION then
    match Object.get "labelableId" vars, Object.get "labelIds" vars with
    | VStr id, VList ids =>
        match findDiscussion id g with
        | Some _ =>
            if forallb (fun i => match labelOfId g i with Some _ => true | None => false end) ids
            then
              (Ok (success OtherData),
               updateDiscussion id (fun d => withLabels (attach ids (discussion_labels d)) d) g)
            else (Ok (failure "Could not resolve to a node with the global id"), g)
        | None => (Ok (failure "Could not resolve to a node with the global id"), g)
        end
    | _, _ => (Ok (failure "Variable $labelIds of type [ID!]! was provided invalid value"), g)
    end
  else if query c =? UPDATE_DISCUSSION_MUTATION then
    match Object.get "discussionId" vars, Object.get "title" vars, Object.get "body" vars with
    | VStr id, VStr title, VStr body =>
        match findDiscussion id g with
        | Some _ =>
            (Ok (success OtherData),
             updateDiscussion id
               (fun d => {| discussion_id := discussion_id d; discussion_title := title;
                            discussion_body := body;
                            discussion_labels := discussion_labels d |}) g)
        | None => (Ok (failure "Could not resolve to a node with the global id"), g)
        end
    | _, _, _ => (Ok (failure "Variable $body of type String! was provided invalid value"), g)
    end
  else (Ok (failure "Unknown document"), g).

End GitHubModel.

(** Modelled from the spec: client.ts ([githubClient(options).getAllPosts]) is
    not among the sources.  Following the Remote Directory and Label Mapper
    sections, every discussion is returned as a post whose tags are its
    tag-prefixed label names without the prefix and whose series is the
    first series-prefixed one. *)
Definition modelGetAllPosts (o : GitHubClientOptions) (g : GitHub)
  : result (list GitHubPost) * GitHub :=
  let strip (p : string) (names : list string) :=
    map (JS.dropChars (String.length p)) (filter (fun n => JS.startsWith n p) names) in
  (Ok (map (fun d =>
              let names := map label_name (GitHubModel.resolve g (discussion_labels d)) in
              {| post_id := discussion_id d;
                 post_title := discussion_title d;
                 post_body := discussion_body d;
                 post_tags := strip (co_tagLabelPrefix o) names;
                 post_series := hd_error (strip (co_seriesLabelPrefix o) names) |})
           (gh_discussions g)),
   g).

(** The plugin run against the model, with the flat YAML functions. *)
Definition modelUpload (strict : bool) :=
  upload (GitHubModel.transport strict) modelGetAllPosts
         FlatYaml.parseYaml FlatYaml.stringifyYaml.

(** The calls among the events of a run, in order. *)
Fixpoint calls (evs : list Event) : list Call :=
  match evs with
  | [] => []
  | Fetch c :: rest => c :: calls rest
  | _ :: rest => calls rest
  end.

(** A markdown file of the articles folder from its front-matter lines and
    body. *)
Definition article (fileName : string) (frontMatter : list string) (body : string) : TFile :=
  {| path := "Blog/" ++ fileName ++ ".md";
     name := fileName ++ ".md";
     basename := fileName;
     content := "---" ++ JS.newline
                ++ String.concat "" (map (fun l => l ++ JS.newline) frontMatter)
                ++ "---" ++ JS.newline ++ body |}.

(** The create-label call for a name. *)
Definition createLabelCall (repoId labelName tok : string) : Call :=
  {| query := CREATE_LABEL_MUTATION;
     variables := createLabelVariables repoId labelName;
     token := tok |}.

(** The request that opens an upload. *)
Definition repositoryInfoCall (settings : OGDSettings) (tok : option string) : Call :=
  {| query := GET_REPOSITORY_INFO;
     variables := [("owner", VStr (owner settings)); ("name", VStr (repo settings))];
     token := tokenText tok |}.

(** The create-label requests for a name among the events of a run. *)
Definition createLabelRequests (labelName : string) (evs : list Event) : list Call :=
  filter (fun c => (query c =? CREATE_LABEL_MUTATION)
                   && JS.strictEq (Object.get "name" (variables c)) (VStr labelName))
         (calls evs).

(** The events a run added to those of the world it started in. *)
Definition sentSince {Remote : Type} (w w' : World Remote) : list Event :=
  skipn (List.length (events w)) (events w').

(** The label ids that the remove-labels requests for a discussion carry,
    among the events of a run. *)
Definition detachedIds (discussionId : string) (evs : list Event) : list string :=
  flat_map (fun c => match Object.get "labelIds" (variables c) with
                     | VList ids => ids
                     | _ => []
                     end)
           (filter (fun c => (query c =? REMOVE_LABELS)
                             && JS.strictEq (Object.get "labelableId" (variables c))
                                            (VStr discussionId))
                   (calls evs)).

(** The metadata block of a body, as the plugin reads it. *)
Definition metadataBlock (body : string) : Value := JS.index (JS.split "---" body) 1.

(** The body of a discussion of the model. *)
Definition bodyOf (id : string) (g : GitHub) : string :=
  match GitHubModel.findDiscussion id g with
  | Some d => discussion_body d
  | None => ""
  end.

(** No string occurs twice. *)
Fixpoint distinct (l : list string) : bool :=
  match l with
  | [] => true
  | x :: rest => negb (existsb (String.eqb x) rest) && distinct rest
  end.

(** The tags of a front matter when it has a tag list. *)
Definition tagsOf (frontMatter : object) : list string :=
  match Object.get "tags" frontMatter with
  | VList l => l
  | _ => []
  end.

(** *** Well-formed states of the model *)

(** The number in an id the model made. *)
Definition labelNumber (id : string) : option nat :=
  if String.prefix "LA_" id
  then option_map Nat.of_uint (DecimalString.NilZero.uint_of_string (JS.dropChars 3 id))
  else None.

Definition olderThan (n : nat) (id : string) : bool :=
  match labelNumber id with
  | Some k => (k <? n)%nat
  | None => true
  end.

(** Label ids and label names are unique and the counter is ahead of the
    ids made so far. *)
Definition wellFormed (g : GitHub) : bool :=
  distinct (map label_id (gh_labels g)) &&
  distinct (map label_name (gh_labels g)) &&
  forallb (olderThan (gh_created g)) (map label_id (gh_labels g)).

(** The known-labels map an upload builds from the state of the service. *)
Definition knownLabels (g : GitHub) : LabelMap :=
  existingLabelsOf (firstn 100 (gh_labels g)).

(** One application of the label update to a matched discussion, as the
    first thing an upload does with the service in state [g]. *)
Definition applyLabelUpdate (strict : bool) (settings : OGDSettings) (tok : string)
  (existingPost : GitHubPost) (frontMatter : object) (w : World GitHub)
  : result unit * World GitHub :=
  reconcileLabels (GitHubModel.transport strict) settings
    (gh_repositoryId (remote w)) (knownLabels (remote w)) tok existingPost frontMatter w.

(** Ids gathered from a known-labels map that has every name. *)
Definition gather (cache : LabelMap) (labelNames : list string) (labelIds : LabelMap)
  : LabelMap :=
  fold_left (fun m labelName =>
               match JsMap.get String.eqb labelName cache with
               | Some id => JsMap.set String.eqb labelName id m
               | None => m
               end)
            labelNames labelIds.

(** The world after a request that left the service in state [g]. *)
Definition logged (w : World GitHub) (q : string) (vars : object) (tok : string) (g : GitHub)
  : World GitHub :=
  {| remote := g;
     events := events w ++ [Fetch {| query := q; variables := vars; token := tok |}] |}.

(** The state of the model after it made a label. *)
Definition withNewLabel (labelName : string) (g : GitHub) : GitHub :=
  {| gh_repositoryId := gh_repositoryId g;
     gh_categories := gh_categories g;
     gh_labels := (gh_labels g ++ [{| label_id := GitHubModel.newLabelId (gh_created g);
                                      label_name := labelName |}])%list;
     gh_discussions := gh_discussions g;
     gh_created := S (gh_created g) |}.

Definition resolvable (g : GitHub) (id : string) : bool :=
  match GitHubModel.labelOfId g id with
  | Some _ => true
  | None => false
  end.

(** Every entry of the map names a label of the repository. *)
Definition sound (g : GitHub) (m : LabelMap) : Prop :=
  forall labelName id,
    JsMap.get String.eqb labelName m = Some id ->
    In {| label_id := id; label_name := labelName |} (gh_labels g).

(** Every label of the repository is in the map. *)
Definition covers (g : GitHub) (m : LabelMap) : Prop :=
  forall labelName id,
    In {| label_id := id; label_name := labelName |} (gh_labels g) ->
    JsMap.get String.eqb labelName m = Some id.

(** [g'] has the labels of [g] and maybe more, and the same discussions. *)
Definition grows (g g' : GitHub) : Prop :=
  (exists created, gh_labels g' = (gh_labels g ++ created)%list) /\
  gh_discussions g' = gh_discussions g /\
  gh_repositoryId g' = gh_repositoryId g.

(** The local file has a metadata block whose slug is truthy. *)
Definition hasSlug (parseYaml : Value -> result (option object)) (file : TFile)
  (frontMatter : object) : Prop :=
  3 <= List.length (JS.split "---" (content file)) /\
  parseYaml (JS.index (JS.split "---" (content file)) 1) = Ok (Some frontMatter) /\
  JS.truthy (Object.get "slug" frontMatter) = true.

(** The documents a dialog of upload sends when it is approved. *)
Definition permitted (modal : Modal) (document : string) : bool :=
  match modal with
  | CreateDiscussionsModal =>
      (document =? CREATE_LABEL_MUTATION) || (document =? CREATE_DISCUSSION_MUTATION)
      || (document =? ADD_LABELS_TO_DISCUSSION)
  | UpdateLabelsModal =>
      (document =? CREATE_LABEL_MUTATION) || (document =? GET_DISCUSSION_LABELS)
      || (document =? REMOVE_LABELS) || (document =? ADD_LABELS_TO_DISCUSSION)
  | UpdateContentModal => (document =? UPDATE_DISCUSSION_MUTATION)
  end.

(** The user approved the dialog. *)
Definition approved (clicks : list (Modal * bool)) (modal : Modal) : bool :=
  existsb (fun click => Modal_eqb (fst click) modal && snd click) clicks.

(** A document of a dialog the user approved. *)
Definition approvedDocument (clicks : list (Modal * bool)) (document : string) : bool :=
  existsb (fun modal => approved clicks modal && permitted modal document)
    [CreateDiscussionsModal; UpdateLabelsModal; UpdateContentModal].

(** A request of an upload is in order when it is the repository query or
    a document of a dialog the user approved. *)
Definition inOrder (clicks : list (Modal * bool)) (c : Call) : bool :=
  (query c =? GET_REPOSITORY_INFO) || approvedDocument clicks (query c).

(** The separator does not match at any position inside [a] when [a] is
    followed by [tail]. *)
Fixpoint noMatchWithin (sep a tail : string) : bool :=
  match a with
  | EmptyString => true
  | String _ rest => negb (String.prefix sep (a ++ tail)) && noMatchWithin sep rest tail
  end.


(** Every request the computation sends is of a document that [allowed]
    accepts. *)
Definition sendsOnly {Remote A : Type} (allowed : string -> bool) (c : M Remote A) : Prop :=
  forall w : World Remote,
  exists sent : list Event,
    events (snd (c w)) = (events w ++ sent)%list /\
    forallb (fun call => allowed (query call)) (calls sent) = true.


(** The fetches through the client among the events of a run, in order. *)
Fixpoint clientFetches (evs : list Event) : list GitHubClientOptions :=
  match evs with
  | [] => []
  | ClientFetch o :: rest => o :: clientFetches rest
  | _ :: rest => clientFetches rest
  end.

(** Every fetch through the client that the computation makes is one that
    [allowed] accepts. *)
Definition fetchesOnly {Remote A : Type} (allowed : GitHubClientOptions -> Prop)
  (c : M Remote A) : Prop :=
  forall w : World Remote,
  exists sent : list Event,
    events (snd (c w)) = (events w ++ sent)%list /\
    Forall allowed (clientFetches sent).

(** The client is asked, with the token, for the discussions of the
    configured repository and category. *)
Definition configuredFetch (settings : OGDSettings) (tok : option string)
  (o : GitHubClientOptions) : Prop :=
  co_auth o = tokenText tok /\
  co_owner o = owner settings /\
  co_name o = repo settings /\
  co_blogPostCategory o = blogPostCategory settings.

(** What an upload may do towards the service: send the repository query or
    a document of a dialog the user approved, and fetch the discussions
    through the client. *)
Definition eventInOrder (settings : OGDSettings) (tok : option string)
  (clicks : list (Modal * bool)) (e : Event) : Prop :=
  match e with
  | Fetch c => inOrder clicks c = true
  | ClientFetch o => configuredFetch settings tok o
  | Notice _ => True
  | ErrorNotice _ => True
  end.

(** The mutation that only one dialog of upload sends. *)
Definition ownDocument (modal : Modal) : string :=
  match modal with
  | CreateDiscussionsModal => CREATE_DISCUSSION_MUTATION
  | UpdateLabelsModal => REMOVE_LABELS
  | UpdateContentModal => UPDATE_DISCUSSION_MUTATION
  end.




(** The value of an own property of an object, [None] when it has no such
    key. *)
Fixpoint ownProperty (k : string) (o : object) : option Value :=
  match o with
  | [] => None
  | (k', v) :: rest => if k =? k' then Some v else ownProperty k rest
  end.


(** ** Sample data *)
Module Sample.

Definition settings : OGDSettings := {|
  articlesDir := "Blog";
  makeMd := false;
  owner := "me";
  repo := "blog";
  blogPostCategory := "Blog Posts";
  draftLabel := "state/draft";
  tagLabelPrefix := "tag/";
  seriesLabelPrefix := "series/"
|}.

(** A draft article with one tag. *)
Definition draftFrontMatter : object :=
  [("slug", VStr "a"); ("draft", VBool true); ("tags", VList ["x"])].

(** The labels on a discussion: an unrelated one, the draft label, a tag. *)
Definition nodes : list Label :=
  [{| label_id := "L1"; label_name := "area/infra" |};
   {| label_id := "L2"; label_name := "state/draft" |};
   {| label_id := "L3"; label_name := "tag/x" |}].

(** An article that is no draft and has the tag [y]. *)
Definition publishedFrontMatter : object :=
  [("slug", VStr "b"); ("tags", VList ["y"])].


(** A repository with one unrelated label and one discussion, published
    from the article [B]. *)
Definition github : GitHub := {|
  gh_repositoryId := "R1";
  gh_categories := [{| category_id := "C1"; category_name := "Blog Posts" |}];
  gh_labels := [{| label_id := "L1"; label_name := "area/infra" |}];
  gh_discussions :=
    [{| discussion_id := "D1";
        discussion_title := "B";
        discussion_body :=
          content (article "B" ["slug: b"; "description: old"; "published: 2024-01-02"] "old");
        discussion_labels := ["L1"] |}];
  gh_created := 0
|}.

(** The article [A] is new, [B] is matched; both carry the tag [x], which
    the repository does not have yet. *)
Definition vault : Vault := {|
  vault_folders := ["Blog"];
  vault_markdownFiles :=
    [article "A" ["slug: a"; "description: d"; "published: 01/02/2024"; "tags: [x]"] "hello";
     article "B" ["slug: b"; "description: new"; "published: 01/02/2024"; "tags: [x]"]
       "new body"]
|}.

(** Two new articles with the same new tag. *)
Definition vaultTwoNew : Vault := {|
  vault_folders := ["Blog"];
  vault_markdownFiles :=
    [article "A" ["slug: a"; "description: d"; "published: 01/02/2024"; "tags: [x]"] "hello";
     article "A2" ["slug: a2"; "description: d"; "published: 01/03/2024"; "tags: [x]"] "again"]
|}.

(** The same repository without the configured category. *)
Definition githubNoCategory : GitHub := {|
  gh_repositoryId := "R1";
  gh_categories := [{| category_id := "C9"; category_name := "General" |}];
  gh_labels := gh_labels github;
  gh_discussions := gh_discussions github;
  gh_created := 0
|}.

Definition start (g : GitHub) : World GitHub := {| remote := g; events := [] |}.

(** A remote article whose metadata has no slug. *)
Definition slugless : GitHubPost := {|
  post_id := "D7";
  post_title := "Untitled";
  post_body := content (article "Untitled" ["description: no slug here"] "text");
  post_tags := [];
  post_series := None
|}.



(** The matched article [B] as the scan of upload records it, and the post
    it is matched with. *)
Definition entryB : LocalEntry := {|
  entry_file :=
    article "B" ["slug: b"; "description: new"; "published: 01/02/2024"; "tags: [x]"] "new body";
  entry_frontMatter :=
    [("slug", VStr "b"); ("description", VStr "new"); ("published", VStr "01/02/2024");
     ("tags", VList ["x"])];
  entry_sections :=
    JS.split "---"
      (content (article "B" ["slug: b"; "description: new"; "published: 01/02/2024"; "tags: [x]"]
                  "new body"))
|}.

Definition postB : GitHubPost := {|
  post_id := "D1";
  post_title := "B";
  post_body := bodyOf "D1" github;
  post_tags := [];
  post_series := None
|}.



(** The repository of [github] once the label [tag/x] exists. *)
Definition githubTagged : GitHub := {|
  gh_repositoryId := "R1";
  gh_categories := gh_categories github;
  gh_labels := [{| label_id := "L1"; label_name := "area/infra" |};
                {| label_id := "L2"; label_name := "tag/x" |}];
  gh_discussions := gh_discussions github;
  gh_created := 0
|}.

(** The repository of [github] with the labels of [nodes], all three on the
    discussion: an unrelated label, the draft label and a tag. *)
Definition githubDraft : GitHub := {|
  gh_repositoryId := "R1";
  gh_categories := gh_categories github;
  gh_labels := nodes;
  gh_discussions :=
    [{| discussion_id := "D1";
        discussion_title := "B";
        discussion_body := bodyOf "D1" github;
        discussion_labels := ["L1"; "L2"; "L3"] |}];
  gh_created := 0
|}.

(** A vault with the matched article only. *)
Definition vaultB : Vault := {|
  vault_folders := ["Blog"];
  vault_markdownFiles := [entry_file entryB]
|}.


End Sample.

(** * Properties *)

(** ** Strings *)

Example split_date : JS.split "-" "2024-01-02" = ["2024"; "01"; "02"].
Proof. reflexivity. Qed.

Example split_sections :
  JS.split "---" (content (article "A" ["slug: a"] "body"))
  = [""; JS.newline ++ "slug: a" ++ JS.newline; JS.newline ++ "body"].
Proof. reflexivity. Qed.

Example trim_body : JS.trim (JS.newline ++ " body text" ++ JS.newline) = "body text".
Proof. reflexivity. Qed.

(** A body that starts with a no-break space and ends with a line separator
    and a byte order mark is trimmed of them; a multi-byte character that is
    no white space stays. *)
Example trim_unicode_space :
  let nbsp := String (ascii_of_nat 194) (String (ascii_of_nat 160) "") in
  let ls := String (ascii_of_nat 226) (String (ascii_of_nat 128) (String (ascii_of_nat 168) "")) in
  let bom := String (ascii_of_nat 239) (String (ascii_of_nat 187) (String (ascii_of_nat 191) "")) in
  let e_acute := String (ascii_of_nat 195) (String (ascii_of_nat 169) "") in
  JS.trim (nbsp ++ " new body" ++ ls ++ bom) = "new body" /\
  JS.trim (JS.newline ++ e_acute ++ "t" ++ e_acute ++ " ") = e_acute ++ "t" ++ e_acute.
Proof. cbv zeta. split; reflexivity. Qed.

Example to_obsidian : convertDateFormatToObsidian (VStr "2024-01-02") = Ok "01/02/2024".
Proof. reflexivity. Qed.

Example to_gh : convertDateFormatToGH (VStr "01/02/2024") = Ok "2024-01-02".
Proof. reflexivity. Qed.

Module JSFacts.

Lemma prefix_single (c d : ascii) (rest : string) :
  String.prefix (String c EmptyString) (String d rest) = Ascii.eqb c d.
Proof.
  simpl. destruct (ascii_dec c d) as [->|ne].
  - rewrite Ascii.eqb_refl. now destruct rest.
  - symmetry. now apply Ascii.eqb_neq.
Qed.

Lemma append_assoc (a b c : string) : (a ++ b) ++ c = a ++ (b ++ c).
Proof. induction a as [|x a IH]; simpl; [reflexivity | now rewrite IH]. Qed.

Lemma append_empty_r (a : string) : a ++ "" = a.
Proof. induction a as [|x a IH]; simpl; [reflexivity | now rewrite IH]. Qed.

Lemma occurs_app (c : ascii) (a b : string) :
  JS.occurs c (a ++ b) = JS.occurs c a || JS.occurs c b.
Proof.
  induction a as [|x a IH]; simpl; [reflexivity|].
  rewrite IH. now rewrite orb_assoc.
Qed.

(** A string without the separator is a single piece. *)
Lemma splitFrom_single_absent (c : ascii) (s cur : string) :
  JS.occurs c s = false ->
  JS.splitFrom (String c EmptyString) 0 cur s = [cur ++ s].
Proof.
  revert cur. induction s as [|d s IH]; intros cur H.
  - simpl. now rewrite append_empty_r.
  - simpl in H. apply orb_false_iff in H as [Hd Hs].
    cbn [JS.splitFrom]. rewrite prefix_single, Hd.
    rewrite IH by assumption. now rewrite append_assoc.
Qed.

(** The first piece ends at the first separator. *)
Lemma splitFrom_single_app (c : ascii) (a b cur : string) :
  JS.occurs c a = false ->
  JS.splitFrom (String c EmptyString) 0 cur (a ++ String c b)
  = (cur ++ a) :: JS.splitFrom (String c EmptyString) 0 "" b.
Proof.
  revert cur. induction a as [|d a IH]; intros cur H.
  - cbn [append JS.splitFrom]. rewrite prefix_single, Ascii.eqb_refl.
    now rewrite append_empty_r.
  - simpl in H. apply orb_false_iff in H as [Hd Ha].
    cbn [append JS.splitFrom]. rewrite prefix_single, Hd.
    rewrite IH by assumption. now rewrite append_assoc.
Qed.

(** Joining the pieces with the separator gives the string back. *)
Lemma splitFrom_single_join (c : ascii) (s cur : string) :
  JS.join (String c EmptyString) (JS.splitFrom (String c EmptyString) 0 cur s) = cur ++ s.
Proof.
  revert cur. induction s as [|d s IH]; intros cur.
  - simpl. now rewrite append_empty_r.
  - cbn [JS.splitFrom]. rewrite prefix_single.
    destruct (Ascii.eqb c d) eqn:E.
    + apply Ascii.eqb_eq in E. subst d. cbn [String.length Nat.sub].
      unfold JS.join in *. cbn [String.concat].
      specialize (IH ""). 
      destruct (JS.splitFrom (String c "") 0 "" s) eqn:Es.
      * destruct s; discriminate.
      * rewrite IH. reflexivity.
    + rewrite IH. now rewrite append_assoc.
Qed.

End JSFacts.

(** ** Date conversion *)

Lemma split_three (c : ascii) (a b d : string) :
  JS.occurs c a = false -> JS.occurs c b = false -> JS.occurs c d = false ->
  JS.split (String c EmptyString) (a ++ String c (b ++ String c d)) = [a; b; d].
Proof.
  intros Ha Hb Hd. unfold JS.split.
  rewrite JSFacts.splitFrom_single_app by assumption.
  rewrite JSFacts.splitFrom_single_app by assumption.
  rewrite JSFacts.splitFrom_single_absent by assumption.
  reflexivity.
Qed.

Lemma split_three_inv (c : ascii) (s a b d : string) :
  JS.split (String c EmptyString) s = [a; b; d] ->
  s = a ++ String c (b ++ String c d).
Proof.
  intros H.
  pose proof (JSFacts.splitFrom_single_join c s "") as J.
  unfold JS.split in H. rewrite H in J. simpl in J. now symmetry.
Qed.

(** C6. A remote-format date with exactly three components under [-], none
    of which holds the local separator [/], converted to the local format and
    back, is the string one started from. *)
Theorem date_round_trip (d year month day : string) :
  JS.split "-" d = [year; month; day] ->
  JS.occurs "/" d = false ->
  rbind (convertDateFormatToObsidian (VStr d)) (fun o => convertDateFormatToGH (VStr o))
  = Ok d.
Proof.
  intros Hsplit Hslash.
  pose proof (split_three_inv _ _ Hsplit) as Hd.
  rewrite Hd in Hslash.
  rewrite JSFacts.occurs_app in Hslash. apply orb_false_iff in Hslash as [Hy Hrest].
  cbn [JS.occurs] in Hrest. apply orb_false_iff in Hrest as [_ Hrest].
  rewrite JSFacts.occurs_app in Hrest. apply orb_false_iff in Hrest as [Hm Hrest].
  cbn [JS.occurs] in Hrest. apply orb_false_iff in Hrest as [_ Hday].
  unfold convertDateFormatToObsidian, convertDateFormatToGH.
  cbn [JS.splitValue rbind]. rewrite Hsplit.
  cbn [JS.index nth_error JS.template rbind].
  replace (month ++ "/" ++ day ++ "/" ++ year)
    with (month ++ String "/" (day ++ String "/" year)) by reflexivity.
  rewrite split_three by assumption.
  cbn [JS.index nth_error JS.template]. now rewrite Hd.
Qed.

Lemma date_round_trip_witness :
  rbind (convertDateFormatToObsidian (VStr "2024-01-02"))
        (fun o => convertDateFormatToGH (VStr o)) = Ok "2024-01-02".
Proof.
  apply (@date_round_trip "2024-01-02" "2024" "01" "02"); reflexivity.
Defined.

(** A component that holds the local separator does not survive the trip. *)
Example date_round_trip_needs_no_slash :
  JS.split "-" "2024-01/02-03" = ["2024"; "01/02"; "03"] /\
  rbind (convertDateFormatToObsidian (VStr "2024-01/02-03"))
        (fun o => convertDateFormatToGH (VStr o)) = Ok "03-01-02".
Proof. split; reflexivity. Qed.

(** The earlier copy of the function did not invert the upload conversion. *)
Example legacy_date_round_trip :
  rbind (Legacy.convertDateFormatToObsidian (VStr "2024-01-02"))
        (fun o => convertDateFormatToGH (VStr o)) = Ok "2024-01-02-undefined-undefined".
Proof. reflexivity. Qed.

(** C7, as stated, fails: a string with one component is converted, not
    rejected, by either function. *)
Lemma date_conversion_accepts_one_component :
  List.length (JS.split "/" "2024") <> 3 /\
  convertDateFormatToGH (VStr "2024") = Ok "undefined-2024-undefined" /\
  List.length (JS.split "-" "2024") <> 3 /\
  convertDateFormatToObsidian (VStr "2024") = Ok "undefined/undefined/2024".
Proof. repeat split; simpl; discriminate. Qed.

Lemma splitFrom_nonempty (sep s : string) :
  forall (skip : nat) (cur : string),
  exists first rest, JS.splitFrom sep skip cur s = first :: rest.
Proof.
  induction s as [|c s IH]; intros skip cur; cbn [JS.splitFrom].
  - now exists cur, [].
  - destruct skip as [|k]; [|apply IH].
    destruct (String.prefix sep (String c s)); [|apply IH].
    eexists. eexists. reflexivity.
Qed.

(** C7, amended. On every string, whatever the number of its components,
    both conversions return a string and throw nothing: the first component
    is always there, a missing second or third one is written [undefined],
    and components after the third are dropped. *)
Theorem date_conversion_total (s : string) :
  (exists first rest,
     JS.split "/" s = first :: rest /\
     convertDateFormatToGH (VStr s)
     = Ok (JS.template (JS.index rest 1) ++ "-" ++ first ++ "-"
           ++ JS.template (JS.index rest 0))) /\
  (exists first rest,
     JS.split "-" s = first :: rest /\
     convertDateFormatToObsidian (VStr s)
     = Ok (JS.template (JS.index rest 0) ++ "/" ++ JS.template (JS.index rest 1)
           ++ "/" ++ first)).
Proof.
  unfold convertDateFormatToGH, convertDateFormatToObsidian. cbn [JS.splitValue rbind].
  split.
  - destruct (splitFrom_nonempty "/" s 0 "") as [first [rest E]].
    exists first, rest. unfold JS.split. rewrite E. split; reflexivity.
  - destruct (splitFrom_nonempty "-" s 0 "") as [first [rest E]].
    exists first, rest. unfold JS.split. rewrite E. split; reflexivity.
Qed.

(** Only a value that is not a string makes them throw, and then a
    TypeError. *)
Lemma date_conversion_throws (v : Value) (e : JsError) :
  convertDateFormatToGH v = Throw e \/ convertDateFormatToObsidian v = Throw e ->
  e = TypeError /\ forall t, v <> VStr t.
Proof.
  unfold convertDateFormatToGH, convertDateFormatToObsidian.
  intros [H|H]; destruct v; simpl in H; try discriminate;
    (split; [congruence | intros t; discriminate]).
Qed.

Example date_extra_components :
  convertDateFormatToGH (VStr "01/02/2024/extra") = Ok "2024-01-02" /\
  convertDateFormatToObsidian (VStr "2024-01-02-extra") = Ok "01/02/2024".
Proof. split; reflexivity. Qed.

(** ** Objects, maps, lists *)

Lemma object_get_set_other (k k' : string) (v : Value) (o : object) :
  k <> k' -> Object.get k (Object.set k' v o) = Object.get k o.
Proof.
  intros ne. induction o as [|[k0 v0] o IH]; simpl.
  - destruct (k =? k')%string eqn:E; [apply String.eqb_eq in E; contradiction | reflexivity].
  - destruct (k' =? k0)%string eqn:E'.
    + apply String.eqb_eq in E'. subst k0. simpl.
      destruct (k =? k')%string eqn:E; [apply String.eqb_eq in E; contradiction | reflexivity].
    + simpl. destruct (k =? k0)%string; [reflexivity | exact IH].
Qed.

Lemma existsb_eqb_In (x : string) (l : list string) :
  existsb (String.eqb x) l = true <-> In x l.
Proof.
  rewrite existsb_exists. split.
  - intros [y [Hy E]]. apply String.eqb_eq in E. now subst.
  - intros H. exists x. split; [assumption | apply String.eqb_refl].
Qed.

Lemma distinct_NoDup (l : list string) : distinct l = true <-> NoDup l.
Proof.
  induction l as [|x l IH]; simpl.
  - split; [constructor | reflexivity].
  - rewrite andb_true_iff, negb_true_iff, IH. split.
    + intros [Hx Hl]. constructor; [|assumption].
      intros Hin. apply existsb_eqb_In in Hin. congruence.
    + intros H. inversion H as [|? ? Hx Hl]; subst. split; [|assumption].
      destruct (existsb (String.eqb x) l) eqn:E; [|reflexivity].
      apply existsb_eqb_In in E. contradiction.
Qed.

(** ** Labels rendered by upload *)

(** C8, as stated, fails: a draft article is given no draft label. *)
Lemma draft_article_gets_no_draft_label :
  Object.get "draft" Sample.draftFrontMatter = VBool true /\
  labelsOf Sample.settings Sample.draftFrontMatter = Ok ["tag/x"] /\
  ~ In (draftLabel Sample.settings) ["tag/x"].
Proof.
  repeat split. simpl. intros [H|[]]. discriminate.
Qed.

(** C8, amended. The labels rendered for upload are the tag prefix before
    each tag, then the series prefix before the series when there is one;
    no field other than [tags] and [series], a draft flag included, changes
    them. *)
Theorem labelsOf_tags_and_series_only (settings : OGDSettings) (frontMatter : object)
  (labels : list string) :
  labelsOf settings frontMatter = Ok labels ->
  labels = List.app (map (fun tag => tagLabelPrefix settings ++ tag) (tagsOf frontMatter))
                    (if JS.truthy (Object.get "series" frontMatter)
                     then [seriesLabelPrefix settings
                           ++ JS.template (Object.get "series" frontMatter)]
                     else []) /\
  forall (k : string) (v : Value),
    k <> "tags" -> k <> "series" ->
    labelsOf settings (Object.set k v frontMatter) = Ok labels.
Proof.
  intros H.
  assert (E : forall k v, k <> "tags" -> k <> "series" ->
              labelsOf settings (Object.set k v frontMatter) = labelsOf settings frontMatter).
  { intros k v Ht Hs. unfold labelsOf.
    rewrite !object_get_set_other by congruence. reflexivity. }
  split; [|intros k v Ht Hs; rewrite E; assumption].
  unfold labelsOf, tagsOf in *.
  destruct (Object.get "tags" frontMatter) as [| |[]|t|l]; simpl in H;
    try discriminate; try (inversion H; reflexivity).
  destruct (negb (t =? "")); simpl in H; [discriminate | inversion H; reflexivity].
Qed.

Lemma labelsOf_tags_and_series_only_witness :
  ["tag/x"] = List.app (map (fun tag => tagLabelPrefix Sample.settings ++ tag)
                           (tagsOf Sample.draftFrontMatter))
                       (if JS.truthy (Object.get "series" Sample.draftFrontMatter)
                        then [seriesLabelPrefix Sample.settings
                              ++ JS.template (Object.get "series" Sample.draftFrontMatter)]
                        else []) /\
  forall (k : string) (v : Value),
    k <> "tags" -> k <> "series" ->
    labelsOf Sample.settings (Object.set k v Sample.draftFrontMatter) = Ok ["tag/x"].
Proof.
  apply (@labelsOf_tags_and_series_only Sample.settings Sample.draftFrontMatter ["tag/x"]).
  reflexivity.
Defined.

Example labels_without_draft :
  labelsOf Sample.settings [("draft", VBool false); ("tags", VList ["x"]); ("series", VStr "s")]
  = Ok ["tag/x"; "series/s"].
Proof. reflexivity. Qed.

(** The draft label is rendered when a tag spells it, whatever the flag. *)
Example draft_label_from_a_tag :
  labelsOf {| articlesDir := "Blog"; makeMd := false; owner := "me"; repo := "blog";
              blogPostCategory := "Blog Posts"; draftLabel := "state/draft";
              tagLabelPrefix := "state/"; seriesLabelPrefix := "series/" |}
           [("draft", VBool false); ("tags", VList ["draft"])]
  = Ok ["state/draft"].
Proof. reflexivity. Qed.

(** ** Labels detached from a matched discussion *)

Lemma In_existingLabelsToRemove (settings : OGDSettings) (nodes : list Label) (id : string) :
  In id (existingLabelsToRemove settings nodes) <->
  exists label, In label nodes /\ label_id label = id /\
                managedPrefix settings (label_name label) = true.
Proof.
  unfold existingLabelsToRemove. rewrite in_map_iff. split.
  - intros [label [E H]]. apply filter_In in H as [Hin Hp]. now exists label.
  - intros [label [Hin [E Hp]]]. exists label. split; [assumption|].
    apply filter_In. now split.
Qed.

Lemma NoDup_map_inj {A B} (f : A -> B) (l : list A) (x y : A) :
  NoDup (map f l) -> In x l -> In y l -> f x = f y -> x = y.
Proof.
  induction l as [|a l IH]; simpl; intros ND Hx Hy E; [contradiction|].
  inversion ND as [|? ? Hnot ND']; subst.
  destruct Hx as [->|Hx], Hy as [->|Hy]; try reflexivity.
  - exfalso. apply Hnot. rewrite E. now apply in_map.
  - exfalso. apply Hnot. rewrite <- E. now apply in_map.
  - now apply IH.
Qed.

(** C1, as stated, fails: the draft label of a discussion whose article is
    no draft is not among the labels detached. *)
Lemma draft_label_is_not_detached :
  labelsOf Sample.settings Sample.publishedFrontMatter = Ok ["tag/y"] /\
  In {| label_id := "L2"; label_name := draftLabel Sample.settings |} Sample.nodes /\
  ~ In (draftLabel Sample.settings) ["tag/y"] /\
  existingLabelsToRemove Sample.settings Sample.nodes = ["L3"] /\
  ~ In "L2" (existingLabelsToRemove Sample.settings Sample.nodes).
Proof.
  repeat split.
  - simpl. tauto.
  - simpl. intros [H|[]]. discriminate.
  - simpl. intros [H|[]]. discriminate.
Qed.

(** ** Requests of the plugin, for every remote service *)

Section PluginFacts.

Variable Remote : Type.
Variable transport : Call -> Remote -> result Response * Remote.
Variable getAllPosts : GitHubClientOptions -> Remote -> result (list GitHubPost) * Remote.
Variable parseYaml : Value -> result (option object).
Variable stringifyYaml : object -> string.

Lemma executeGitHubGraphQL_events (q : string) (vars : object) (tok : string)
  (w : World Remote) :
  events (snd (executeGitHubGraphQL transport q vars tok w))
  = (events w ++ [Fetch {| query := q; variables := vars; token := tok |}])%list.
Proof.
  unfold executeGitHubGraphQL.
  destruct (transport _ (remote w)) as [[response|e] remote']; simpl; [|reflexivity].
  destruct (resp_errors response) as [[|msg msgs]|]; reflexivity.
Qed.

(** Everything [createOrUpdateLabels] sends is a create-label call for one of
    the names that the known-labels map lacks. *)
Lemma createOrUpdateLabelsFrom_events (repoId : string) (existingLabels : LabelMap)
  (tok : string) (labelNames : list string) :
  forall (labelIds : LabelMap) (w : World Remote),
  exists sent,
    events (snd (createOrUpdateLabelsFrom transport repoId existingLabels labelNames tok
                   labelIds w))
    = (events w ++ map Fetch sent)%list /\
    Forall (fun c => exists labelName,
                In labelName labelNames /\
                JsMap.get String.eqb labelName existingLabels = None /\
                c = createLabelCall repoId labelName tok) sent.
Proof.
  induction labelNames as [|labelName rest IH]; intros labelIds w.
  - exists []. simpl. split; [now rewrite app_nil_r | constructor].
  - cbn [createOrUpdateLabelsFrom].
    destruct (JsMap.get String.eqb labelName existingLabels) as [id|] eqn:Hget.
    + destruct (IH (JsMap.set String.eqb labelName id labelIds) w) as [sent [E F]].
      exists sent. split; [exact E|].
      eapply Forall_impl; [|exact F]. intros c [n [Hn Hc]]. exists n. simpl. tauto.
    + unfold bind at 1.
      pose proof (executeGitHubGraphQL_events CREATE_LABEL_MUTATION
                    (createLabelVariables repoId labelName) tok w) as Hev.
      destruct (executeGitHubGraphQL transport CREATE_LABEL_MUTATION
                  (createLabelVariables repoId labelName) tok w) as [[data|e] w1];
        simpl in Hev.
      * unfold bind at 1, liftR.
        destruct (createLabelId data) as [id|e].
        -- destruct (IH (JsMap.set String.eqb labelName id labelIds) w1) as [sent [E F]].
           exists (createLabelCall repoId labelName tok :: sent). split.
           ++ rewrite E, Hev, <- app_assoc. reflexivity.
           ++ constructor.
              ** exists labelName. simpl. tauto.
              ** eapply Forall_impl; [|exact F]. intros c [n [Hn Hc]]. exists n. simpl. tauto.
        -- exists [createLabelCall repoId labelName tok]. simpl. split; [exact Hev|].
           constructor; [|constructor]. exists labelName. simpl. tauto.
      * exists [createLabelCall repoId labelName tok]. simpl. split; [exact Hev|].
        constructor; [|constructor]. exists labelName. simpl. tauto.
Qed.

Lemma calls_app (l1 l2 : list Event) : calls (l1 ++ l2) = (calls l1 ++ calls l2)%list.
Proof.
  induction l1 as [|[c|o|m|e] l1 IH]; simpl; try assumption; [reflexivity|].
  now rewrite IH.
Qed.

(** [checkSettings] only shows notices. *)
Lemma checkSettings_notices (settings : OGDSettings) (tok : option string) (vault : Vault)
  (w : World Remote) :
  exists (passing : bool) (notices : list Event),
    checkSettings settings tok vault w
    = (Ok passing, {| remote := remote w; events := events w ++ notices |}) /\
    calls notices = [].
Proof.
  unfold checkSettings.
  destruct (List.length (vault_folders vault) =? 0)%nat.
  - eexists; eexists; split; [reflexivity|reflexivity].
  - unfold bind, emit, ret.
    destruct (List.length (articleFiles settings vault) =? 0)%nat;
      destruct (tokenText tok =? ""); destruct ((owner settings =? "") || (repo settings =? ""));
      cbn [remote events]; rewrite <- ?app_assoc;
      (eexists; eexists; split; [reflexivity|reflexivity]).
Qed.

(** C9. When the repository information lists no discussion category with the
    configured name, an upload sends nothing but the repository query: no
    mutation is issued, whatever the user answers afterwards. *)
Theorem upload_without_category_sends_no_mutation (settings : OGDSettings)
  (tok : option string) (vault : Vault) (clicks : list (Modal * bool))
  (r r' : Remote) (id : string) (categories : list Category) (labels : list Label) :
  transport (repositoryInfoCall settings tok) r
  = (Ok {| resp_errors := None; resp_data := RepositoryData id categories labels |}, r') ->
  find (fun cat => category_name cat =? blogPostCategory settings) categories = None ->
  Forall (fun c : Call =>
            c = repositoryInfoCall settings tok /\ isMutation (query c) = false)
         (calls (events (upload transport getAllPosts parseYaml stringifyYaml
                           settings tok vault clicks {| remote := r; events := [] |}))).
Proof.
  intros Htransport Hfind. apply Forall_forall. intros c.
  unfold upload, prepareUpload. unfold bind at 1.
  destruct (checkSettings_notices settings tok vault {| remote := r; events := [] |})
    as [passing [notices [Hcheck Hcalls]]].
  rewrite Hcheck. cbn [remote events app].
  destruct passing; cbn [negb].
  - unfold tryCatch, bind at 1, executeGitHubGraphQL. cbn [remote events].
    fold (repositoryInfoCall settings tok). rewrite Htransport. cbn [resp_errors resp_data].
    unfold bind at 1, liftR. cbn [repositoryOf]. rewrite Hfind.
    cbn [String.eqb]. unfold bind, emit, ret. cbn [events remote snd fst].
    rewrite !calls_app, Hcalls. simpl.
    intros [<-|[]]. split; reflexivity.
  - unfold ret. cbn [events]. rewrite Hcalls. intros [].
Qed.



End PluginFacts.

(** ** Runs against the model of the remote service *)

Lemma upload_without_category_sends_no_mutation_witness :
  Forall (fun c : Call =>
            c = repositoryInfoCall Sample.settings (Some "tok")
            /\ isMutation (query c) = false)
         (calls (events (modelUpload false Sample.settings (Some "tok") Sample.vault
                           [(CreateDiscussionsModal, true); (UpdateLabelsModal, true);
                            (UpdateContentModal, true)]
                           (Sample.start Sample.githubNoCategory)))).
Proof.
  apply (@upload_without_category_sends_no_mutation GitHub (GitHubModel.transport false)
           modelGetAllPosts FlatYaml.parseYaml FlatYaml.stringifyYaml
           Sample.settings (Some "tok") Sample.vault
           [(CreateDiscussionsModal, true); (UpdateLabelsModal, true);
            (UpdateContentModal, true)]
           Sample.githubNoCategory Sample.githubNoCategory "R1"
           (gh_categories Sample.githubNoCategory) (gh_labels Sample.githubNoCategory)).
  - reflexivity.
  - reflexivity.
Defined.

(** The whole run without the category: the query, then the notice. *)
Example upload_without_category_events :
  events (modelUpload false Sample.settings (Some "tok") Sample.vault
            [(CreateDiscussionsModal, true); (UpdateLabelsModal, true);
             (UpdateContentModal, true)]
            (Sample.start Sample.githubNoCategory))
  = [Notice "OGD: Found 2 markdown files in the directory.";
     Fetch (repositoryInfoCall Sample.settings (Some "tok"));
     Notice "Category 'Blog Posts' not found in repository"].
Proof. vm_compute. reflexivity. Qed.

(** Two names that the repository lacks.  A service that enforces the
    declared [$color: String!] refuses the first request and the second name
    is not reached; a service that lets the missing variable pass gets a
    request for each. *)
Example create_label_requests_on_the_model :
  map (fun call => Object.get "name" (variables call))
      (calls (events (snd (createOrUpdateLabels (GitHubModel.transport true) "R1"
                             (knownLabels Sample.github) ["tag/a"; "tag/b"] "tok"
                             (Sample.start Sample.github)))))
  = [VStr "tag/a"] /\
  map (fun call => Object.get "name" (variables call))
      (calls (events (snd (createOrUpdateLabels (GitHubModel.transport false) "R1"
                             (knownLabels Sample.github) ["tag/a"; "tag/b"] "tok"
                             (Sample.start Sample.github)))))
  = [VStr "tag/a"; VStr "tag/b"].
Proof. split; vm_compute; reflexivity. Qed.



(** C4. The new article [A] and the matched article [B] both introduce the
    tag [x]; the user approves the creation of discussions and the update of
    labels.  The create-label mutation for [tag/x] is sent twice, whether or
    not the service accepts the first. *)
Theorem same_new_label_created_twice (strict : bool) :
  createLabelRequests "tag/x"
    (events (modelUpload strict Sample.settings (Some "tok") Sample.vault
               [(CreateDiscussionsModal, true); (UpdateLabelsModal, true)]
               (Sample.start Sample.github)))
  = [createLabelCall "R1" "tag/x" "tok"; createLabelCall "R1" "tag/x" "tok"].
Proof. destruct strict; vm_compute; reflexivity. Qed.

(** Two new articles with the same new tag, on a service that accepts a
    create-label request without a colour: the second request for the name
    is refused and the second article is not published. *)
Example same_new_label_two_new_articles :
  let w := modelUpload false Sample.settings (Some "tok") Sample.vaultTwoNew
             [(CreateDiscussionsModal, true)] (Sample.start Sample.github) in
  createLabelRequests "tag/x" (events w)
  = [createLabelCall "R1" "tag/x" "tok"; createLabelCall "R1" "tag/x" "tok"] /\
  map discussion_title (gh_discussions (remote w)) = ["B"; "A"].
Proof. cbv zeta. split; vm_compute; reflexivity. Qed.

(** ** Matching *)

(** C5. download with no local file and one remote article whose metadata
    has no slug: the article is listed among the new articles, under the key
    [undefined]. *)
Theorem slugless_remote_article_is_new :
  rbind (FlatYaml.parseYaml (metadataBlock (post_body Sample.slugless)))
        (fun m => prop m "slug") = Ok VUndefined /\
  newArticles FlatYaml.parseYaml [Sample.slugless] []
  = Ok [(VUndefined,
         {| remote_frontMatter := [("description", VStr "no slug here"); ("tags", VList [])];
            remote_body := VStr (JS.newline ++ "text");
            remote_title := "Untitled" |})].
Proof. split; vm_compute; reflexivity. Qed.

(** ** The label update against the model *)

Section ModelSteps.

Variable strict : bool.

Let exec := executeGitHubGraphQL (GitHubModel.transport strict).

Lemma exec_discussion_labels (id tok : string) (w : World GitHub) :
  exec GET_DISCUSSION_LABELS [("id", VStr id)] tok w
  = (match GitHubModel.findDiscussion id (remote w) with
     | Some d => Ok (DiscussionLabelsData
                       (firstn 100 (GitHubModel.resolve (remote w) (discussion_labels d))))
     | None => Throw (Error "Could not resolve to a node with the global id")
     end,
     logged w GET_DISCUSSION_LABELS [("id", VStr id)] tok (remote w)).
Proof.
  unfold exec, executeGitHubGraphQL, GitHubModel.transport.
  cbn [query variables].
  change (GET_DISCUSSION_LABELS =? GET_REPOSITORY_INFO) with false.
  change (GET_DISCUSSION_LABELS =? CREATE_LABEL_MUTATION) with false.
  change (GET_DISCUSSION_LABELS =? CREATE_DISCUSSION_MUTATION) with false.
  change (GET_DISCUSSION_LABELS =? GET_DISCUSSION_LABELS) with true.
  cbv iota. cbn [Object.get String.eqb Ascii.eqb Bool.eqb].
  destruct (GitHubModel.findDiscussion id (remote w)); reflexivity.
Qed.

Lemma exec_remove_labels (id : string) (ids : list string) (tok : string) (w : World GitHub) :
  exec REMOVE_LABELS [("labelableId", VStr id); ("labelIds", VList ids)] tok w
  = match GitHubModel.findDiscussion id (remote w) with
    | Some _ =>
        (Ok OtherData,
         logged w REMOVE_LABELS [("labelableId", VStr id); ("labelIds", VList ids)] tok
           (GitHubModel.updateDiscussion id
              (fun d => GitHubModel.withLabels (GitHubModel.detach ids (discussion_labels d)) d)
              (remote w)))
    | None =>
        (Throw (Error "Could not resolve to a node with the global id"),
         logged w REMOVE_LABELS [("labelableId", VStr id); ("labelIds", VList ids)] tok
           (remote w))
    end.
Proof.
  unfold exec, executeGitHubGraphQL, GitHubModel.transport.
  cbn [query variables].
  change (REMOVE_LABELS =? GET_REPOSITORY_INFO) with false.
  change (REMOVE_LABELS =? CREATE_LABEL_MUTATION) with false.
  change (REMOVE_LABELS =? CREATE_DISCUSSION_MUTATION) with false.
  change (REMOVE_LABELS =? GET_DISCUSSION_LABELS) with false.
  change (REMOVE_LABELS =? REMOVE_LABELS) with true.
  cbv iota. cbn [Object.get String.eqb Ascii.eqb Bool.eqb].
  destruct (GitHubModel.findDiscussion id (remote w)); reflexivity.
Qed.

Lemma exec_add_labels (id : string) (ids : list string) (tok : string) (w : World GitHub) :
  exec ADD_LABELS_TO_DISCUSSION [("labelableId", VStr id); ("labelIds", VList ids)] tok w
  = match GitHubModel.findDiscussion id (remote w) with
    | Some _ =>
        if forallb (resolvable (remote w)) ids
        then
          (Ok OtherData,
           logged w ADD_LABELS_TO_DISCUSSION
             [("labelableId", VStr id); ("labelIds", VList ids)] tok
             (GitHubModel.updateDiscussion id
                (fun d => GitHubModel.withLabels (GitHubModel.attach ids (discussion_labels d)) d)
                (remote w)))
        else
          (Throw (Error "Could not resolve to a node with the global id"),
           logged w ADD_LABELS_TO_DISCUSSION
             [("labelableId", VStr id); ("labelIds", VList ids)] tok (remote w))
    | None =>
        (Throw (Error "Could not resolve to a node with the global id"),
         logged w ADD_LABELS_TO_DISCUSSION
           [("labelableId", VStr id); ("labelIds", VList ids)] tok (remote w))
    end.
Proof.
  unfold exec, executeGitHubGraphQL, GitHubModel.transport.
  cbn [query variables].
  change (ADD_LABELS_TO_DISCUSSION =? GET_REPOSITORY_INFO) with false.
  change (ADD_LABELS_TO_DISCUSSION =? CREATE_LABEL_MUTATION) with false.
  change (ADD_LABELS_TO_DISCUSSION =? CREATE_DISCUSSION_MUTATION) with false.
  change (ADD_LABELS_TO_DISCUSSION =? GET_DISCUSSION_LABELS) with false.
  change (ADD_LABELS_TO_DISCUSSION =? REMOVE_LABELS) with false.
  change (ADD_LABELS_TO_DISCUSSION =? ADD_LABELS_TO_DISCUSSION) with true.
  cbv iota. cbn [Object.get String.eqb Ascii.eqb Bool.eqb].
  destruct (GitHubModel.findDiscussion id (remote w)); [|reflexivity].
  unfold resolvable.
  destruct (forallb _ ids); reflexivity.
Qed.

(** A create-label request of the plugin succeeds only on a service that
    does not insist on the colour, and only for a name that is not taken. *)
Lemma exec_create_label (repoId labelName tok : string) (w : World GitHub) :
  exec CREATE_LABEL_MUTATION (createLabelVariables repoId labelName) tok w
  = if strict
    then (Throw (Error "Variable $color of type String! was provided invalid value"),
          logged w CREATE_LABEL_MUTATION (createLabelVariables repoId labelName) tok (remote w))
    else if existsb (fun label => label_name label =? labelName) (gh_labels (remote w))
    then (Throw (Error "Name has already been taken"),
          logged w CREATE_LABEL_MUTATION (createLabelVariables repoId labelName) tok (remote w))
    else (Ok (CreateLabelData (GitHubModel.newLabelId (gh_created (remote w)))),
          logged w CREATE_LABEL_MUTATION (createLabelVariables repoId labelName) tok
            (withNewLabel labelName (remote w))).
Proof.
  unfold exec, executeGitHubGraphQL, GitHubModel.transport.
  cbn [query variables].
  change (CREATE_LABEL_MUTATION =? GET_REPOSITORY_INFO) with false.
  change (CREATE_LABEL_MUTATION =? CREATE_LABEL_MUTATION) with true.
  cbv iota. unfold GitHubModel.createLabel, createLabelVariables.
  cbn [Object.get String.eqb Ascii.eqb Bool.eqb].
  destruct (JS.startsWith labelName "series/"); cbn [negb andb];
    destruct strict; cbn [negb andb]; try reflexivity;
    destruct (existsb _ (gh_labels (remote w))); reflexivity.
Qed.

End ModelSteps.

(** *** Maps *)

Module MapFacts.

Lemma map_get_set_same (k v : string) (m : LabelMap) :
  JsMap.get String.eqb k (JsMap.set String.eqb k v m) = Some v.
Proof.
  induction m as [|[k0 v0] m IH]; simpl.
  - now rewrite String.eqb_refl.
  - destruct (k =? k0) eqn:E; simpl.
    + now rewrite String.eqb_refl.
    + now rewrite E.
Qed.

Lemma map_get_set_other (k k' v : string) (m : LabelMap) :
  k <> k' ->
  JsMap.get String.eqb k (JsMap.set String.eqb k' v m) = JsMap.get String.eqb k m.
Proof.
  intros ne. induction m as [|[k0 v0] m IH]; simpl.
  - apply String.eqb_neq in ne. now rewrite ne.
  - destruct (k' =? k0) eqn:E; simpl.
    + apply String.eqb_eq in E. subst k0.
      apply String.eqb_neq in ne. now rewrite ne.
    + destruct (k =? k0); [reflexivity | exact IH].
Qed.

Lemma fold_set_absent (l : list (string * string)) (k : string) :
  forall m : LabelMap,
  ~ In k (map fst l) ->
  JsMap.get String.eqb k
    (fold_left (fun m kv => JsMap.set String.eqb (fst kv) (snd kv) m) l m)
  = JsMap.get String.eqb k m.
Proof.
  induction l as [|[k0 v0] l IH]; simpl; intros m H; [reflexivity|].
  rewrite IH by tauto. apply map_get_set_other. intros ->. tauto.
Qed.

Lemma fold_set_present (l : list (string * string)) (k v : string) :
  forall m : LabelMap,
  NoDup (map fst l) -> In (k, v) l ->
  JsMap.get String.eqb k
    (fold_left (fun m kv => JsMap.set String.eqb (fst kv) (snd kv) m) l m)
  = Some v.
Proof.
  induction l as [|[k0 v0] l IH]; simpl; intros m ND H; [contradiction|].
  inversion ND as [|? ? Hnot ND']; subst.
  destruct H as [[= -> ->]|H].
  - rewrite fold_set_absent by assumption. apply map_get_set_same.
  - now apply IH.
Qed.

Lemma fold_set_sound (l : list (string * string)) (k v : string) :
  forall m : LabelMap,
  JsMap.get String.eqb k
    (fold_left (fun m kv => JsMap.set String.eqb (fst kv) (snd kv) m) l m)
  = Some v ->
  In (k, v) l \/ JsMap.get String.eqb k m = Some v.
Proof.
  induction l as [|[k0 v0] l IH]; simpl; intros m H; [now right|].
  apply IH in H as [H|H]; [now left; right|].
  destruct (String.eqb_spec k k0) as [->|ne].
  - rewrite map_get_set_same in H. injection H as <-. now left; left.
  - rewrite map_get_set_other in H by assumption. now right.
Qed.

End MapFacts.

(** *** Well-formed states and the known-labels map *)

Module ModelFacts.

Lemma labelNumber_new (n : nat) : labelNumber (GitHubModel.newLabelId n) = Some n.
Proof.
  unfold labelNumber, GitHubModel.newLabelId, JS.numberToString.
  cbn [append String.prefix JS.dropChars].
  repeat (destruct (ascii_dec _ _) as [_|ne]; [|now elim ne]).
  assert (Hnil : Nat.to_uint n <> Decimal.Nil).
  { rewrite <- (DecimalNat.Unsigned.of_to n) at 1.
    rewrite DecimalNat.Unsigned.to_of. apply DecimalFacts.unorm_nonnil. }
  destruct (String.prefix "" (NilZero.string_of_uint (Nat.to_uint n))) eqn:E.
  - rewrite NilZero.usu by assumption. simpl. now rewrite DecimalNat.Unsigned.of_to.
  - now destruct (NilZero.string_of_uint (Nat.to_uint n)).
Qed.

Lemma NoDup_snoc {A} (l : list A) (x : A) : NoDup l -> ~ In x l -> NoDup (l ++ [x]).
Proof.
  induction l as [|a l IH]; simpl; intros ND H.
  - repeat constructor. tauto.
  - inversion ND as [|? ? Hnot ND']; subst. constructor.
    + rewrite in_app_iff. simpl. intuition.
    + apply IH; tauto.
Qed.

Lemma wellFormed_spec (g : GitHub) :
  wellFormed g = true <->
  NoDup (map label_id (gh_labels g)) /\
  NoDup (map label_name (gh_labels g)) /\
  forall id, In id (map label_id (gh_labels g)) -> olderThan (gh_created g) id = true.
Proof.
  unfold wellFormed. rewrite !andb_true_iff, !distinct_NoDup, forallb_forall. tauto.
Qed.

Lemma wellFormed_withNewLabel (labelName : string) (g : GitHub) :
  wellFormed g = true ->
  existsb (fun label => label_name label =? labelName) (gh_labels g) = false ->
  wellFormed (withNewLabel labelName g) = true.
Proof.
  rewrite !wellFormed_spec. intros [NDid [NDname Hold]] Hfree.
  unfold withNewLabel. cbn [gh_labels gh_created]. rewrite !map_app. cbn [map label_id label_name].
  repeat split.
  - apply NoDup_snoc; [assumption|]. intros Hin. apply Hold in Hin.
    unfold olderThan in Hin. rewrite labelNumber_new in Hin.
    now rewrite Nat.ltb_irrefl in Hin.
  - apply NoDup_snoc; [assumption|]. intros Hin.
    apply in_map_iff in Hin as [label [E Hin]].
    assert (existsb (fun label => label_name label =? labelName) (gh_labels g) = true).
    { apply existsb_exists. exists label. split; [assumption|]. now apply String.eqb_eq. }
    congruence.
  - intros id Hin. apply in_app_iff in Hin as [Hin|[<-|[]]].
    + specialize (Hold id Hin). unfold olderThan in *.
      destruct (labelNumber id); [|reflexivity].
      apply Nat.ltb_lt in Hold. apply Nat.ltb_lt. lia.
    + unfold olderThan. rewrite labelNumber_new. apply Nat.ltb_lt. lia.
Qed.

Lemma In_firstn {A} (n : nat) (l : list A) (x : A) : In x (firstn n l) -> In x l.
Proof.
  intros H. rewrite <- (firstn_skipn n l). apply in_or_app. now left.
Qed.

Lemma knownLabels_sound (g : GitHub) : sound g (knownLabels g).
Proof.
  intros labelName id H. unfold knownLabels, existingLabelsOf, JsMap.ofEntries in H.
  apply MapFacts.fold_set_sound in H as [H|H]; [|discriminate].
  apply in_map_iff in H as [[i n] [[= <- <-] H]].
  now apply In_firstn in H.
Qed.

Lemma knownLabels_covers (g : GitHub) :
  NoDup (map label_name (gh_labels g)) -> List.length (gh_labels g) <= 100 ->
  covers g (knownLabels g).
Proof.
  intros NDname Hlen labelName id H.
  unfold knownLabels, existingLabelsOf, JsMap.ofEntries.
  rewrite firstn_all2 by assumption.
  apply MapFacts.fold_set_present.
  - rewrite map_map. exact NDname.
  - apply in_map_iff. exists {| label_id := id; label_name := labelName |}. now split.
Qed.

Lemma grows_refl (g : GitHub) : grows g g.
Proof. repeat split. exists []. now rewrite app_nil_r. Qed.

Lemma grows_trans (g1 g2 g3 : GitHub) : grows g1 g2 -> grows g2 g3 -> grows g1 g3.
Proof.
  intros [[c1 E1] [D1 R1]] [[c2 E2] [D2 R2]]. repeat split.
  - exists (c1 ++ c2)%list. now rewrite E2, E1, app_assoc.
  - congruence.
  - congruence.
Qed.

Lemma grows_In (g g' : GitHub) (label : Label) :
  grows g g' -> In label (gh_labels g) -> In label (gh_labels g').
Proof. intros [[c E] _] H. rewrite E. apply in_or_app. now left. Qed.

Lemma grows_withNewLabel (labelName : string) (g : GitHub) : grows g (withNewLabel labelName g).
Proof. repeat split. now eexists. Qed.

End ModelFacts.

(** *** The two halves of the label update on the model *)

Section LabelUpdate.

Variable strict : bool.

Lemma In_set (k v k' v' : string) (m : LabelMap) :
  In (k', v') (JsMap.set String.eqb k v m) -> (k', v') = (k, v) \/ In (k', v') m.
Proof.
  induction m as [|[k0 v0] m IH]; simpl.
  - intros [H|[]]. now left.
  - destruct (k =? k0); simpl; intuition.
Qed.

Lemma gather_In (cache : LabelMap) (labelNames : list string) :
  forall (acc : LabelMap) (k v : string),
  In (k, v) (gather cache labelNames acc) ->
  JsMap.get String.eqb k cache = Some v \/ In (k, v) acc.
Proof.
  unfold gather.
  induction labelNames as [|n rest IH]; simpl; intros acc k v H; [now right|].
  apply IH in H as [H|H]; [now left|].
  destruct (JsMap.get String.eqb n cache) as [id|] eqn:E; [|now right].
  apply In_set in H as [[= -> ->]|H]; [now left | now right].
Qed.

(** With every name known, nothing is sent and the ids come from the map. *)
Lemma createOrUpdateLabels_known (Remote : Type)
  (transport : Call -> Remote -> result Response * Remote)
  (repoId tok : string) (cache : LabelMap) (labelNames : list string) :
  forall (acc : LabelMap) (w : World Remote),
  (forall n, In n labelNames -> JsMap.get String.eqb n cache <> None) ->
  createOrUpdateLabelsFrom transport repoId cache labelNames tok acc w
  = (Ok (gather cache labelNames acc), w).
Proof.
  induction labelNames as [|n rest IH]; intros acc w H; [reflexivity|].
  cbn [createOrUpdateLabelsFrom]. unfold gather. cbn [fold_left].
  destruct (JsMap.get String.eqb n cache) as [id|] eqn:E.
  - apply IH. intros m Hm. apply H. now right.
  - exfalso. apply (H n); [now left | assumption].
Qed.

(** A successful first half leaves a well-formed state that has a label for
    every name, and the ids it returns are those any complete map of that
    state gives. *)
Lemma createOrUpdateLabels_model (repoId tok : string) (cache : LabelMap)
  (labelNames : list string) :
  forall (acc acc' : LabelMap) (w w' : World GitHub),
  wellFormed (remote w) = true ->
  sound (remote w) cache ->
  createOrUpdateLabelsFrom (GitHubModel.transport strict) repoId cache labelNames tok acc w
  = (Ok acc', w') ->
  wellFormed (remote w') = true /\
  grows (remote w) (remote w') /\
  (forall n, In n labelNames ->
             exists id, In {| label_id := id; label_name := n |} (gh_labels (remote w'))) /\
  (forall cache', covers (remote w') cache' -> gather cache' labelNames acc = acc').
Proof.
  induction labelNames as [|n rest IH]; intros acc acc' w w' WF Hsound H.
  - cbn in H. injection H as <- <-.
    split; [assumption|]. split; [apply ModelFacts.grows_refl|].
    split; [intros n [] | reflexivity].
  - cbn [createOrUpdateLabelsFrom] in H.
    destruct (JsMap.get String.eqb n cache) as [id|] eqn:E.
    + destruct (IH _ _ _ _ WF Hsound H) as [WF' [G [Hall Hgather]]].
      pose proof (ModelFacts.grows_In _ G (Hsound _ _ E)) as Hin.
      split; [assumption|]. split; [assumption|]. split.
      * intros m [<-|Hm]; [now exists id | now apply Hall].
      * intros cache' Hc. unfold gather. cbn [fold_left].
        rewrite (Hc _ _ Hin). now apply Hgather.
    + unfold bind at 1 in H. rewrite exec_create_label in H.
      destruct strict; [discriminate|].
      destruct (existsb (fun label => label_name label =? n) (gh_labels (remote w))) eqn:Hfree;
        [discriminate|].
      unfold bind at 1, liftR in H. cbn [createLabelId] in H.
      match type of H with
      | createOrUpdateLabelsFrom _ _ _ _ _ _ ?w1 = _ =>
          assert (WF1 : wellFormed (remote w1) = true)
            by (now apply ModelFacts.wellFormed_withNewLabel);
          assert (G1 : grows (remote w) (remote w1))
            by (apply ModelFacts.grows_withNewLabel);
          assert (S1 : sound (remote w1) cache)
            by (intros k v Hk; apply (ModelFacts.grows_In _ G1); now apply Hsound)
      end.
      destruct (IH _ _ _ _ WF1 S1 H) as [WF' [G [Hall Hgather]]].
      assert (Hin : In {| label_id := GitHubModel.newLabelId (gh_created (remote w));
                          label_name := n |} (gh_labels (remote w'))).
      { apply (ModelFacts.grows_In _ G). cbn. apply in_or_app. right. now left. }
      pose proof (ModelFacts.grows_trans G1 G) as G'.
      split; [assumption|]. split; [assumption|]. split.
      * intros m [<-|Hm]; [eexists; exact Hin | now apply Hall].
      * intros cache' Hc. unfold gather. cbn [fold_left].
        rewrite (Hc _ _ Hin). now apply Hgather.
Qed.


Lemma find_update (pid : string) (h : list string -> list string) (g : GitHub)
  (d : Discussion) :
  GitHubModel.findDiscussion pid g = Some d ->
  GitHubModel.findDiscussion pid
    (GitHubModel.updateDiscussion pid
       (fun d => GitHubModel.withLabels (h (discussion_labels d)) d) g)
  = Some (GitHubModel.withLabels (h (discussion_labels d)) d).
Proof.
  unfold GitHubModel.findDiscussion, GitHubModel.updateDiscussion. cbn [gh_discussions].
  induction (gh_discussions g) as [|d0 rest IH]; simpl; [discriminate|].
  destruct (discussion_id d0 =? pid) eqn:E; simpl.
  - rewrite E. now intros [= ->].
  - rewrite E. exact IH.
Qed.

Lemma detach_nil (l : list string) : GitHubModel.detach [] l = l.
Proof.
  unfold GitHubModel.detach. induction l as [|x l IH]; simpl; [reflexivity | f_equal; exact IH].
Qed.

Lemma length_zero {A} (l : list A) : (0 <? List.length l)%nat = false -> l = [].
Proof. destruct l; [reflexivity | discriminate]. Qed.

Lemma In_member (x : string) (l : list string) : GitHubModel.member x l = true <-> In x l.
Proof. apply existsb_eqb_In. Qed.

Lemma In_attach (ids : list string) :
  forall (current : list string) (x : string),
  In x (GitHubModel.attach ids current) <-> In x current \/ In x ids.
Proof.
  induction ids as [|i ids IH]; intros current x; simpl; [tauto|].
  rewrite IH. destruct (GitHubModel.member i current) eqn:E.
  - apply In_member in E. intuition. subst. tauto.
  - rewrite in_app_iff. simpl. intuition.
Qed.

Lemma In_detach (ids current : list string) (x : string) :
  In x (GitHubModel.detach ids current) <-> In x current /\ ~ In x ids.
Proof.
  unfold GitHubModel.detach. rewrite filter_In, negb_true_iff.
  split; intros [H1 H2]; split; try assumption.
  - intros Hin. apply In_member in Hin. congruence.
  - destruct (GitHubModel.member x ids) eqn:E; [|reflexivity].
    apply In_member in E. contradiction.
Qed.

Lemma labelOfId_Some (g : GitHub) (id : string) (label : Label) :
  GitHubModel.labelOfId g id = Some label -> label_id label = id /\ In label (gh_labels g).
Proof.
  unfold GitHubModel.labelOfId. intros H. apply find_some in H as [Hin E].
  apply String.eqb_eq in E. tauto.
Qed.

Lemma labelOfId_In (g : GitHub) (label : Label) :
  NoDup (map label_id (gh_labels g)) -> In label (gh_labels g) ->
  GitHubModel.labelOfId g (label_id label) = Some label.
Proof.
  intros ND Hin. unfold GitHubModel.labelOfId.
  destruct (find _ (gh_labels g)) as [other|] eqn:E.
  - apply find_some in E as [Hother E]. apply String.eqb_eq in E.
    now rewrite (NoDup_map_inj label_id (gh_labels g) other label ND Hother Hin E).
  - exfalso. apply (find_none _ _ E) in Hin. now rewrite String.eqb_refl in Hin.
Qed.

Lemma resolvable_In (g : GitHub) (id labelName : string) :
  In {| label_id := id; label_name := labelName |} (gh_labels g) -> resolvable g id = true.
Proof.
  intros Hin. unfold resolvable, GitHubModel.labelOfId.
  destruct (find _ (gh_labels g)) eqn:E; [reflexivity|].
  apply (find_none _ _ E) in Hin. cbn in Hin. now rewrite String.eqb_refl in Hin.
Qed.

Lemma In_resolve (g : GitHub) (ids : list string) (label : Label) :
  In label (GitHubModel.resolve g ids) <->
  exists id, In id ids /\ GitHubModel.labelOfId g id = Some label.
Proof.
  induction ids as [|i ids IH]; simpl.
  - split; [intros [] | intros [id [[] _]]].
  - destruct (GitHubModel.labelOfId g i) as [found|] eqn:E; simpl; rewrite IH; split.
    + intros [<-|[id [Hin H]]]; [exists i; tauto | exists id; tauto].
    + intros [id [[<-|Hin] H]]; [left; congruence | right; now exists id].
    + intros [id [Hin H]]. exists id. tauto.
    + intros [id [[<-|Hin] H]]; [congruence | now exists id].
Qed.

Lemma length_resolve (g : GitHub) (ids : list string) :
  List.length (GitHubModel.resolve g ids) <= List.length ids.
Proof.
  induction ids as [|i ids IH]; simpl; [lia|].
  destruct (GitHubModel.labelOfId g i); simpl; lia.
Qed.

Lemma resolve_same_labels (g g' : GitHub) (ids : list string) :
  gh_labels g' = gh_labels g -> GitHubModel.resolve g' ids = GitHubModel.resolve g ids.
Proof.
  intros E. induction ids as [|i ids IH]; simpl; [reflexivity|].
  unfold GitHubModel.labelOfId. now rewrite E, IH.
Qed.


Lemma resolvable_update (pid : string) (f : Discussion -> Discussion) (g : GitHub)
  (ids : list string) :
  forallb (resolvable (GitHubModel.updateDiscussion pid f g)) ids = forallb (resolvable g) ids.
Proof. reflexivity. Qed.

(** The second half on the model, when the discussion exists and every id
    to attach names a label. *)
Lemma replaceLabels_model (settings : OGDSettings) (tok : string) (post : GitHubPost)
  (ids : LabelMap) (w : World GitHub) (d : Discussion) :
  GitHubModel.findDiscussion (post_id post) (remote w) = Some d ->
  forallb (resolvable (remote w)) (JsMap.values ids) = true ->
  exists (w' : World GitHub) (d' : Discussion),
    replaceLabels (GitHubModel.transport strict) settings tok post ids w = (Ok tt, w') /\
    gh_labels (remote w') = gh_labels (remote w) /\
    GitHubModel.findDiscussion (post_id post) (remote w') = Some d' /\
    discussion_labels d'
    = GitHubModel.attach (JsMap.values ids)
        (GitHubModel.detach
           (existingLabelsToRemove settings
              (firstn 100 (GitHubModel.resolve (remote w) (discussion_labels d))))
           (discussion_labels d)).
Proof.
  intros Hfind Hres.
  unfold replaceLabels. unfold bind at 1. rewrite exec_discussion_labels, Hfind.
  unfold bind at 1, liftR. cbn [discussionLabelNodes].
  set (R := existingLabelsToRemove settings _).
  unfold bind at 1.
  destruct (0 <? List.length R)%nat eqn:ER.
  - unfold bind at 1. rewrite exec_remove_labels. cbn [remote logged].
    rewrite Hfind. unfold ret at 1.
    pose proof (find_update (post_id post) (GitHubModel.detach R) (remote w) Hfind) as Hfind1.
    destruct (0 <? List.length ids)%nat eqn:EI.
    + unfold bind at 1. rewrite exec_add_labels. cbn [remote logged].
      rewrite Hfind1, resolvable_update, Hres. unfold ret.
      eexists. eexists. split; [reflexivity|]. cbn [remote logged].
      split; [reflexivity|].
      split; [apply (find_update _ (GitHubModel.attach (JsMap.values ids)) _ Hfind1)|].
      reflexivity.
    + unfold ret. eexists. eexists. split; [reflexivity|]. cbn [remote logged].
      split; [reflexivity|]. split; [exact Hfind1|].
      apply length_zero in EI. subst ids. reflexivity.
  - unfold ret at 1. apply length_zero in ER. rewrite ER, detach_nil.
    destruct (0 <? List.length ids)%nat eqn:EI.
    + unfold bind at 1. rewrite exec_add_labels. cbn [remote logged].
      rewrite Hfind, Hres. unfold ret.
      eexists. eexists. split; [reflexivity|]. cbn [remote logged].
      split; [reflexivity|].
      split; [apply (find_update _ (GitHubModel.attach (JsMap.values ids)) _ Hfind)|].
      reflexivity.
    + unfold ret. eexists. eexists. split; [reflexivity|]. cbn [remote logged].
      split; [reflexivity|]. split; [exact Hfind|].
      apply length_zero in EI. subst ids. reflexivity.
Qed.

(** When the second half succeeds the discussion existed and every id
    attached named a label. *)
Lemma replaceLabels_model_inv (settings : OGDSettings) (tok : string) (post : GitHubPost)
  (ids : LabelMap) (w w' : World GitHub) :
  replaceLabels (GitHubModel.transport strict) settings tok post ids w = (Ok tt, w') ->
  (exists d, GitHubModel.findDiscussion (post_id post) (remote w) = Some d) /\
  forallb (resolvable (remote w)) (JsMap.values ids) = true.
Proof.
  unfold replaceLabels. unfold bind at 1. rewrite exec_discussion_labels.
  destruct (GitHubModel.findDiscussion (post_id post) (remote w)) as [d|] eqn:Hfind;
    [|discriminate].
  intros H. split; [now exists d|].
  unfold bind at 1, liftR in H. cbn [discussionLabelNodes] in H.
  destruct (0 <? List.length ids)%nat eqn:EI;
    [|apply length_zero in EI; subst ids; reflexivity].
  unfold bind at 1 in H.
  match type of H with
  | context [if ?c then _ else _] => destruct c
  end.
  - unfold bind at 1 in H. rewrite exec_remove_labels in H. cbn [remote logged] in H.
    rewrite Hfind in H. unfold ret at 1 in H.
    unfold bind at 1 in H. rewrite exec_add_labels in H. cbn [remote logged] in H.
    rewrite (find_update (post_id post) _ (remote w) Hfind), resolvable_update in H.
    destruct (forallb (resolvable (remote w)) (JsMap.values ids)); [reflexivity|discriminate].
  - unfold ret at 1 in H.
    unfold bind at 1 in H. rewrite exec_add_labels in H. cbn [remote logged] in H.
    rewrite Hfind in H.
    destruct (forallb (resolvable (remote w)) (JsMap.values ids)); [reflexivity|discriminate].
Qed.


(** C3, amended. Applying the label update of a matched discussion a second
    time, with nothing changed in between, succeeds, creates no label and
    leaves on the discussion the labels the first application left.  (The
    discussion and the repository are within the page of 100 labels that the
    plugin reads.) *)
Theorem label_update_twice_same_labels (settings : OGDSettings) (tok : string)
  (post : GitHubPost) (frontMatter : object) (w0 w1 : World GitHub) :
  wellFormed (remote w0) = true ->
  List.length (GitHubModel.labelsOn (post_id post) (remote w0)) <= 100 ->
  applyLabelUpdate strict settings tok post frontMatter w0 = (Ok tt, w1) ->
  List.length (gh_labels (remote w1)) <= 100 ->
  exists w2 : World GitHub,
    applyLabelUpdate strict settings tok post frontMatter w1 = (Ok tt, w2) /\
    gh_labels (remote w2) = gh_labels (remote w1) /\
    forall id,
      In id (GitHubModel.labelsOn (post_id post) (remote w2)) <->
      In id (GitHubModel.labelsOn (post_id post) (remote w1)).
Proof.
  intros WF0 Hlen0 Hrun1 Hlen1.
  unfold applyLabelUpdate, reconcileLabels in Hrun1.
  unfold bind at 1, liftR in Hrun1.
  destruct (labelsOf settings frontMatter) as [desired|e] eqn:Hdesired; [|discriminate].
  unfold bind at 1, createOrUpdateLabels in Hrun1.
  destruct (createOrUpdateLabelsFrom (GitHubModel.transport strict)
              (gh_repositoryId (remote w0)) (knownLabels (remote w0)) desired tok [] w0)
    as [[ids|e] wA] eqn:Hcreate; [|discriminate].
  pose proof Hcreate as HA.
  apply createOrUpdateLabels_model in HA;
    [|assumption | apply ModelFacts.knownLabels_sound].
  destruct HA as [WFA [G [Hall Hgather]]].
  (* the first application *)
  pose proof Hrun1 as Hinv.
  apply replaceLabels_model_inv in Hinv as [[d Hfind] Hres].
  destruct (@replaceLabels_model settings tok post ids wA d Hfind Hres)
    as [w1' [d1 [Hrun1' [Elabels [Hfind1 Hd1]]]]].
  rewrite Hrun1' in Hrun1. injection Hrun1 as ->.
  assert (Hfind0 : GitHubModel.findDiscussion (post_id post) (remote w0) = Some d).
  { destruct G as [_ [ED _]]. unfold GitHubModel.findDiscussion in *. now rewrite <- ED. }
  assert (HL0 : List.length (discussion_labels d) <= 100).
  { unfold GitHubModel.labelsOn in Hlen0. now rewrite Hfind0 in Hlen0. }
  rewrite (firstn_all2 (GitHubModel.resolve (remote wA) (discussion_labels d))) in Hd1
    by (pose proof (length_resolve (remote wA) (discussion_labels d)); lia).
  (* the known-labels map of the second application *)
  apply ModelFacts.wellFormed_spec in WFA as [NDid [NDname _]].
  assert (Hcovers1 : covers (remote w1) (knownLabels (remote w1))).
  { apply ModelFacts.knownLabels_covers; [now rewrite Elabels | assumption]. }
  assert (HcoversA : covers (remote wA) (knownLabels (remote w1))).
  { intros n id H. apply Hcovers1. now rewrite Elabels. }
  assert (Hknown : forall n, In n desired ->
                     JsMap.get String.eqb n (knownLabels (remote w1)) <> None).
  { intros n Hn. destruct (Hall n Hn) as [id Hid]. rewrite (HcoversA _ _ Hid). discriminate. }
  assert (Hres1 : forallb (resolvable (remote w1)) (JsMap.values ids) = true).
  { apply forallb_forall. intros id Hid. unfold JsMap.values in Hid.
    apply in_map_iff in Hid as [[n i] [E Hin]]. simpl in E. subst i.
    rewrite <- (Hgather _ HcoversA) in Hin.
    apply gather_In in Hin as [Hin|[]].
    apply (ModelFacts.knownLabels_sound (remote w1)) in Hin.
    now apply resolvable_In in Hin. }
  (* the second application *)
  destruct (@replaceLabels_model settings tok post ids w1 d1 Hfind1 Hres1)
    as [w2 [d2 [Hrun2 [Elabels2 [Hfind2 Hd2]]]]].
  exists w2. split; [|split; [exact Elabels2|]].
  - unfold applyLabelUpdate, reconcileLabels.
    unfold bind at 1, liftR. rewrite Hdesired.
    unfold bind at 1, createOrUpdateLabels.
    rewrite createOrUpdateLabels_known by exact Hknown.
    rewrite (Hgather _ HcoversA). exact Hrun2.
  - intros x. unfold GitHubModel.labelsOn. rewrite Hfind1, Hfind2, Hd2.
    rewrite In_attach, In_detach. rewrite Hd1 at 1. rewrite Hd1 at 2.
    rewrite !In_attach. split; [tauto|].
    intros [HK|HV]; [|tauto]. left. split; [tauto|].
    intros HR2. apply In_detach in HK as [HL HR1]. apply HR1.
    apply In_existingLabelsToRemove in HR2 as [label [Hnode [Eid Hmanaged]]].
    apply ModelFacts.In_firstn in Hnode.
    apply In_resolve in Hnode as [id [_ Hlabel]].
    pose proof (labelOfId_Some _ _ Hlabel) as [Eid' _].
    assert (Ex : id = x) by congruence. rewrite Ex in Hlabel.
    apply In_existingLabelsToRemove. exists label. split; [|tauto].
    apply In_resolve. exists x. split; [assumption|].
    unfold GitHubModel.labelOfId in *. rewrite <- Elabels. exact Hlabel.
Qed.


(** X23. A label on the discussion whose name starts with neither prefix is
    still on it after the label update. *)
Lemma label_update_keeps_unmanaged (settings : OGDSettings) (tok : string)
  (post : GitHubPost) (frontMatter : object) (w0 w1 : World GitHub)
  (id : string) (label : Label) :
  wellFormed (remote w0) = true ->
  applyLabelUpdate strict settings tok post frontMatter w0 = (Ok tt, w1) ->
  In id (GitHubModel.labelsOn (post_id post) (remote w0)) ->
  GitHubModel.labelOfId (remote w0) id = Some label ->
  managedPrefix settings (label_name label) = false ->
  In id (GitHubModel.labelsOn (post_id post) (remote w1)).
Proof.
  intros WF0 Hrun1 Hon Hlabel Hunmanaged.
  unfold applyLabelUpdate, reconcileLabels in Hrun1.
  unfold bind at 1, liftR in Hrun1.
  destruct (labelsOf settings frontMatter) as [desired|e] eqn:Hdesired; [|discriminate].
  unfold bind at 1, createOrUpdateLabels in Hrun1.
  destruct (createOrUpdateLabelsFrom (GitHubModel.transport strict)
              (gh_repositoryId (remote w0)) (knownLabels (remote w0)) desired tok [] w0)
    as [[ids|e] wA] eqn:Hcreate; [|discriminate].
  pose proof Hcreate as HA.
  apply createOrUpdateLabels_model in HA;
    [|assumption | apply ModelFacts.knownLabels_sound].
  destruct HA as [WFA [G _]].
  pose proof Hrun1 as Hinv.
  apply replaceLabels_model_inv in Hinv as [[d Hfind] Hres].
  destruct (@replaceLabels_model settings tok post ids wA d Hfind Hres)
    as [w1' [d1 [Hrun1' [Elabels [Hfind1 Hd1]]]]].
  rewrite Hrun1' in Hrun1. injection Hrun1 as ->.
  assert (Hfind0 : GitHubModel.findDiscussion (post_id post) (remote w0) = Some d).
  { destruct G as [_ [ED _]]. unfold GitHubModel.findDiscussion in *. now rewrite <- ED. }
  unfold GitHubModel.labelsOn in *. rewrite Hfind0 in Hon. rewrite Hfind1, Hd1.
  apply In_attach. left. apply In_detach. split; [assumption|].
  intros HR. apply In_existingLabelsToRemove in HR as [other [Hnode [Eid Hmanaged]]].
  apply ModelFacts.In_firstn in Hnode.
  apply In_resolve in Hnode as [id' [_ Hother]].
  apply labelOfId_Some in Hother as [_ Hother].
  apply labelOfId_Some in Hlabel as [Eid0 Hlabel].
  apply (ModelFacts.grows_In _ G) in Hlabel.
  apply ModelFacts.wellFormed_spec in WFA as [NDid _].
  assert (other = label)
    by (apply (NoDup_map_inj label_id (gh_labels (remote wA))); congruence).
  congruence.
Qed.

End LabelUpdate.

Lemma label_update_twice_same_labels_witness :
  exists w2 : World GitHub,
    applyLabelUpdate true Sample.settings "tok" Sample.postB
      (entry_frontMatter Sample.entryB)
      (snd (applyLabelUpdate true Sample.settings "tok" Sample.postB
              (entry_frontMatter Sample.entryB) (Sample.start Sample.githubTagged)))
    = (Ok tt, w2) /\
    gh_labels (remote w2)
    = gh_labels (remote (snd (applyLabelUpdate true Sample.settings "tok" Sample.postB
                                (entry_frontMatter Sample.entryB)
                                (Sample.start Sample.githubTagged)))) /\
    forall id,
      In id (GitHubModel.labelsOn (post_id Sample.postB) (remote w2)) <->
      In id (GitHubModel.labelsOn (post_id Sample.postB)
               (remote (snd (applyLabelUpdate true Sample.settings "tok" Sample.postB
                               (entry_frontMatter Sample.entryB)
                               (Sample.start Sample.githubTagged))))).
Proof.
  apply (@label_update_twice_same_labels true Sample.settings "tok" Sample.postB
           (entry_frontMatter Sample.entryB) (Sample.start Sample.githubTagged)).
  - reflexivity.
  - simpl. lia.
  - vm_compute. reflexivity.
  - simpl. lia.
Defined.

(** C3, as stated, fails: an upload updates the labels of the matched
    article [B]; a second upload, with nothing changed, again detaches the
    label [tag/x] and attaches it. *)
Lemma second_label_update_sends_mutations :
  let answers := [(UpdateLabelsModal, true)] in
  let w1 := modelUpload true Sample.settings (Some "tok") Sample.vaultB answers
              (Sample.start Sample.githubTagged) in
  let w2 := modelUpload true Sample.settings (Some "tok") Sample.vaultB answers
              (Sample.start (remote w1)) in
  GitHubModel.labelsOn "D1" (remote w1) = ["L1"; "L2"] /\
  map (fun c => (query c, Object.get "labelIds" (variables c)))
      (filter (fun c => isMutation (query c)) (calls (events w2)))
  = [(REMOVE_LABELS, VList ["L2"]); (ADD_LABELS_TO_DISCUSSION, VList ["L2"])] /\
  GitHubModel.labelsOn "D1" (remote w2) = ["L1"; "L2"].
Proof. cbv zeta. repeat split; vm_compute; reflexivity. Qed.

(** *** The scan of upload *)

Section ScanFacts.

Variable parseYaml : Value -> result (option object).

(** What the scan adds: every entry comes from a file with a slug, sits in
    [newFiles] when no remote article has the slug and in [existingFiles]
    when one has, and every file with a slug gets an entry. *)
Lemma scan_partition (ghArticles : list GitHubPost) (markdownFiles : list TFile) :
  forall newFiles existingFiles newFiles' existingFiles',
  scan parseYaml ghArticles markdownFiles newFiles existingFiles
  = Ok (newFiles', existingFiles') ->
  exists added matched,
    newFiles' = (newFiles ++ added)%list /\
    existingFiles' = (existingFiles ++ matched)%list /\
    (forall e, In e added ->
       In (entry_file e) markdownFiles /\
       hasSlug parseYaml (entry_file e) (entry_frontMatter e) /\
       findPost parseYaml ghArticles (Object.get "slug" (entry_frontMatter e)) = Ok None) /\
    (forall e, In e matched ->
       In (entry_file e) markdownFiles /\
       hasSlug parseYaml (entry_file e) (entry_frontMatter e) /\
       exists post,
         findPost parseYaml ghArticles (Object.get "slug" (entry_frontMatter e))
         = Ok (Some post)) /\
    (forall file frontMatter,
       In file markdownFiles -> hasSlug parseYaml file frontMatter ->
       In file (map entry_file added) \/ In file (map entry_file matched)).
Proof.
  induction markdownFiles as [|file rest IH]; intros nf ef nf' ef' H.
  - cbn in H. injection H as <- <-. exists [], [].
    rewrite !app_nil_r. split; [reflexivity|]. split; [reflexivity|].
    split; [intros e []|]. split; [intros e []|]. intros f fm [].
  - cbn [scan] in H.
    destruct (List.length (JS.split "---" (content file)) <? 3)%nat eqn:Elen.
    { destruct (IH _ _ _ _ H) as [added [matched [E1 [E2 [Hnew [Hold Hall]]]]]].
      exists added, matched.
      split; [assumption|]. split; [assumption|]. split; [|split].
      - intros e He. destruct (Hnew e He) as [Hin Hrest]. split; [now right | exact Hrest].
      - intros e He. destruct (Hold e He) as [Hin Hrest]. split; [now right | exact Hrest].
      - intros f fm [<-|Hin] Hs; [|now apply (Hall f fm)].
        destruct Hs as [Hlen _]. apply Nat.ltb_lt in Elen. lia. }
    apply Nat.ltb_ge in Elen.
    destruct (parseYaml (JS.index (JS.split "---" (content file)) 1)) as [[fm|]|e] eqn:Eparse;
      cbn [rbind prop] in H; try discriminate.
    destruct (JS.truthy (Object.get "slug" fm)) eqn:Eslug; cbn [negb] in H.
    + destruct (findPost parseYaml ghArticles (Object.get "slug" fm)) as [[post|]|e] eqn:Efind;
        cbn [rbind] in H; try discriminate;
        destruct (IH _ _ _ _ H) as [added [matched [E1 [E2 [Hnew [Hold Hall]]]]]].
      * exists added.
        exists ({| entry_file := file; entry_frontMatter := fm;
                   entry_sections := JS.split "---" (content file) |} :: matched).
        split; [assumption|]. split; [now rewrite E2, <- app_assoc|].
        split; [|split].
        -- intros e He. destruct (Hnew e He) as [Hin Hrest]. split; [now right | exact Hrest].
        -- intros e [<-|He].
           ++ cbn [entry_file entry_frontMatter]. split; [now left|].
              split; [now repeat split | now exists post].
           ++ destruct (Hold e He) as [Hin Hrest]. split; [now right | exact Hrest].
        -- intros f fm' [<-|Hin] Hs.
           ++ right. now left.
           ++ destruct (Hall f fm' Hin Hs) as [Hf|Hf]; [now left | now right; right].
      * exists ({| entry_file := file; entry_frontMatter := fm;
                   entry_sections := JS.split "---" (content file) |} :: added).
        exists matched.
        split; [now rewrite E1, <- app_assoc|]. split; [assumption|].
        split; [|split].
        -- intros e [<-|He].
           ++ cbn [entry_file entry_frontMatter]. split; [now left|].
              split; [now repeat split | assumption].
           ++ destruct (Hnew e He) as [Hin Hrest]. split; [now right | exact Hrest].
        -- intros e He. destruct (Hold e He) as [Hin Hrest]. split; [now right | exact Hrest].
        -- intros f fm' [<-|Hin] Hs.
           ++ left. now left.
           ++ destruct (Hall f fm' Hin Hs) as [Hf|Hf]; [now left; right | now right].
    + destruct (IH _ _ _ _ H) as [added [matched [E1 [E2 [Hnew [Hold Hall]]]]]].
      exists added, matched.
      split; [assumption|]. split; [assumption|]. split; [|split].
      * intros e He. destruct (Hnew e He) as [Hin Hrest]. split; [now right | exact Hrest].
      * intros e He. destruct (Hold e He) as [Hin Hrest]. split; [now right | exact Hrest].
      * intros f fm' [<-|Hin] Hs; [|now apply (Hall f fm')].
        destruct Hs as [_ [Hp Ht]]. rewrite Eparse in Hp. injection Hp as <-. congruence.
Qed.

End ScanFacts.

(** *** The new articles of download *)

Section DownloadFacts.

Variable parseYaml : Value -> result (option object).

(** Only truthy slugs enter [existingFileSlugs]. *)
Lemma existingFileSlugs_truthy (markdownFiles : list TFile) :
  forall slugs slugs' : list Value,
  existingFileSlugsFrom parseYaml markdownFiles slugs = Ok slugs' ->
  (forall v, In v slugs -> JS.truthy v = true) ->
  forall v, In v slugs' -> JS.truthy v = true.
Proof.
  induction markdownFiles as [|file rest IH]; intros slugs slugs' H Hacc.
  - cbn in H. now injection H as <-.
  - cbn [existingFileSlugsFrom] in H.
    destruct (parseYaml (JS.index (JS.split "---" (content file)) 1)) as [[fm|]|e];
      cbn [rbind prop] in H; try discriminate.
    destruct (JS.truthy (Object.get "slug" fm)) eqn:Eslug.
    + apply (IH _ _ H).
      destruct (existsb (JS.strictEq (Object.get "slug" fm)) slugs); [assumption|].
      intros v Hv. apply in_app_iff in Hv as [Hv|[<-|[]]]; [now apply Hacc | assumption].
    + now apply (IH _ _ H).
Qed.

(** Whatever the local files are, an entry of [ghArticleMap] under the key
    [undefined] is among the new articles. *)
Lemma slugless_entry_is_new (ghArticles : list GitHubPost) (markdownFiles : list TFile)
  (ghArticleMap created : list (Value * RemoteEntry)) (entry : RemoteEntry) :
  ghArticleMapFrom parseYaml ghArticles [] = Ok ghArticleMap ->
  newArticles parseYaml ghArticles markdownFiles = Ok created ->
  In (VUndefined, entry) ghArticleMap ->
  In (VUndefined, entry) created.
Proof.
  intros Hmap Hnew Hin. unfold newArticles in Hnew. rewrite Hmap in Hnew. cbn [rbind] in Hnew.
  destruct (existingFileSlugsFrom parseYaml markdownFiles []) as [slugs|e] eqn:Hslugs;
    [|discriminate].
  cbn [rbind] in Hnew. injection Hnew as <-.
  apply filter_In. split; [assumption|]. cbn [fst].
  destruct (existsb (JS.strictEq VUndefined) slugs) eqn:E; [|reflexivity].
  apply existsb_exists in E as [v [Hv Eq]].
  assert (Ht : JS.truthy v = true)
    by (apply (existingFileSlugs_truthy _ _ Hslugs); [intros u [] | assumption]).
  destruct v; simpl in Eq, Ht; discriminate.
Qed.

End DownloadFacts.

(** The scan of upload leaves a local file without slug out. *)
Example upload_scan_skips_slugless_file :
  scan FlatYaml.parseYaml []
    [article "Untitled" ["description: no slug here"] "text"; entry_file Sample.entryB] [] []
  = Ok ([Sample.entryB], []).
Proof. vm_compute. reflexivity. Qed.

(** The known-labels map and the repository id that an upload hands to the
    label update are those of the state of the service it starts in. *)
Example upload_plan_of_model :
  match prepareUpload (GitHubModel.transport true) modelGetAllPosts FlatYaml.parseYaml
          Sample.settings (Some "tok") Sample.vaultB (Sample.start Sample.githubTagged) with
  | (Ok (Some plan), _) =>
      plan_existingLabels plan = knownLabels Sample.githubTagged /\
      plan_repoId plan = gh_repositoryId Sample.githubTagged /\
      plan_existingFiles plan = [Sample.entryB] /\
      plan_newFiles plan = []
  | _ => False
  end.
Proof. vm_compute. repeat split; reflexivity. Qed.

(** On a service that accepts a create-label request without a colour, the
    first update creates the label [tag/x]; the second creates nothing and
    leaves the labels of the discussion as they were. *)
Example label_update_creates_then_repeats :
  let w1 := snd (applyLabelUpdate false Sample.settings "tok" Sample.postB
                   (entry_frontMatter Sample.entryB) (Sample.start Sample.github)) in
  let w2 := snd (applyLabelUpdate false Sample.settings "tok" Sample.postB
                   (entry_frontMatter Sample.entryB) (Sample.start (remote w1))) in
  map label_name (gh_labels (remote w1)) = ["area/infra"; "tag/x"] /\
  GitHubModel.labelsOn "D1" (remote w1) = ["L1"; "LA_0"] /\
  createLabelRequests "tag/x" (events w2) = [] /\
  GitHubModel.labelsOn "D1" (remote w2) = ["L1"; "LA_0"].
Proof. cbv zeta. repeat split; vm_compute; reflexivity. Qed.

(** * Further properties of the plugin *)

(** ** Dates *)

(** X1. A local-format date with exactly three components under [/], none of
    which holds a [-], converted to the remote format and back, is the
    string one started from: what upload writes, download reads back. *)
Theorem date_round_trip_local (d month day year : string) :
  JS.split "/" d = [month; day; year] ->
  JS.occurs "-" d = false ->
  rbind (convertDateFormatToGH (VStr d)) (fun o => convertDateFormatToObsidian (VStr o))
  = Ok d.
Proof.
  intros Hsplit Hdash.
  pose proof (split_three_inv _ _ Hsplit) as Hd.
  rewrite Hd in Hdash.
  rewrite JSFacts.occurs_app in Hdash. apply orb_false_iff in Hdash as [Hm Hrest].
  cbn [JS.occurs] in Hrest. apply orb_false_iff in Hrest as [_ Hrest].
  rewrite JSFacts.occurs_app in Hrest. apply orb_false_iff in Hrest as [Hday Hrest].
  cbn [JS.occurs] in Hrest. apply orb_false_iff in Hrest as [_ Hy].
  unfold convertDateFormatToObsidian, convertDateFormatToGH.
  cbn [JS.splitValue rbind]. rewrite Hsplit.
  cbn [JS.index nth_error JS.template rbind].
  replace (year ++ "-" ++ month ++ "-" ++ day)
    with (year ++ String "-" (month ++ String "-" day)) by reflexivity.
  rewrite split_three by assumption.
  cbn [JS.index nth_error JS.template]. now rewrite Hd.
Qed.

Lemma date_round_trip_local_witness :
  rbind (convertDateFormatToGH (VStr "01/02/2024"))
        (fun o => convertDateFormatToObsidian (VStr o)) = Ok "01/02/2024".
Proof.
  apply (@date_round_trip_local "01/02/2024" "01" "02" "2024"); reflexivity.
Defined.

(** X2. The earlier copy of [convertDateFormatToObsidian] converts no
    remote-format date: a string without [/] comes back whole, behind two
    [undefined] components. *)
Theorem legacy_conversion_keeps_remote_date (d : string) :
  JS.occurs "/" d = false ->
  Legacy.convertDateFormatToObsidian (VStr d) = Ok ("undefined/undefined/" ++ d).
Proof.
  intros H. unfold Legacy.convertDateFormatToObsidian. cbn [JS.splitValue rbind].
  unfold JS.split. rewrite JSFacts.splitFrom_single_absent by assumption.
  reflexivity.
Qed.

Lemma legacy_conversion_keeps_remote_date_witness :
  Legacy.convertDateFormatToObsidian (VStr "2024-01-02")
  = Ok ("undefined/undefined/" ++ "2024-01-02").
Proof.
  apply (@legacy_conversion_keeps_remote_date "2024-01-02"). reflexivity.
Defined.

(** ** Settings, requests and dialogs of upload *)

Section UploadFacts.

Variable Remote : Type.
Variable transport : Call -> Remote -> result Response * Remote.
Variable getAllPosts : GitHubClientOptions -> Remote -> result (list GitHubPost) * Remote.
Variable parseYaml : Value -> result (option object).
Variable stringifyYaml : object -> string.

(** X3. [checkSettings] passes exactly when the vault has a folder, the
    token is set and owner and repo are not empty, also when the articles
    folder holds no markdown file; it contacts nobody. *)
Theorem checkSettings_passes_iff (settings : OGDSettings) (tok : option string)
  (vault : Vault) (w : World Remote) :
  fst (checkSettings settings tok vault w)
  = Ok (negb (List.length (vault_folders vault) =? 0)%nat
        && negb (tokenText tok =? "")
        && negb ((owner settings =? "") || (repo settings =? ""))) /\
  remote (snd (checkSettings settings tok vault w)) = remote w /\
  calls (events (snd (checkSettings settings tok vault w))) = calls (events w).
Proof.
  unfold checkSettings.
  destruct (List.length (vault_folders vault) =? 0)%nat.
  - unfold bind, emit, ret. cbn. rewrite calls_app. cbn. now rewrite app_nil_r.
  - unfold bind, emit, ret.
    destruct (List.length (articleFiles settings vault) =? 0)%nat;
      destruct (tokenText tok =? ""); destruct ((owner settings =? "") || (repo settings =? ""));
      cbn; rewrite ?calls_app; cbn; rewrite ?app_nil_r; repeat split; reflexivity.
Qed.

(** X4. With a setting missing (no folder, no token, no owner or no repo),
    an upload sends no request and leaves the remote service alone,
    whatever the user clicks. *)
Theorem upload_with_missing_setting_sends_nothing (settings : OGDSettings)
  (tok : option string) (vault : Vault) (clicks : list (Modal * bool)) (w : World Remote) :
  (List.length (vault_folders vault) =? 0)%nat
  || (tokenText tok =? "") || (owner settings =? "") || (repo settings =? "") = true ->
  calls (events (upload transport getAllPosts parseYaml stringifyYaml
                   settings tok vault clicks w)) = calls (events w) /\
  remote (upload transport getAllPosts parseYaml stringifyYaml
            settings tok vault clicks w) = remote w.
Proof.
  intros Hmissing.
  destruct (checkSettings_passes_iff settings tok vault w) as [Hres [Hremote Hcalls]].
  assert (E : upload transport getAllPosts parseYaml stringifyYaml settings tok vault clicks w
              = snd (checkSettings settings tok vault w)).
  { unfold upload, prepareUpload. unfold bind at 1.
    destruct (checkSettings settings tok vault w) as [[passing|e] w1]; cbn [fst snd] in *;
      [|discriminate].
    injection Hres as ->.
    destruct (List.length (vault_folders vault) =? 0)%nat;
      destruct (tokenText tok =? ""); destruct (owner settings =? "");
      destruct (repo settings =? ""); cbn in Hmissing; try discriminate; reflexivity. }
  rewrite E. split; assumption.
Qed.


(** *** What a computation may send *)

Lemma sendsOnly_ret {A} (allowed : string -> bool) (a : A) :
  sendsOnly allowed (ret (Remote := Remote) a).
Proof. intros w. exists []. cbn. now rewrite app_nil_r. Qed.

Lemma sendsOnly_liftR {A} (allowed : string -> bool) (r : result A) :
  sendsOnly allowed (liftR (Remote := Remote) r).
Proof. intros w. exists []. cbn. now rewrite app_nil_r. Qed.

Lemma sendsOnly_throw {A} (allowed : string -> bool) (e : JsError) :
  sendsOnly allowed (throw (Remote := Remote) (A := A) e).
Proof. intros w. exists []. cbn. now rewrite app_nil_r. Qed.

Lemma sendsOnly_notice (allowed : string -> bool) (ev : Event) :
  calls [ev] = [] -> sendsOnly allowed (emit (Remote := Remote) ev).
Proof. intros H w. exists [ev]. cbn [emit snd events]. now rewrite H. Qed.

Lemma sendsOnly_bind {A B} (allowed : string -> bool) (c : M Remote A) (k : A -> M Remote B) :
  sendsOnly allowed c -> (forall a, sendsOnly allowed (k a)) -> sendsOnly allowed (bind c k).
Proof.
  intros Hc Hk w. destruct (Hc w) as [sent1 [E1 F1]]. unfold bind.
  destruct (c w) as [[a|e] w1]; cbn [snd] in E1.
  - destruct (Hk a w1) as [sent2 [E2 F2]]. exists (sent1 ++ sent2)%list.
    rewrite E2, E1, app_assoc. split; [reflexivity|].
    rewrite calls_app, forallb_app, F1, F2. reflexivity.
  - exists sent1. now split.
Qed.

Lemma sendsOnly_tryCatch {A} (allowed : string -> bool) (c : M Remote A)
  (h : JsError -> M Remote A) :
  sendsOnly allowed c -> (forall e, sendsOnly allowed (h e)) -> sendsOnly allowed (tryCatch c h).
Proof.
  intros Hc Hh w. destruct (Hc w) as [sent1 [E1 F1]]. unfold tryCatch.
  destruct (c w) as [[a|e] w1]; cbn [snd] in E1.
  - exists sent1. now split.
  - destruct (Hh e w1) as [sent2 [E2 F2]]. exists (sent1 ++ sent2)%list.
    rewrite E2, E1, app_assoc. split; [reflexivity|].
    rewrite calls_app, forallb_app, F1, F2. reflexivity.
Qed.

Lemma sendsOnly_execute (allowed : string -> bool) (q : string) (vars : object) (tok : string) :
  allowed q = true -> sendsOnly allowed (executeGitHubGraphQL transport q vars tok).
Proof.
  intros H w. exists [Fetch {| query := q; variables := vars; token := tok |}].
  rewrite executeGitHubGraphQL_events. cbn. now rewrite H.
Qed.

Lemma sendsOnly_forEach {A} (allowed : string -> bool) (f : A -> M Remote unit) (l : list A) :
  (forall x, sendsOnly allowed (f x)) -> sendsOnly allowed (forEach f l).
Proof.
  intros Hf. induction l as [|x l IH]; cbn [forEach].
  - apply sendsOnly_ret.
  - apply sendsOnly_bind; [apply Hf | intros _; exact IH].
Qed.

Lemma sendsOnly_createOrUpdateLabels (allowed : string -> bool) (repoId : string)
  (existingLabels : LabelMap) (tok : string) (labelNames : list string) :
  allowed CREATE_LABEL_MUTATION = true ->
  forall labelIds,
    sendsOnly allowed
      (createOrUpdateLabelsFrom transport repoId existingLabels labelNames tok labelIds).
Proof.
  intros H. induction labelNames as [|n rest IH]; intros labelIds; cbn [createOrUpdateLabelsFrom].
  - apply sendsOnly_ret.
  - destruct (JsMap.get String.eqb n existingLabels); [apply IH|].
    apply sendsOnly_bind; [now apply sendsOnly_execute|]. intros data.
    apply sendsOnly_bind; [apply sendsOnly_liftR|]. intros id. apply IH.
Qed.

Lemma sendsOnly_fetchGithubDiscussions (allowed : string -> bool)
  (auth username repoName : string) (options : OGDSettings) :
  sendsOnly allowed (fetchGithubDiscussions getAllPosts auth username repoName options).
Proof.
  unfold fetchGithubDiscussions.
  destruct (auth =? ""); [apply sendsOnly_throw|].
  destruct (username =? ""); [apply sendsOnly_throw|].
  destruct (repoName =? ""); [apply sendsOnly_throw|].
  intros w. eexists [ClientFetch _].
  destruct (getAllPosts _ (remote w)) as [[posts|e] r']; cbn; split; reflexivity.
Qed.

Lemma sendsOnly_checkSettings (allowed : string -> bool) (settings : OGDSettings)
  (tok : option string) (vault : Vault) :
  sendsOnly allowed (checkSettings (Remote := Remote) settings tok vault).
Proof.
  intros w. destruct (checkSettings_notices settings tok vault w) as [p [notices [E Hc]]].
  exists notices. rewrite E. cbn. now rewrite Hc.
Qed.

(** Each dialog of upload sends the documents that are its own. *)
Lemma sendsOnly_onSubmit (settings : OGDSettings) (plan : Plan) (tok : string)
  (modal : Modal) (approve : bool) :
  sendsOnly (fun q => approve && permitted modal q)
    (onSubmit transport parseYaml stringifyYaml settings plan tok modal approve).
Proof.
  unfold onSubmit. destruct approve; [|apply sendsOnly_ret]. cbn [andb].
  destruct modal.
  - apply sendsOnly_bind; [|intros _; now apply sendsOnly_notice].
    apply sendsOnly_forEach. intros entry. unfold createDiscussion.
    apply sendsOnly_bind; [apply sendsOnly_liftR|]. intros body.
    apply sendsOnly_bind; [apply sendsOnly_liftR|]. intros labels.
    apply sendsOnly_bind; [now apply sendsOnly_createOrUpdateLabels|]. intros labelIds.
    apply sendsOnly_bind; [apply sendsOnly_liftR|]. intros front.
    apply sendsOnly_bind; [now apply sendsOnly_execute|]. intros data.
    apply sendsOnly_bind; [apply sendsOnly_liftR|]. intros id.
    apply sendsOnly_bind; [now apply sendsOnly_execute | intros _; apply sendsOnly_ret].
  - apply sendsOnly_bind; [|intros _; now apply sendsOnly_notice].
    apply sendsOnly_forEach. intros entry. unfold updateLabels.
    apply sendsOnly_bind; [apply sendsOnly_liftR|]. intros [post|]; [|apply sendsOnly_ret].
    unfold reconcileLabels.
    apply sendsOnly_bind; [apply sendsOnly_liftR|]. intros labels.
    apply sendsOnly_bind; [now apply sendsOnly_createOrUpdateLabels|]. intros labelIds.
    unfold replaceLabels.
    apply sendsOnly_bind; [now apply sendsOnly_execute|]. intros data.
    apply sendsOnly_bind; [apply sendsOnly_liftR|]. intros nodes.
    apply sendsOnly_bind.
    + destruct (0 <? _)%nat; [|apply sendsOnly_ret].
      apply sendsOnly_bind; [now apply sendsOnly_execute | intros _; apply sendsOnly_ret].
    + intros _. destruct (0 <? _)%nat; [|apply sendsOnly_ret].
      apply sendsOnly_bind; [now apply sendsOnly_execute | intros _; apply sendsOnly_ret].
  - apply sendsOnly_bind; [|intros _; now apply sendsOnly_notice].
    apply sendsOnly_forEach. intros entry. unfold updateContent.
    apply sendsOnly_bind; [apply sendsOnly_liftR|]. intros [post|]; [|apply sendsOnly_ret].
    unfold contentUpdate.
    apply sendsOnly_bind; [apply sendsOnly_liftR|]. intros body.
    apply sendsOnly_bind; [apply sendsOnly_liftR|]. intros front.
    apply sendsOnly_bind; [now apply sendsOnly_execute | intros _; apply sendsOnly_ret].
Qed.


Lemma sendsOnly_weaken {A} (allowed allowed' : string -> bool) (c : M Remote A) :
  (forall q, allowed q = true -> allowed' q = true) ->
  sendsOnly allowed c -> sendsOnly allowed' c.
Proof.
  intros Himp Hc w. destruct (Hc w) as [sent [E F]]. exists sent. split; [assumption|].
  apply forallb_forall. intros call Hin.
  apply Himp. now apply (proj1 (forallb_forall _ _) F).
Qed.

Lemma sendsOnly_prepareUpload (allowed : string -> bool) (settings : OGDSettings)
  (tok : option string) (vault : Vault) :
  allowed GET_REPOSITORY_INFO = true ->
  sendsOnly allowed (prepareUpload transport getAllPosts parseYaml settings tok vault).
Proof.
  intros H. unfold prepareUpload.
  apply sendsOnly_bind; [apply sendsOnly_checkSettings|]. intros passing.
  destruct (negb passing); [apply sendsOnly_ret|].
  apply sendsOnly_tryCatch.
  - apply sendsOnly_bind; [now apply sendsOnly_execute|]. intros data.
    apply sendsOnly_bind; [apply sendsOnly_liftR|]. intros [[repoId categories] labels].
    destruct (_ =? "").
    + apply sendsOnly_bind; [now apply sendsOnly_notice | intros _; apply sendsOnly_ret].
    + apply sendsOnly_bind; [apply sendsOnly_fetchGithubDiscussions|]. intros posts.
      apply sendsOnly_bind; [apply sendsOnly_liftR | intros files; apply sendsOnly_ret].
  - intros e. apply sendsOnly_bind; [now apply sendsOnly_notice | intros _; apply sendsOnly_ret].
Qed.

Lemma Modal_eqb_refl (modal : Modal) : Modal_eqb modal modal = true.
Proof. now destruct modal. Qed.

Lemma approvedDocument_head (modal : Modal) (approve : bool) (rest : list (Modal * bool))
  (q : string) :
  approve && permitted modal q = true ->
  approvedDocument ((modal, approve) :: rest) q = true.
Proof.
  intros H. apply andb_true_iff in H as [-> Hp].
  unfold approvedDocument, approved. cbn [existsb fst snd].
  destruct modal; cbn [Modal_eqb andb orb]; rewrite Hp; cbn;
    rewrite ?orb_true_r; reflexivity.
Qed.

Lemma approvedDocument_tail (click : Modal * bool) (rest : list (Modal * bool)) (q : string) :
  approvedDocument rest q = true -> approvedDocument (click :: rest) q = true.
Proof.
  unfold approvedDocument. rewrite !existsb_exists.
  intros [modal [Hin H]]. exists modal. split; [assumption|].
  apply andb_true_iff in H as [Ha Hp]. rewrite Hp, andb_true_r.
  unfold approved in *. cbn [existsb]. rewrite Ha. apply orb_true_r.
Qed.

(** What the dialogs send, for the clicks the user makes. *)
Lemma submitAll_events (settings : OGDSettings) (plan : Plan) (tok : string)
  (clicks : list (Modal * bool)) :
  forall (open : list Modal) (w : World Remote),
  exists sent : list Event,
    events (submitAll transport parseYaml stringifyYaml settings plan tok open clicks w)
    = (events w ++ sent)%list /\
    forallb (fun call => approvedDocument clicks (query call)) (calls sent) = true.
Proof.
  induction clicks as [|[modal approve] rest IH]; intros open w; cbn [submitAll].
  - exists []. now rewrite app_nil_r.
  - destruct (existsb (Modal_eqb modal) open).
    + destruct (sendsOnly_onSubmit settings plan tok modal approve w) as [sent1 [E1 F1]].
      destruct (IH (filter (fun m => negb (Modal_eqb modal m)) open)
                  (snd (onSubmit transport parseYaml stringifyYaml settings plan tok
                          modal approve w)))
        as [sent2 [E2 F2]].
      exists (sent1 ++ sent2)%list. rewrite E2, E1, app_assoc. split; [reflexivity|].
      rewrite calls_app, forallb_app. apply andb_true_iff. split.
      * apply forallb_forall. intros call Hin.
        apply approvedDocument_head. now apply (proj1 (forallb_forall _ _) F1).
      * apply forallb_forall. intros call Hin.
        apply approvedDocument_tail. now apply (proj1 (forallb_forall _ _) F2).
    + destruct (IH open w) as [sent [E F]]. exists sent. split; [assumption|].
      apply forallb_forall. intros call Hin.
      apply approvedDocument_tail. now apply (proj1 (forallb_forall _ _) F).
Qed.

(** The requests of an upload: the repository query first, then documents
    of approved dialogs. *)
Lemma upload_events (settings : OGDSettings) (tok : option string) (vault : Vault)
  (clicks : list (Modal * bool)) (w : World Remote) :
  exists sent : list Event,
    events (upload transport getAllPosts parseYaml stringifyYaml settings tok vault clicks w)
    = (events w ++ sent)%list /\
    forallb (inOrder clicks) (calls sent) = true.
Proof.
  unfold upload.
  destruct (@sendsOnly_prepareUpload (fun q => q =? GET_REPOSITORY_INFO) settings tok vault
              (String.eqb_refl _) w) as [sent0 [E0 F0]].
  assert (F0' : forallb (inOrder clicks) (calls sent0) = true).
  { apply forallb_forall. intros call Hin. unfold inOrder.
    rewrite (proj1 (forallb_forall _ _) F0 call Hin). reflexivity. }
  destruct (prepareUpload transport getAllPosts parseYaml settings tok vault w)
    as [[[plan|]|e] w1]; cbn [snd] in E0; try (exists sent0; now split).
  destruct (submitAll_events settings plan (tokenText tok) clicks (openModals plan) w1)
    as [sent1 [E1 F1]].
  exists (sent0 ++ sent1)%list. rewrite E1, E0, app_assoc. split; [reflexivity|].
  rewrite calls_app, forallb_app, F0'. cbn [andb].
  apply forallb_forall. intros call Hin. unfold inOrder.
  rewrite (proj1 (forallb_forall _ _) F1 call Hin). apply orb_true_r.
Qed.

(** *** What a computation may fetch through the client *)

Lemma clientFetches_app (l1 l2 : list Event) :
  clientFetches (l1 ++ l2) = (clientFetches l1 ++ clientFetches l2)%list.
Proof.
  induction l1 as [|[c|o|m|e] l1 IH]; simpl; try assumption; [reflexivity|].
  now rewrite IH.
Qed.

Lemma fetchesOnly_ret {A} (allowed : GitHubClientOptions -> Prop) (a : A) :
  fetchesOnly allowed (ret (Remote := Remote) a).
Proof. intros w. exists []. cbn. split; [now rewrite app_nil_r | constructor]. Qed.

Lemma fetchesOnly_liftR {A} (allowed : GitHubClientOptions -> Prop) (r : result A) :
  fetchesOnly allowed (liftR (Remote := Remote) r).
Proof. intros w. exists []. cbn. split; [now rewrite app_nil_r | constructor]. Qed.

Lemma fetchesOnly_throw {A} (allowed : GitHubClientOptions -> Prop) (e : JsError) :
  fetchesOnly allowed (throw (Remote := Remote) (A := A) e).
Proof. intros w. exists []. cbn. split; [now rewrite app_nil_r | constructor]. Qed.

Lemma fetchesOnly_emit (allowed : GitHubClientOptions -> Prop) (ev : Event) :
  clientFetches [ev] = [] -> fetchesOnly allowed (emit (Remote := Remote) ev).
Proof. intros H w. exists [ev]. cbn [emit snd events]. rewrite H. split; [reflexivity | constructor]. Qed.

Lemma fetchesOnly_bind {A B} (allowed : GitHubClientOptions -> Prop) (c : M Remote A)
  (k : A -> M Remote B) :
  fetchesOnly allowed c -> (forall a, fetchesOnly allowed (k a)) ->
  fetchesOnly allowed (bind c k).
Proof.
  intros Hc Hk w. destruct (Hc w) as [sent1 [E1 F1]]. unfold bind.
  destruct (c w) as [[a|e] w1]; cbn [snd] in E1.
  - destruct (Hk a w1) as [sent2 [E2 F2]]. exists (sent1 ++ sent2)%list.
    rewrite E2, E1, app_assoc. split; [reflexivity|].
    rewrite clientFetches_app. apply Forall_app. now split.
  - exists sent1. now split.
Qed.

Lemma fetchesOnly_tryCatch {A} (allowed : GitHubClientOptions -> Prop) (c : M Remote A)
  (h : JsError -> M Remote A) :
  fetchesOnly allowed c -> (forall e, fetchesOnly allowed (h e)) ->
  fetchesOnly allowed (tryCatch c h).
Proof.
  intros Hc Hh w. destruct (Hc w) as [sent1 [E1 F1]]. unfold tryCatch.
  destruct (c w) as [[a|e] w1]; cbn [snd] in E1.
  - exists sent1. now split.
  - destruct (Hh e w1) as [sent2 [E2 F2]]. exists (sent1 ++ sent2)%list.
    rewrite E2, E1, app_assoc. split; [reflexivity|].
    rewrite clientFetches_app. apply Forall_app. now split.
Qed.

Lemma fetchesOnly_execute (allowed : GitHubClientOptions -> Prop) (q : string)
  (vars : object) (tok : string) :
  fetchesOnly allowed (executeGitHubGraphQL transport q vars tok).
Proof.
  intros w. exists [Fetch {| query := q; variables := vars; token := tok |}].
  rewrite executeGitHubGraphQL_events. split; [reflexivity | constructor].
Qed.

Lemma fetchesOnly_forEach {A} (allowed : GitHubClientOptions -> Prop)
  (f : A -> M Remote unit) (l : list A) :
  (forall x, fetchesOnly allowed (f x)) -> fetchesOnly allowed (forEach f l).
Proof.
  intros Hf. induction l as [|x l IH]; cbn [forEach].
  - apply fetchesOnly_ret.
  - apply fetchesOnly_bind; [apply Hf | intros _; exact IH].
Qed.

Lemma fetchesOnly_createOrUpdateLabels (allowed : GitHubClientOptions -> Prop)
  (repoId : string) (existingLabels : LabelMap) (tok : string) (labelNames : list string) :
  forall labelIds,
    fetchesOnly allowed
      (createOrUpdateLabelsFrom transport repoId existingLabels labelNames tok labelIds).
Proof.
  induction labelNames as [|n rest IH]; intros labelIds; cbn [createOrUpdateLabelsFrom].
  - apply fetchesOnly_ret.
  - destruct (JsMap.get String.eqb n existingLabels); [apply IH|].
    apply fetchesOnly_bind; [apply fetchesOnly_execute|]. intros data.
    apply fetchesOnly_bind; [apply fetchesOnly_liftR|]. intros id. apply IH.
Qed.

(** One step through straight-line code that fetches nothing through the
    client. *)
Ltac fetches_step :=
  first
    [ apply fetchesOnly_ret
    | apply fetchesOnly_liftR
    | apply fetchesOnly_throw
    | apply fetchesOnly_execute
    | apply fetchesOnly_createOrUpdateLabels
    | apply fetchesOnly_emit; reflexivity
    | apply fetchesOnly_forEach; intros ?
    | apply fetchesOnly_bind; [|intros ?]
    | match goal with
      | |- fetchesOnly _ (if ?b then _ else _) => destruct b
      | |- fetchesOnly _ (match ?x with Some _ => _ | None => _ end) => destruct x
      end ].

(** The dialogs of upload do not use the client. *)
Lemma fetchesOnly_onSubmit (settings : OGDSettings) (plan : Plan) (tok : string)
  (modal : Modal) (approve : bool) :
  fetchesOnly (fun _ => False)
    (onSubmit transport parseYaml stringifyYaml settings plan tok modal approve).
Proof.
  unfold onSubmit. destruct approve; [|apply fetchesOnly_ret].
  destruct modal;
    unfold createDiscussion, updateLabels, updateContent, reconcileLabels, replaceLabels,
      contentUpdate, createOrUpdateLabels;
    repeat fetches_step.
Qed.

Lemma fetchesOnly_checkSettings (allowed : GitHubClientOptions -> Prop)
  (settings : OGDSettings) (tok : option string) (vault : Vault) :
  fetchesOnly allowed (checkSettings (Remote := Remote) settings tok vault).
Proof. unfold checkSettings. repeat fetches_step. Qed.

(** The client is used once at most, for the configured repository. *)
Lemma fetchesOnly_prepareUpload (settings : OGDSettings) (tok : option string)
  (vault : Vault) :
  fetchesOnly (configuredFetch settings tok)
    (prepareUpload transport getAllPosts parseYaml settings tok vault).
Proof.
  unfold prepareUpload.
  apply fetchesOnly_bind; [apply fetchesOnly_checkSettings|]. intros passing.
  destruct (negb passing); [apply fetchesOnly_ret|].
  apply fetchesOnly_tryCatch; [|intros e; repeat fetches_step].
  apply fetchesOnly_bind; [apply fetchesOnly_execute|]. intros data.
  apply fetchesOnly_bind; [apply fetchesOnly_liftR|]. intros [[repoId categories] labels].
  destruct (_ =? ""); [repeat fetches_step|].
  apply fetchesOnly_bind; [|intros posts; repeat fetches_step].
  unfold fetchGithubDiscussions.
  destruct (tokenText tok =? ""); [apply fetchesOnly_throw|].
  destruct (owner settings =? ""); [apply fetchesOnly_throw|].
  destruct (repo settings =? ""); [apply fetchesOnly_throw|].
  intros w. eexists [ClientFetch _].
  destruct (getAllPosts _ (remote w)) as [[posts|e] r']; cbn [snd events clientFetches];
    (split; [reflexivity|]); repeat constructor.
Qed.

Lemma submitAll_fetches (settings : OGDSettings) (plan : Plan) (tok : string)
  (clicks : list (Modal * bool)) :
  forall (open : list Modal) (w : World Remote),
  exists sent : list Event,
    events (submitAll transport parseYaml stringifyYaml settings plan tok open clicks w)
    = (events w ++ sent)%list /\
    clientFetches sent = [].
Proof.
  induction clicks as [|[modal approve] rest IH]; intros open w; cbn [submitAll].
  - exists []. now rewrite app_nil_r.
  - destruct (existsb (Modal_eqb modal) open); [|apply IH].
    destruct (fetchesOnly_onSubmit settings plan tok modal approve w) as [sent1 [E1 F1]].
    destruct (IH (filter (fun m => negb (Modal_eqb modal m)) open)
                (snd (onSubmit transport parseYaml stringifyYaml settings plan tok
                        modal approve w)))
      as [sent2 [E2 F2]].
    exists (sent1 ++ sent2)%list. rewrite E2, E1, app_assoc. split; [reflexivity|].
    rewrite clientFetches_app, F2, app_nil_r.
    destruct (clientFetches sent1) as [|o l]; [reflexivity|].
    inversion F1 as [|? ? []].
Qed.

Lemma upload_fetches (settings : OGDSettings) (tok : option string) (vault : Vault)
  (clicks : list (Modal * bool)) (w : World Remote) :
  exists sent : list Event,
    events (upload transport getAllPosts parseYaml stringifyYaml settings tok vault clicks w)
    = (events w ++ sent)%list /\
    Forall (configuredFetch settings tok) (clientFetches sent).
Proof.
  unfold upload.
  destruct (fetchesOnly_prepareUpload settings tok vault w) as [sent0 [E0 F0]].
  destruct (prepareUpload transport getAllPosts parseYaml settings tok vault w)
    as [[[plan|]|e] w1]; cbn [snd] in E0; try (exists sent0; now split).
  destruct (submitAll_fetches settings plan (tokenText tok) clicks (openModals plan) w1)
    as [sent1 [E1 F1]].
  exists (sent0 ++ sent1)%list. rewrite E1, E0, app_assoc. split; [reflexivity|].
  now rewrite clientFetches_app, F1, app_nil_r.
Qed.

Lemma eventInOrder_all (settings : OGDSettings) (tok : option string)
  (clicks : list (Modal * bool)) (sent : list Event) :
  forallb (inOrder clicks) (calls sent) = true ->
  Forall (configuredFetch settings tok) (clientFetches sent) ->
  Forall (eventInOrder settings tok clicks) sent.
Proof.
  induction sent as [|[c|o|m|e] sent IH]; cbn [calls clientFetches forallb]; intros Hc Hf.
  - constructor.
  - apply andb_true_iff in Hc as [H1 H2]. constructor; [exact H1 | now apply IH].
  - inversion Hf; subst. constructor; [assumption | now apply IH].
  - constructor; [exact I | now apply IH].
  - constructor; [exact I | now apply IH].
Qed.

(** X5. Everything an upload does towards the service is in order: each
    request it sends is the repository query or a document of a dialog the
    user approved (the create dialog sends create-label, create-discussion
    and add-labels, the label dialog create-label, the label query,
    remove-labels and add-labels, the content dialog update-discussion), and
    each fetch through the client asks, with the token, for the discussions
    of the configured repository and category. *)
Theorem upload_sends_what_was_approved (settings : OGDSettings) (tok : option string)
  (vault : Vault) (clicks : list (Modal * bool)) (r : Remote) :
  Forall (eventInOrder settings tok clicks)
    (events (upload transport getAllPosts parseYaml stringifyYaml
               settings tok vault clicks {| remote := r; events := [] |})).
Proof.
  destruct (upload_events settings tok vault clicks {| remote := r; events := [] |})
    as [sent [E F]].
  destruct (upload_fetches settings tok vault clicks {| remote := r; events := [] |})
    as [sent' [E' F']].
  rewrite E in E'. cbn [events app] in E'. subst sent'.
  rewrite E. now apply eventInOrder_all.
Qed.

(** X6. When the user approves no dialog, an upload sends no mutation. *)
Theorem upload_without_approval_sends_no_mutation (settings : OGDSettings)
  (tok : option string) (vault : Vault) (clicks : list (Modal * bool)) (r : Remote) :
  forallb (fun click => negb (snd click)) clicks = true ->
  forallb (fun call => negb (isMutation (query call)))
    (calls (events (upload transport getAllPosts parseYaml stringifyYaml
                      settings tok vault clicks {| remote := r; events := [] |})))
  = true.
Proof.
  intros Hnone.
  destruct (upload_events settings tok vault clicks {| remote := r; events := [] |})
    as [sent [E F]].
  rewrite E. cbn [events app].
  apply forallb_forall. intros call Hin.
  pose proof (proj1 (forallb_forall _ _) F call Hin) as H. unfold inOrder in H.
  apply orb_true_iff in H as [H|H].
  - apply String.eqb_eq in H. rewrite H. reflexivity.
  - exfalso. unfold approvedDocument in H. apply existsb_exists in H as [modal [_ H]].
    apply andb_true_iff in H as [H _]. unfold approved in H.
    apply existsb_exists in H as [click [Hclick H]].
    apply andb_true_iff in H as [_ H].
    pose proof (proj1 (forallb_forall _ _) Hnone click Hclick) as Hn.
    cbv beta in Hn. rewrite H in Hn. discriminate.
Qed.


(** X7. A dialog that the user did not approve has none of its effect: no
    discussion is created without the create dialog, no label is removed
    without the label dialog, no discussion is rewritten without the content
    dialog. *)
Theorem upload_dialogs_are_independent (settings : OGDSettings) (tok : option string)
  (vault : Vault) (clicks : list (Modal * bool)) (r : Remote) (modal : Modal) :
  approved clicks modal = false ->
  forallb (fun call => negb (query call =? ownDocument modal))
    (calls (events (upload transport getAllPosts parseYaml stringifyYaml
                      settings tok vault clicks {| remote := r; events := [] |})))
  = true.
Proof.
  intros Hnot.
  destruct (upload_events settings tok vault clicks {| remote := r; events := [] |})
    as [sent [E F]].
  rewrite E. cbn [events app].
  apply forallb_forall. intros call Hin.
  pose proof (proj1 (forallb_forall _ _) F call Hin) as H. unfold inOrder in H.
  destruct (query call =? ownDocument modal) eqn:Eq; [|reflexivity].
  exfalso. apply String.eqb_eq in Eq. rewrite Eq in H.
  apply orb_true_iff in H as [H|H].
  - destruct modal; vm_compute in H; discriminate.
  - unfold approvedDocument in H. apply existsb_exists in H as [other [_ H]].
    apply andb_true_iff in H as [Ha Hp].
    destruct modal, other; try (vm_compute in Hp; discriminate); congruence.
Qed.


(** *** createOrUpdateLabels and fetchGithubDiscussions *)





Lemma createOrUpdateLabelsFrom_result (repoId : string) (existingLabels : LabelMap)
  (tok : string) (labelNames : list string) :
  forall (acc acc' : LabelMap) (w w' : World Remote),
  createOrUpdateLabelsFrom transport repoId existingLabels labelNames tok acc w
  = (Ok acc', w') ->
  (forall n, ~ In n labelNames ->
             JsMap.get String.eqb n acc' = JsMap.get String.eqb n acc) /\
  (forall n, In n labelNames -> exists id, JsMap.get String.eqb n acc' = Some id) /\
  (forall n id, In n labelNames -> JsMap.get String.eqb n existingLabels = Some id ->
                JsMap.get String.eqb n acc' = Some id).
Proof.
  induction labelNames as [|n0 rest IH]; intros acc acc' w w' H.
  - cbn in H. injection H as <- <-. repeat split; try reflexivity; intros n []; contradiction.
  - cbn [createOrUpdateLabelsFrom] in H.
    assert (Step : forall id0 w1,
               createOrUpdateLabelsFrom transport repoId existingLabels rest tok
                 (JsMap.set String.eqb n0 id0 acc) w1 = (Ok acc', w') ->
               (forall n, ~ In n (n0 :: rest) ->
                          JsMap.get String.eqb n acc' = JsMap.get String.eqb n acc) /\
               (forall n, In n (n0 :: rest) ->
                          exists id, JsMap.get String.eqb n acc' = Some id) /\
               (forall n id, In n (n0 :: rest) -> n <> n0 \/ In n rest \/ id = id0 ->
                             JsMap.get String.eqb n existingLabels = Some id ->
                             JsMap.get String.eqb n acc' = Some id)).
    { intros id0 w1 Hrest. destruct (IH _ _ _ _ Hrest) as [H1 [H2 H3]].
      split; [|split].
      - intros n Hn. rewrite H1 by (intros Hin; apply Hn; now right).
        apply MapFacts.map_get_set_other. intros ->. apply Hn. now left.
      - intros n Hn. destruct (in_dec string_dec n rest) as [Hin|Hnin]; [now apply H2|].
        destruct Hn as [<-|Hn]; [|contradiction].
        exists id0. rewrite H1 by assumption. apply MapFacts.map_get_set_same.
      - intros n id Hn Hcase Hknown.
        destruct (in_dec string_dec n rest) as [Hin|Hnin]; [now apply H3|].
        destruct Hn as [<-|Hn]; [|contradiction].
        destruct Hcase as [Hne|[Hin| -> ]]; [now elim Hne | contradiction |].
        rewrite H1 by assumption. apply MapFacts.map_get_set_same. }
    destruct (JsMap.get String.eqb n0 existingLabels) as [id0|] eqn:Hget.
    + destruct (Step id0 w H) as [H1 [H2 H3]]. split; [exact H1|]. split; [exact H2|].
      intros n id Hn Hknown. apply H3; [assumption | | assumption].
      destruct (string_dec n n0) as [->|ne]; [|now left].
      right. right. congruence.
    + unfold bind at 1 in H.
      destruct (executeGitHubGraphQL transport CREATE_LABEL_MUTATION
                  (createLabelVariables repoId n0) tok w) as [[data|e] w1]; [|discriminate].
      unfold bind at 1, liftR in H.
      destruct (createLabelId data) as [id1|e]; [|discriminate].
      destruct (Step id1 w1 H) as [H1 [H2 H3]]. split; [exact H1|]. split; [exact H2|].
      intros n id Hn Hknown. apply H3; [assumption | | assumption].
      destruct (string_dec n n0) as [->|ne]; [|now left]. congruence.
Qed.

(** X11. When [createOrUpdateLabels] succeeds, the map it returns has an id
    for every requested name and for no other, and the id of a name the
    repository knows is the known one. *)
Theorem createOrUpdateLabels_result (repoId : string) (existingLabels : LabelMap)
  (labelNames : list string) (tok : string) (w w' : World Remote) (labelIds : LabelMap) :
  createOrUpdateLabels transport repoId existingLabels labelNames tok w = (Ok labelIds, w') ->
  Forall (fun n =>
            exists id, JsMap.get String.eqb n labelIds = Some id /\
                       (JsMap.has String.eqb n existingLabels = true ->
                        JsMap.get String.eqb n existingLabels = Some id))
         labelNames /\
  (forall n, ~ In n labelNames -> JsMap.get String.eqb n labelIds = None).
Proof.
  intros H. unfold createOrUpdateLabels in H.
  apply createOrUpdateLabelsFrom_result in H. destruct H as [H1 [H2 H3]].
  split; [|intros n Hn; now rewrite H1].
  apply Forall_forall. intros n Hn. destruct (H2 n Hn) as [id Hid].
  exists id. split; [assumption|].
  unfold JsMap.has. destruct (JsMap.get String.eqb n existingLabels) as [known|] eqn:E;
    [|discriminate].
  intros _. rewrite (H3 n known Hn E) in Hid. congruence.
Qed.

(** X12. When the known-labels map has every requested name,
    [createOrUpdateLabels] sends nothing, leaves the service as it is and
    returns the known ids. *)
Theorem createOrUpdateLabels_all_known (repoId : string) (existingLabels : LabelMap)
  (labelNames : list string) (tok : string) (w : World Remote) :
  forallb (fun n => JsMap.has String.eqb n existingLabels) labelNames = true ->
  createOrUpdateLabels transport repoId existingLabels labelNames tok w
  = (Ok (gather existingLabels labelNames []), w).
Proof.
  intros H. unfold createOrUpdateLabels. apply createOrUpdateLabels_known.
  intros n Hn Hnone. pose proof (proj1 (forallb_forall _ _) H n Hn) as Hhas.
  unfold JsMap.has in Hhas. now rewrite Hnone in Hhas.
Qed.

(** X13. Without a token, an owner or a repository name,
    [fetchGithubDiscussions] throws before it reaches the client. *)
Theorem fetchGithubDiscussions_requires_credentials (auth username repoName : string)
  (options : OGDSettings) (w : World Remote) :
  (auth =? "") || (username =? "") || (repoName =? "") = true ->
  exists msg : string,
    fetchGithubDiscussions getAllPosts auth username repoName options w
    = (Throw (Error msg), w).
Proof.
  intros H. unfold fetchGithubDiscussions.
  destruct (auth =? ""); [eexists; reflexivity|].
  destruct (username =? ""); [eexists; reflexivity|].
  destruct (repoName =? ""); [eexists; reflexivity|].
  discriminate.
Qed.

End UploadFacts.

Lemma upload_with_missing_setting_sends_nothing_witness :
  calls (events (modelUpload true Sample.settings None Sample.vault
                   [(CreateDiscussionsModal, true)] (Sample.start Sample.github)))
  = calls (events (Sample.start Sample.github)) /\
  remote (modelUpload true Sample.settings None Sample.vault
            [(CreateDiscussionsModal, true)] (Sample.start Sample.github))
  = remote (Sample.start Sample.github).
Proof.
  apply (@upload_with_missing_setting_sends_nothing GitHub (GitHubModel.transport true)
           modelGetAllPosts FlatYaml.parseYaml FlatYaml.stringifyYaml
           Sample.settings None Sample.vault [(CreateDiscussionsModal, true)]
           (Sample.start Sample.github)).
  reflexivity.
Defined.

Lemma upload_without_approval_sends_no_mutation_witness :
  forallb (fun call => negb (isMutation (query call)))
    (calls (events (modelUpload false Sample.settings (Some "tok") Sample.vault
                      [(CreateDiscussionsModal, false); (UpdateContentModal, false)]
                      {| remote := Sample.github; events := [] |})))
  = true.
Proof.
  apply (@upload_without_approval_sends_no_mutation GitHub (GitHubModel.transport false)
           modelGetAllPosts FlatYaml.parseYaml FlatYaml.stringifyYaml
           Sample.settings (Some "tok") Sample.vault
           [(CreateDiscussionsModal, false); (UpdateContentModal, false)] Sample.github).
  reflexivity.
Defined.

Lemma upload_dialogs_are_independent_witness :
  forallb (fun call => negb (query call =? ownDocument UpdateContentModal))
    (calls (events (modelUpload false Sample.settings (Some "tok") Sample.vault
                      [(CreateDiscussionsModal, true); (UpdateLabelsModal, true)]
                      {| remote := Sample.github; events := [] |})))
  = true.
Proof.
  apply (@upload_dialogs_are_independent GitHub (GitHubModel.transport false)
           modelGetAllPosts FlatYaml.parseYaml FlatYaml.stringifyYaml
           Sample.settings (Some "tok") Sample.vault
           [(CreateDiscussionsModal, true); (UpdateLabelsModal, true)] Sample.github
           UpdateContentModal).
  reflexivity.
Defined.

(** ** Labels of upload *)

Lemma prefix_append (p s : string) : String.prefix p (p ++ s) = true.
Proof.
  induction p as [|c p IH]; simpl; [now destruct s|].
  destruct (ascii_dec c c) as [_|ne]; [exact IH | now elim ne].
Qed.

(** X8. Every label upload renders for a document starts with the tag
    prefix or the series prefix: it is among the labels the next label
    update of the discussion detaches. *)
Theorem rendered_labels_are_managed (settings : OGDSettings) (frontMatter : object)
  (labels : list string) :
  labelsOf settings frontMatter = Ok labels ->
  forallb (managedPrefix settings) labels = true.
Proof.
  intros H. unfold labelsOf in H.
  assert (Htags : forall l, forallb (managedPrefix settings)
                              (map (fun tag => tagLabelPrefix settings ++ tag) l) = true).
  { intros l. apply forallb_forall. intros x Hx. apply in_map_iff in Hx as [tag [<- _]].
    unfold managedPrefix, JS.startsWith. now rewrite prefix_append. }
  assert (Hseries : forallb (managedPrefix settings)
                      (if JS.truthy (Object.get "series" frontMatter)
                       then [seriesLabelPrefix settings
                             ++ JS.template (Object.get "series" frontMatter)]
                       else []) = true).
  { destruct (JS.truthy (Object.get "series" frontMatter)); [|reflexivity]. cbn [forallb].
    unfold managedPrefix, JS.startsWith. rewrite prefix_append. now rewrite orb_true_r. }
  destruct (Object.get "tags" frontMatter) as [| |[]|t|l]; cbn in H; try discriminate;
    try (injection H as <-; exact Hseries).
  - destruct (negb (t =? "")); cbn in H; [discriminate | injection H as <-; exact Hseries].
  - injection H as <-. rewrite forallb_app, Htags. exact Hseries.
Qed.

Lemma rendered_labels_are_managed_witness :
  forallb (managedPrefix Sample.settings) ["tag/x"] = true.
Proof.
  apply (@rendered_labels_are_managed Sample.settings Sample.draftFrontMatter ["tag/x"]).
  reflexivity.
Defined.

(** X9. Rendering the labels fails exactly when [tags] is truthy and is no
    list (it has no [map] then), and the failure is a TypeError: a missing,
    falsy or list-valued [tags] never fails, whatever [series] is. *)
Theorem labelsOf_throws_iff (settings : OGDSettings) (frontMatter : object) :
  (labelsOf settings frontMatter = Throw TypeError <->
   JS.truthy (Object.get "tags" frontMatter) = true /\
   forall l, Object.get "tags" frontMatter <> VList l) /\
  (forall e, labelsOf settings frontMatter = Throw e -> e = TypeError).
Proof.
  unfold labelsOf.
  destruct (Object.get "tags" frontMatter) as [| |b|t|l]; cbn [JS.truthy].
  - split; [|discriminate]. split; [discriminate | intros [H _]; discriminate].
  - split; [|discriminate]. split; [discriminate | intros [H _]; discriminate].
  - destruct b; cbn [rbind]; (split; [|intros e [=]; congruence]).
    + split; [intros _; split; [reflexivity | discriminate] | reflexivity].
    + split; [discriminate | intros [H _]; discriminate].
  - destruct (negb (t =? "")); cbn [rbind]; (split; [|intros e [=]; congruence]).
    + split; [intros _; split; [reflexivity | discriminate] | reflexivity].
    + split; [discriminate | intros [H _]; discriminate].
  - cbn [rbind]. split; [|discriminate].
    split; [discriminate | intros [_ H]; now elim (H l)].
Qed.

Lemma createOrUpdateLabels_result_witness :
  Forall (fun n =>
            exists id,
              JsMap.get String.eqb n [("tag/x", "L2"); ("tag/new", "LA_0")] = Some id /\
              (JsMap.has String.eqb n (knownLabels Sample.githubTagged) = true ->
               JsMap.get String.eqb n (knownLabels Sample.githubTagged) = Some id))
         ["tag/x"; "tag/new"; "tag/x"] /\
  (forall n, ~ In n ["tag/x"; "tag/new"; "tag/x"] ->
             JsMap.get String.eqb n [("tag/x", "L2"); ("tag/new", "LA_0")] = None).
Proof.
  apply (@createOrUpdateLabels_result GitHub (GitHubModel.transport false) "R1"
           (knownLabels Sample.githubTagged) ["tag/x"; "tag/new"; "tag/x"] "tok"
           (Sample.start Sample.githubTagged)
           (snd (createOrUpdateLabels (GitHubModel.transport false) "R1"
                   (knownLabels Sample.githubTagged) ["tag/x"; "tag/new"; "tag/x"] "tok"
                   (Sample.start Sample.githubTagged)))
           [("tag/x", "L2"); ("tag/new", "LA_0")]).
  vm_compute. reflexivity.
Defined.

Lemma createOrUpdateLabels_all_known_witness :
  createOrUpdateLabels (GitHubModel.transport true) "R1" (knownLabels Sample.githubTagged)
    ["tag/x"; "area/infra"] "tok" (Sample.start Sample.githubTagged)
  = (Ok (gather (knownLabels Sample.githubTagged) ["tag/x"; "area/infra"] []),
     Sample.start Sample.githubTagged).
Proof.
  apply (@createOrUpdateLabels_all_known GitHub (GitHubModel.transport true) "R1"
           (knownLabels Sample.githubTagged) ["tag/x"; "area/infra"] "tok"
           (Sample.start Sample.githubTagged)).
  reflexivity.
Defined.

Lemma fetchGithubDiscussions_requires_credentials_witness :
  exists msg : string,
    fetchGithubDiscussions modelGetAllPosts "" "me" "blog" Sample.settings
      (Sample.start Sample.github)
    = (Throw (Error msg), Sample.start Sample.github).
Proof.
  apply (@fetchGithubDiscussions_requires_credentials GitHub modelGetAllPosts "" "me" "blog"
           Sample.settings (Sample.start Sample.github)).
  reflexivity.
Defined.

(** ** The scan of upload, file by file *)

(** X14. When the scan of upload succeeds, each markdown file is in
    [newFiles] or [existingFiles] exactly when it has a metadata block with a
    truthy slug, never in both, and the two lists hold no other file. *)
Theorem scan_classifies_each_file (parseYaml : Value -> result (option object))
  (ghArticles : list GitHubPost) (markdownFiles : list TFile)
  (newFiles existingFiles : list LocalEntry) :
  scan parseYaml ghArticles markdownFiles [] [] = Ok (newFiles, existingFiles) ->
  Forall (fun file =>
            ((exists frontMatter, hasSlug parseYaml file frontMatter) <->
             In file (map entry_file newFiles) \/ In file (map entry_file existingFiles)) /\
            ~ (In file (map entry_file newFiles) /\ In file (map entry_file existingFiles)))
         markdownFiles /\
  Forall (fun entry => In (entry_file entry) markdownFiles) (newFiles ++ existingFiles).
Proof.
  intros H. apply scan_partition in H.
  destruct H as [added [matched [E1 [E2 [Hnew [Hold Hall]]]]]].
  cbn [app] in E1, E2. subst added matched.
  split.
  - apply Forall_forall. intros file Hfile. split; [split|].
    + intros [fm Hs]. exact (Hall file fm Hfile Hs).
    + intros [Hin|Hin]; apply in_map_iff in Hin as [e [<- He]].
      * exists (entry_frontMatter e). apply (Hnew e He).
      * exists (entry_frontMatter e). apply (Hold e He).
    + intros [Hin1 Hin2].
      apply in_map_iff in Hin1 as [e1 [E1 He1]]. apply in_map_iff in Hin2 as [e2 [E2 He2]].
      destruct (Hnew e1 He1) as [_ [[_ [Hp1 _]] Hnone]].
      destruct (Hold e2 He2) as [_ [[_ [Hp2 _]] [post Hsome]]].
      rewrite E1 in Hp1. rewrite E2 in Hp2. rewrite Hp1 in Hp2. injection Hp2 as Efm.
      rewrite Efm in Hnone. rewrite Hnone in Hsome. discriminate.
  - apply Forall_forall. intros e He. apply in_app_iff in He as [He|He].
    + apply (Hnew e He).
    + apply (Hold e He).
Qed.

Lemma scan_classifies_each_file_witness :
  Forall (fun file =>
            ((exists frontMatter, hasSlug FlatYaml.parseYaml file frontMatter) <->
             In file (map entry_file [Sample.entryB]) \/ In file (map entry_file [])) /\
            ~ (In file (map entry_file [Sample.entryB]) /\ In file (map entry_file [])))
         [article "Untitled" ["description: no slug here"] "text"; entry_file Sample.entryB] /\
  Forall (fun entry =>
            In (entry_file entry)
               [article "Untitled" ["description: no slug here"] "text";
                entry_file Sample.entryB])
         ([Sample.entryB] ++ []).
Proof.
  apply (@scan_classifies_each_file FlatYaml.parseYaml []
           [article "Untitled" ["description: no slug here"] "text"; entry_file Sample.entryB]
           [Sample.entryB] []).
  vm_compute. reflexivity.
Defined.

(** ** The document format: delimiter, metadata, delimiter, body *)

Lemma splitFrom_skip (sep : string) (skipped : string) :
  forall (cur rest : string),
  JS.splitFrom sep (String.length skipped) cur (skipped ++ rest) = JS.splitFrom sep 0 cur rest.
Proof.
  induction skipped as [|c skipped IH]; intros cur rest; [reflexivity|].
  cbn [String.length append JS.splitFrom]. apply IH.
Qed.

(** The first piece ends where the separator first matches. *)
Lemma splitFrom_first (c : ascii) (sep' a : string) :
  forall (cur rest : string),
  noMatchWithin (String c sep') a (String c sep' ++ rest) = true ->
  JS.splitFrom (String c sep') 0 cur (a ++ String c sep' ++ rest)
  = (cur ++ a) :: JS.splitFrom (String c sep') 0 "" rest.
Proof.
  induction a as [|d a IH]; intros cur rest H.
  - cbn [append]. cbn [JS.splitFrom].
    change (String c (sep' ++ rest)) with (String c sep' ++ rest).
    rewrite prefix_append. cbn [String.length Nat.sub]. rewrite Nat.sub_0_r.
    rewrite splitFrom_skip. now rewrite JSFacts.append_empty_r.
  - cbn [noMatchWithin] in H. apply andb_true_iff in H as [Hno Hrest].
    apply negb_true_iff in Hno.
    change ((String d a) ++ String c sep' ++ rest) with (String d (a ++ String c sep' ++ rest)).
    cbn [JS.splitFrom].
    change (String d (a ++ String c sep' ++ rest)) with ((String d a) ++ String c sep' ++ rest).
    rewrite Hno. rewrite IH by assumption. now rewrite JSFacts.append_assoc.
Qed.

Lemma split_document (yaml body : string) :
  noMatchWithin "---" (JS.newline ++ yaml) ("---" ++ JS.newline ++ body) = true ->
  JS.split "---" ("---" ++ JS.newline ++ yaml ++ "---" ++ JS.newline ++ body)
  = "" :: (JS.newline ++ yaml) :: JS.split "---" (JS.newline ++ body).
Proof.
  intros H. unfold JS.split.
  change ("---" ++ JS.newline ++ yaml ++ "---" ++ JS.newline ++ body)
    with ("" ++ "---" ++ (JS.newline ++ yaml ++ "---" ++ JS.newline ++ body)).
  rewrite (splitFrom_first "-" "--" "" "" _ eq_refl).
  apply f_equal2; [reflexivity|].
  replace (JS.newline ++ yaml ++ "---" ++ JS.newline ++ body)
    with ((JS.newline ++ yaml) ++ "---" ++ (JS.newline ++ body))
    by (now rewrite JSFacts.append_assoc).
  rewrite (splitFrom_first "-" "--" (JS.newline ++ yaml) "" _ H).
  reflexivity.
Qed.

(** X15. The text the plugin writes for a discussion or a file, the
    delimiter line, the YAML, the delimiter line and the body, splits back
    into its parts when the delimiter does not show up inside the YAML: the
    first section is empty, the second, the metadata block, is the YAML behind
    a line break, the rest are the sections of the body, and there are at
    least the three sections the scan of upload asks for. *)
Theorem document_sections (yaml body : string) :
  noMatchWithin "---" (JS.newline ++ yaml) ("---" ++ JS.newline ++ body) = true ->
  JS.split "---" ("---" ++ JS.newline ++ yaml ++ "---" ++ JS.newline ++ body)
  = "" :: (JS.newline ++ yaml) :: JS.split "---" (JS.newline ++ body) /\
  metadataBlock ("---" ++ JS.newline ++ yaml ++ "---" ++ JS.newline ++ body)
  = VStr (JS.newline ++ yaml) /\
  3 <= List.length (JS.split "---"
                      ("---" ++ JS.newline ++ yaml ++ "---" ++ JS.newline ++ body)).
Proof.
  intros H. unfold metadataBlock. rewrite (split_document _ _ H).
  split; [reflexivity|]. split; [reflexivity|].
  destruct (splitFrom_nonempty "---" (JS.newline ++ body) 0 "") as [first [rest E]].
  unfold JS.split. rewrite E. cbn [List.length]. lia.
Qed.

Lemma document_sections_witness :
  JS.split "---" ("---" ++ JS.newline ++ ("slug: a" ++ JS.newline) ++ "---" ++ JS.newline
                  ++ "hello")
  = "" :: (JS.newline ++ ("slug: a" ++ JS.newline)) :: JS.split "---" (JS.newline ++ "hello") /\
  metadataBlock ("---" ++ JS.newline ++ ("slug: a" ++ JS.newline) ++ "---" ++ JS.newline
                 ++ "hello")
  = VStr (JS.newline ++ ("slug: a" ++ JS.newline)) /\
  3 <= List.length (JS.split "---"
                      ("---" ++ JS.newline ++ ("slug: a" ++ JS.newline) ++ "---"
                       ++ JS.newline ++ "hello")).
Proof.
  apply (@document_sections ("slug: a" ++ JS.newline) "hello"). reflexivity.
Defined.

Lemma findPost_skips (parseYaml : Value -> result (option object))
  (earlier later : list GitHubPost) (slug : Value) :
  Forall (fun article =>
            exists frontMatter,
              parseYaml (metadataBlock (post_body article)) = Ok (Some frontMatter) /\
              JS.strictEq (Object.get "slug" frontMatter) slug = false)
         earlier ->
  findPost parseYaml (earlier ++ later) slug = findPost parseYaml later slug.
Proof.
  induction 1 as [|article earlier [frontMatter [Hparse Hslug]] _ IH]; [reflexivity|].
  cbn [List.app findPost].
  change (JS.index (JS.split "---" (post_body article)) 1)
    with (metadataBlock (post_body article)).
  rewrite Hparse. cbn [rbind prop]. now rewrite Hslug.
Qed.

(** X16. A discussion whose body upload wrote is found again by its slug,
    wherever it stands among the remote articles: when the YAML functions
    give the slug back and the articles before it have metadata with other
    slugs, the search of the next upload returns this discussion, so the file
    is matched instead of published again. *)
Theorem written_discussion_is_matched (parseYaml : Value -> result (option object))
  (earlier : list GitHubPost) (post : GitHubPost) (others : list GitHubPost)
  (yaml body : string) (parsed : object) (slug : Value) :
  Forall (fun article =>
            exists frontMatter,
              parseYaml (metadataBlock (post_body article)) = Ok (Some frontMatter) /\
              JS.strictEq (Object.get "slug" frontMatter) slug = false)
         earlier ->
  post_body post = "---" ++ JS.newline ++ yaml ++ "---" ++ JS.newline ++ body ->
  noMatchWithin "---" (JS.newline ++ yaml) ("---" ++ JS.newline ++ body) = true ->
  parseYaml (VStr (JS.newline ++ yaml)) = Ok (Some parsed) ->
  JS.strictEq (Object.get "slug" parsed) slug = true ->
  findPost parseYaml (earlier ++ post :: others) slug = Ok (Some post).
Proof.
  intros Hearlier Hbody Hno Hparse Hslug.
  rewrite (@findPost_skips parseYaml earlier (post :: others) slug Hearlier).
  cbn [findPost].
  rewrite Hbody, (split_document _ _ Hno). cbn [JS.index nth_error].
  rewrite Hparse. cbn [rbind prop]. now rewrite Hslug.
Qed.

Lemma written_discussion_is_matched_witness :
  findPost FlatYaml.parseYaml
    ([Sample.postB; Sample.slugless]
     ++ {| post_id := "D9"; post_title := "A";
           post_body := "---" ++ JS.newline
                        ++ FlatYaml.stringifyYaml
                             [("slug", VStr "a"); ("description", VStr "d")]
                        ++ "---" ++ JS.newline ++ "hello";
           post_tags := []; post_series := None |}
        :: [Sample.postB])
    (VStr "a")
  = Ok (Some {| post_id := "D9"; post_title := "A";
                post_body := "---" ++ JS.newline
                             ++ FlatYaml.stringifyYaml
                                  [("slug", VStr "a"); ("description", VStr "d")]
                             ++ "---" ++ JS.newline ++ "hello";
                post_tags := []; post_series := None |}).
Proof.
  apply (@written_discussion_is_matched FlatYaml.parseYaml
           [Sample.postB; Sample.slugless] _ [Sample.postB]
           (FlatYaml.stringifyYaml [("slug", VStr "a"); ("description", VStr "d")]) "hello"
           [("slug", VStr "a"); ("description", VStr "d")] (VStr "a")).
  - repeat constructor.
    + exists [("slug", VStr "b"); ("description", VStr "old");
              ("published", VStr "2024-01-02")].
      split; vm_compute; reflexivity.
    + exists [("description", VStr "no slug here")].
      split; vm_compute; reflexivity.
  - reflexivity.
  - reflexivity.
  - reflexivity.
  - reflexivity.
Defined.

(** Behind an article whose metadata block does not parse to a mapping the
    search does not get to the discussion: it throws. *)
Example findPost_stops_at_unreadable_article :
  findPost (fun _ => Ok None) [Sample.slugless; Sample.postB] (VStr "b") = Throw TypeError.
Proof. reflexivity. Qed.

(** ** download: the remote articles, the new ones, and the local updates *)

Lemma strictEq_eq (a b : Value) : JS.strictEq a b = true -> a = b.
Proof.
  destruct a as [| |x|x|x], b as [| |y|y|y]; simpl; intros H;
    try discriminate; try reflexivity.
  - now apply Bool.eqb_prop in H as ->.
  - now apply String.eqb_eq in H as ->.
Qed.

Lemma object_get_set_same (k : string) (v : Value) (o : object) :
  Object.get k (Object.set k v o) = v.
Proof.
  induction o as [|[k0 v0] o IH]; simpl.
  - now rewrite String.eqb_refl.
  - destruct (k =? k0) eqn:E; simpl.
    + now rewrite String.eqb_refl.
    + now rewrite E.
Qed.

Lemma ownProperty_set (k k' : string) (v : Value) (o : object) :
  ownProperty k (Object.set k' v o)
  = if k =? k' then Some v else ownProperty k o.
Proof.
  induction o as [|[k0 v0] o IH]; simpl.
  - reflexivity.
  - destruct (k' =? k0) eqn:E'; simpl.
    + apply String.eqb_eq in E'. subst k0. now destruct (k =? k').
    + destruct (k =? k0) eqn:E0.
      * apply String.eqb_eq in E0. subst k0.
        destruct (k =? k') eqn:E; [|reflexivity].
        apply String.eqb_eq in E. subst k'. now rewrite String.eqb_refl in E'.
      * exact IH.
Qed.

Lemma set_ownProperty (k : string) (v : Value) (o : object) :
  ownProperty k o = Some v -> Object.set k v o = o.
Proof.
  induction o as [|[k0 v0] o IH]; simpl; intros H.
  - discriminate.
  - destruct (k =? k0) eqn:E.
    + apply String.eqb_eq in E. subst k0. now injection H as ->.
    + now rewrite (IH H).
Qed.

Section DownloadUpdates.

Variable parseYaml : Value -> result (option object).

Lemma existingFileSlugs_complete (markdownFiles : list TFile) :
  forall slugs slugs' : list Value,
  existingFileSlugsFrom parseYaml markdownFiles slugs = Ok slugs' ->
  (forall v, existsb (JS.strictEq v) slugs = true -> existsb (JS.strictEq v) slugs' = true) /\
  (forall file frontmatter,
     In file markdownFiles ->
     parseYaml (metadataBlock (content file)) = Ok (Some frontmatter) ->
     JS.truthy (Object.get "slug" frontmatter) = true ->
     JS.strictEq (Object.get "slug" frontmatter) (Object.get "slug" frontmatter) = true ->
     existsb (JS.strictEq (Object.get "slug" frontmatter)) slugs' = true).
Proof.
  induction markdownFiles as [|file rest IH]; intros slugs slugs' H.
  - cbn in H. injection H as <-. split; [tauto | intros ? ? []].
  - cbn [existingFileSlugsFrom] in H.
    change (JS.index (JS.split "---" (content file)) 1)
      with (metadataBlock (content file)) in H.
    destruct (parseYaml (metadataBlock (content file))) as [[fm|]|e] eqn:Eparse;
      cbn [rbind prop] in H; try discriminate.
    destruct (JS.truthy (Object.get "slug" fm)) eqn:Eslug.
    + destruct (IH _ _ H) as [Hmono Hfiles]. split.
      * intros v Hv. apply Hmono.
        destruct (existsb (JS.strictEq (Object.get "slug" fm)) slugs); [assumption|].
        rewrite existsb_app, Hv. reflexivity.
      * intros f fm' [<-|Hin] Hp Ht Hself; [|now apply (Hfiles f fm')].
        rewrite Eparse in Hp. injection Hp as <-. apply Hmono.
        destruct (existsb (JS.strictEq (Object.get "slug" fm)) slugs) eqn:E; [assumption|].
        rewrite existsb_app. cbn [existsb]. rewrite Hself. now rewrite !Bool.orb_true_r.
    + destruct (IH _ _ H) as [Hmono Hfiles]. split; [assumption|].
      intros f fm' [<-|Hin] Hp Ht Hself; [|now apply (Hfiles f fm')].
      rewrite Eparse in Hp. injection Hp as <-. congruence.
Qed.

(** X17. download offers no remote article as new whose slug a local file of
    the articles folder carries: none of the new articles has the slug of a
    local file whose metadata block parses and holds a truthy slug. *)
Theorem local_slug_is_not_new (ghArticles : list GitHubPost) (markdownFiles : list TFile)
  (created : list (Value * RemoteEntry)) (file : TFile) (frontmatter : object) :
  newArticles parseYaml ghArticles markdownFiles = Ok created ->
  In file markdownFiles ->
  parseYaml (metadataBlock (content file)) = Ok (Some frontmatter) ->
  JS.truthy (Object.get "slug" frontmatter) = true ->
  Forall (fun entry => JS.strictEq (fst entry) (Object.get "slug" frontmatter) = false)
         created.
Proof.
  intros Hnew Hin Hparse Ht. unfold newArticles in Hnew.
  destruct (ghArticleMapFrom parseYaml ghArticles []) as [ghArticleMap|e]; [|discriminate].
  cbn [rbind] in Hnew.
  destruct (existingFileSlugsFrom parseYaml markdownFiles []) as [slugs|e] eqn:Hslugs;
    [|discriminate].
  cbn [rbind] in Hnew. injection Hnew as <-.
  apply Forall_forall. intros entry He. apply filter_In in He as [_ Hnot].
  destruct (JS.strictEq (fst entry) (Object.get "slug" frontmatter)) eqn:E; [|reflexivity].
  pose proof (strictEq_eq _ _ E) as Eq. rewrite Eq in Hnot, E.
  destruct (existingFileSlugs_complete _ _ Hslugs) as [_ Hfiles].
  rewrite (Hfiles file frontmatter Hin Hparse Ht E) in Hnot. discriminate.
Qed.

Lemma ghArticleMapFrom_app (earlier later : list GitHubPost) :
  forall ghArticleMap : list (Value * RemoteEntry),
  ghArticleMapFrom parseYaml (earlier ++ later) ghArticleMap
  = rbind (ghArticleMapFrom parseYaml earlier ghArticleMap)
          (fun m => ghArticleMapFrom parseYaml later m).
Proof.
  induction earlier as [|article rest IH]; intros m.
  - reflexivity.
  - cbn [List.app ghArticleMapFrom].
    destruct (parseYaml (JS.index (JS.split "---" (post_body article)) 1)) as [[fm|]|e];
      cbn [rbind setProp]; try reflexivity.
    apply IH.
Qed.

Lemma jsmap_get_set_same (k : Value) (v : RemoteEntry) (m : list (Value * RemoteEntry)) :
  JS.strictEq k k = true ->
  JsMap.get JS.strictEq k (JsMap.set JS.strictEq k v m) = Some v.
Proof.
  intros Hk. induction m as [|[k0 v0] m IH]; simpl.
  - now rewrite Hk.
  - destruct (JS.strictEq k k0) eqn:E; simpl.
    + now rewrite Hk.
    + now rewrite E.
Qed.

Lemma jsmap_get_set_other (k k' : Value) (v : RemoteEntry) (m : list (Value * RemoteEntry)) :
  JS.strictEq k k' = false ->
  JsMap.get JS.strictEq k (JsMap.set JS.strictEq k' v m) = JsMap.get JS.strictEq k m.
Proof.
  intros Hk. induction m as [|[k0 v0] m IH]; simpl.
  - now rewrite Hk.
  - destruct (JS.strictEq k' k0) eqn:E; simpl.
    + apply strictEq_eq in E. subst k0. now rewrite Hk.
    + destruct (JS.strictEq k k0); [reflexivity | exact IH].
Qed.

(** Articles with other slugs leave the entry of a slug as it is. *)
Lemma ghArticleMapFrom_other_slugs (slug : Value) (later : list GitHubPost) :
  forall m m' : list (Value * RemoteEntry),
  Forall (fun article =>
            exists frontMatter,
              parseYaml (metadataBlock (post_body article)) = Ok (Some frontMatter) /\
              JS.strictEq slug (Object.get "slug" frontMatter) = false)
         later ->
  ghArticleMapFrom parseYaml later m = Ok m' ->
  JsMap.get JS.strictEq slug m' = JsMap.get JS.strictEq slug m.
Proof.
  induction later as [|article later IH]; intros m m' Hother Hmap.
  - cbn in Hmap. now injection Hmap as <-.
  - inversion Hother as [|? ? [frontMatter [Hparse Hslug]] Hrest]; subst.
    cbn [ghArticleMapFrom] in Hmap.
    change (JS.index (JS.split "---" (post_body article)) 1)
      with (metadataBlock (post_body article)) in Hmap.
    rewrite Hparse in Hmap. cbn [rbind setProp] in Hmap.
    rewrite (@IH _ _ Hrest Hmap). apply jsmap_get_set_other.
    destruct (post_series article);
      rewrite ?object_get_set_other by discriminate; exact Hslug.
Qed.

(** X18. Of the remote articles that carry the same slug the last one is the
    one download works with: when no article after it has its slug, the entry
    under the slug in the map of remote articles has that article's title,
    its third section as body, and its label-derived tags in the front
    matter, whatever articles came before it. *)
Theorem last_article_of_a_slug_wins (earlier : list GitHubPost) (article : GitHubPost)
  (later : list GitHubPost) (ghArticleMap : list (Value * RemoteEntry)) (parsed : object) :
  ghArticleMapFrom parseYaml (earlier ++ article :: later) [] = Ok ghArticleMap ->
  parseYaml (metadataBlock (post_body article)) = Ok (Some parsed) ->
  JS.strictEq (Object.get "slug" parsed) (Object.get "slug" parsed) = true ->
  Forall (fun other =>
            exists frontMatter,
              parseYaml (metadataBlock (post_body other)) = Ok (Some frontMatter) /\
              JS.strictEq (Object.get "slug" parsed) (Object.get "slug" frontMatter) = false)
         later ->
  exists entry,
    JsMap.get JS.strictEq (Object.get "slug" parsed) ghArticleMap = Some entry /\
    remote_title entry = post_title article /\
    remote_body entry = JS.index (JS.split "---" (post_body article)) 2 /\
    Object.get "tags" (remote_frontMatter entry) = VList (post_tags article) /\
    Object.get "slug" (remote_frontMatter entry) = Object.get "slug" parsed.
Proof.
  intros Hmap Hparse Hself Hlater. rewrite ghArticleMapFrom_app in Hmap.
  destruct (ghArticleMapFrom parseYaml earlier []) as [m|e]; [|discriminate].
  cbn [rbind ghArticleMapFrom] in Hmap.
  change (JS.index (JS.split "---" (post_body article)) 1)
    with (metadataBlock (post_body article)) in Hmap.
  rewrite Hparse in Hmap. cbn [rbind setProp] in Hmap.
  set (frontMatter := match post_series article with
                      | Some id => Object.set "series" (VStr id)
                                     (Object.set "tags" (VList (post_tags article)) parsed)
                      | None => Object.set "tags" (VList (post_tags article)) parsed
                      end) in Hmap.
  assert (Hslug : Object.get "slug" frontMatter = Object.get "slug" parsed).
  { unfold frontMatter. destruct (post_series article);
      rewrite ?object_get_set_other by discriminate; reflexivity. }
  assert (Htags : Object.get "tags" frontMatter = VList (post_tags article)).
  { unfold frontMatter. destruct (post_series article);
      rewrite ?object_get_set_other by discriminate.
    all: apply object_get_set_same. }
  rewrite Hslug in Hmap.
  rewrite (@ghArticleMapFrom_other_slugs _ later _ _ Hlater Hmap).
  eexists. split; [apply jsmap_get_set_same; exact Hself|].
  cbn [remote_title remote_body remote_frontMatter]. repeat split; assumption.
Qed.

End DownloadUpdates.

Lemma local_slug_is_not_new_witness :
  Forall (fun entry => JS.strictEq (fst entry) (VStr "b") = false)
    (match newArticles FlatYaml.parseYaml [Sample.postB; Sample.slugless]
             [entry_file Sample.entryB] with
     | Ok created => created
     | Throw _ => []
     end).
Proof.
  apply (@local_slug_is_not_new FlatYaml.parseYaml [Sample.postB; Sample.slugless]
           [entry_file Sample.entryB] _ (entry_file Sample.entryB)
           (entry_frontMatter Sample.entryB)).
  - vm_compute. reflexivity.
  - now left.
  - vm_compute. reflexivity.
  - reflexivity.
Defined.

Lemma last_article_of_a_slug_wins_witness :
  exists entry,
    JsMap.get JS.strictEq (VStr "b")
      (match ghArticleMapFrom FlatYaml.parseYaml
               ([Sample.postB]
                ++ {| post_id := "D2"; post_title := "B again";
                      post_body := content (article "B again" ["slug: b"] "second");
                      post_tags := ["x"]; post_series := Some "s" |}
                   :: [Sample.slugless]) [] with
       | Ok m => m
       | Throw _ => []
       end) = Some entry /\
    remote_title entry = "B again" /\
    remote_body entry
    = JS.index (JS.split "---" (content (article "B again" ["slug: b"] "second"))) 2 /\
    Object.get "tags" (remote_frontMatter entry) = VList ["x"] /\
    Object.get "slug" (remote_frontMatter entry) = VStr "b".
Proof.
  apply (@last_article_of_a_slug_wins FlatYaml.parseYaml [Sample.postB]
           {| post_id := "D2"; post_title := "B again";
              post_body := content (article "B again" ["slug: b"] "second");
              post_tags := ["x"]; post_series := Some "s" |}
           [Sample.slugless] _ [("slug", VStr "b")]).
  - vm_compute. reflexivity.
  - vm_compute. reflexivity.
  - reflexivity.
  - repeat constructor. exists [("description", VStr "no slug here")].
    split; vm_compute; reflexivity.
Defined.

(** *** The update of the front matter of a local file *)

Lemma updateFrontMatter_other_keys (ghArticleMap : list (Value * RemoteEntry))
  (frontmatter updated : object) (key : string) :
  updateFrontMatter ghArticleMap frontmatter = Ok updated ->
  key <> "description" -> key <> "tags" -> key <> "published" -> key <> "series" ->
  Object.get key updated = Object.get key frontmatter.
Proof.
  unfold updateFrontMatter. intros H n1 n2 n3 n4.
  destruct (JsMap.get JS.strictEq (Object.get "slug" frontmatter) ghArticleMap)
    as [entry|] eqn:Eget; [|now injection H as <-].
  destruct (convertDateFormatToObsidian
              (Object.get "published" (remote_frontMatter entry))) as [published|e];
    [|discriminate].
  cbn [rbind] in H. injection H as <-.
  destruct (JS.truthy (Object.get "series" (remote_frontMatter entry)));
    destruct (JS.truthy (Object.get "tags" (remote_frontMatter entry)));
    now rewrite !object_get_set_other by assumption.
Qed.

(** X19. The front-matter update of download touches four keys only: every
    other key of the local front matter, the slug among them, keeps its
    value, and the local series stays when the remote article has none. *)
Theorem updateFrontMatter_frame (ghArticleMap : list (Value * RemoteEntry))
  (frontmatter updated : object) :
  updateFrontMatter ghArticleMap frontmatter = Ok updated ->
  (forall key, key <> "description" -> key <> "tags" -> key <> "published" ->
               key <> "series" ->
               Object.get key updated = Object.get key frontmatter) /\
  (forall entry,
     JsMap.get JS.strictEq (Object.get "slug" frontmatter) ghArticleMap = Some entry ->
     JS.truthy (Object.get "series" (remote_frontMatter entry)) = false ->
     Object.get "series" updated = Object.get "series" frontmatter).
Proof.
  intros H. split.
  - intros key. now apply updateFrontMatter_other_keys with (ghArticleMap := ghArticleMap).
  - revert H. unfold updateFrontMatter. intros H entry Eget Hs. rewrite Eget in H.
    destruct (convertDateFormatToObsidian
                (Object.get "published" (remote_frontMatter entry))) as [published|e];
      [|discriminate].
    cbn [rbind] in H. injection H as <-. rewrite Hs.
    destruct (JS.truthy (Object.get "tags" (remote_frontMatter entry)));
      now rewrite !object_get_set_other by discriminate.
Qed.

Lemma updateFrontMatter_frame_witness :
  (forall key, key <> "description" -> key <> "tags" -> key <> "published" ->
               key <> "series" ->
               Object.get key
                 [("slug", VStr "b"); ("series", VStr "mine"); ("description", VStr "new");
                  ("tags", VList ["y"]); ("published", VStr "01/02/2024")]
               = Object.get key [("slug", VStr "b"); ("series", VStr "mine")]) /\
  (forall entry,
     JsMap.get JS.strictEq (Object.get "slug" [("slug", VStr "b"); ("series", VStr "mine")])
       [(VStr "b",
         {| remote_frontMatter :=
              [("slug", VStr "b"); ("description", VStr "new");
               ("published", VStr "2024-01-02"); ("tags", VList ["y"])];
            remote_body := VStr "text"; remote_title := "B" |})] = Some entry ->
     JS.truthy (Object.get "series" (remote_frontMatter entry)) = false ->
     Object.get "series"
       [("slug", VStr "b"); ("series", VStr "mine"); ("description", VStr "new");
        ("tags", VList ["y"]); ("published", VStr "01/02/2024")]
     = Object.get "series" [("slug", VStr "b"); ("series", VStr "mine")]).
Proof.
  apply (@updateFrontMatter_frame
           [(VStr "b",
             {| remote_frontMatter :=
                  [("slug", VStr "b"); ("description", VStr "new");
                   ("published", VStr "2024-01-02"); ("tags", VList ["y"])];
                remote_body := VStr "text"; remote_title := "B" |})]
           [("slug", VStr "b"); ("series", VStr "mine")]).
  reflexivity.
Defined.

(** X20. Updating the front matter of a file a second time from the same
    remote articles changes nothing more. *)
Theorem updateFrontMatter_idempotent (ghArticleMap : list (Value * RemoteEntry))
  (frontmatter updated : object) :
  updateFrontMatter ghArticleMap frontmatter = Ok updated ->
  updateFrontMatter ghArticleMap updated = Ok updated.
Proof.
  intros H.
  assert (Hslug : Object.get "slug" updated = Object.get "slug" frontmatter)
    by (apply (updateFrontMatter_other_keys _ _ H); discriminate).
  revert H. unfold updateFrontMatter. rewrite Hslug.
  destruct (JsMap.get JS.strictEq (Object.get "slug" frontmatter) ghArticleMap)
    as [entry|] eqn:Eget; [|now intros [= <-]].
  destruct (convertDateFormatToObsidian
              (Object.get "published" (remote_frontMatter entry))) as [published|e];
    [|discriminate].
  cbn [rbind]. intros [= <-].
  destruct (JS.truthy (Object.get "series" (remote_frontMatter entry)));
    destruct (JS.truthy (Object.get "tags" (remote_frontMatter entry)));
    repeat (rewrite set_ownProperty by (now rewrite !ownProperty_set));
    reflexivity.
Qed.

Lemma updateFrontMatter_idempotent_witness :
  updateFrontMatter
    [(VStr "b",
      {| remote_frontMatter :=
           [("slug", VStr "b"); ("description", VStr "new");
            ("published", VStr "2024-01-02"); ("tags", VList ["y"])];
         remote_body := VStr "text"; remote_title := "B" |})]
    [("slug", VStr "b"); ("series", VStr "mine"); ("description", VStr "new");
     ("tags", VList ["y"]); ("published", VStr "01/02/2024")]
  = Ok [("slug", VStr "b"); ("series", VStr "mine"); ("description", VStr "new");
        ("tags", VList ["y"]); ("published", VStr "01/02/2024")].
Proof.
  apply (@updateFrontMatter_idempotent
           [(VStr "b",
             {| remote_frontMatter :=
                  [("slug", VStr "b"); ("description", VStr "new");
                   ("published", VStr "2024-01-02"); ("tags", VList ["y"])];
                remote_body := VStr "text"; remote_title := "B" |})]
           [("slug", VStr "b"); ("series", VStr "mine")]).
  reflexivity.
Defined.

(** X21. The front-matter update of a local file fails exactly when the file
    is matched with a remote article whose [published] is no text: the date
    is converted without the check the creation of a new file makes, so a
    remote article without a date stops the update of its file. *)
Theorem updateFrontMatter_throws_iff (ghArticleMap : list (Value * RemoteEntry))
  (frontmatter : object) :
  updateFrontMatter ghArticleMap frontmatter = Throw TypeError <->
  exists entry,
    JsMap.get JS.strictEq (Object.get "slug" frontmatter) ghArticleMap = Some entry /\
    forall text, Object.get "published" (remote_frontMatter entry) <> VStr text.
Proof.
  unfold updateFrontMatter.
  destruct (JsMap.get JS.strictEq (Object.get "slug" frontmatter) ghArticleMap)
    as [entry|] eqn:Eget.
  - split.
    + intros H. exists entry. split; [reflexivity|]. intros text Ep.
      rewrite Ep in H. discriminate.
    + intros [entry' [[= <-] Hno]].
      destruct (Object.get "published" (remote_frontMatter entry)) as [| |b|s|l];
        try reflexivity.
      now elim (Hno s).
  - split; [discriminate | intros [entry [[=] _]]].
Qed.

Section NewFiles.

Variable stringifyYaml : object -> string.

(** X22. The creation of the file of a new article fails exactly when
    [published] is truthy and is no text (it has no [split] then); an article
    without date, or with an empty one, gets its file, with the metadata as
    they are. *)
Theorem newArticleFile_throws_iff (settings : OGDSettings) (entry : Value * RemoteEntry) :
  (newArticleFile stringifyYaml settings entry = Throw TypeError <->
   JS.truthy (Object.get "published" (remote_frontMatter (snd entry))) = true /\
   forall text, Object.get "published" (remote_frontMatter (snd entry)) <> VStr text) /\
  (JS.truthy (Object.get "published" (remote_frontMatter (snd entry))) = false ->
   newArticleFile stringifyYaml settings entry
   = Ok (articlesDir settings ++ "/" ++ remote_title (snd entry) ++ ".md",
         "---" ++ JS.newline ++ stringifyYaml (remote_frontMatter (snd entry))
         ++ "---" ++ JS.newline ++ JS.template (remote_body (snd entry)))).
Proof.
  unfold newArticleFile.
  destruct (Object.get "published" (remote_frontMatter (snd entry))) as [| |[]|s|l];
    cbn [JS.truthy convertDateFormatToObsidian JS.splitValue rbind].
  - split; [|reflexivity]. split; [discriminate | intros [H _]; discriminate].
  - split; [|reflexivity]. split; [discriminate | intros [H _]; discriminate].
  - split; [|discriminate].
    split; [intros _; split; [reflexivity | discriminate] | reflexivity].
  - split; [|reflexivity]. split; [discriminate | intros [H _]; discriminate].
  - split.
    + split; [|intros [_ H]; now elim (H s)].
      destruct (negb (s =? "")); cbn [rbind]; discriminate.
    + intros ->. reflexivity.
  - split; [|discriminate].
    split; [intros _; split; [reflexivity | discriminate] | reflexivity].
Qed.

End NewFiles.

(** ** The label update against the model of the service *)

Lemma get_In (k v : string) (m : LabelMap) :
  JsMap.get String.eqb k m = Some v -> In (k, v) m.
Proof.
  induction m as [|[k0 v0] m IH]; simpl; [discriminate|].
  destruct (k =? k0) eqn:E.
  - apply String.eqb_eq in E. subst k0. intros [= ->]. now left.
  - intros H. right. now apply IH.
Qed.

Lemma gather_In_names (cache : LabelMap) (labelNames : list string) :
  forall (acc : LabelMap) (k v : string),
  In (k, v) (gather cache labelNames acc) ->
  (In k labelNames /\ JsMap.get String.eqb k cache = Some v) \/ In (k, v) acc.
Proof.
  unfold gather.
  induction labelNames as [|n rest IH]; simpl; intros acc k v H; [now right|].
  apply IH in H as [[H1 H2]|H]; [left; tauto|].
  destruct (JsMap.get String.eqb n cache) as [id|] eqn:E; [|now right].
  apply In_set in H as [[= -> ->]|H]; [left; tauto | now right].
Qed.

Lemma allLabels_sound (g : GitHub) : sound g (existingLabelsOf (gh_labels g)).
Proof.
  intros labelName id H. unfold existingLabelsOf, JsMap.ofEntries in H.
  apply MapFacts.fold_set_sound in H as [H|H]; [|discriminate].
  now apply in_map_iff in H as [[i n] [[= <- <-] H]].
Qed.

Lemma allLabels_covers (g : GitHub) :
  NoDup (map label_name (gh_labels g)) -> covers g (existingLabelsOf (gh_labels g)).
Proof.
  intros NDname labelName id H. unfold existingLabelsOf, JsMap.ofEntries.
  apply MapFacts.fold_set_present.
  - rewrite map_map. exact NDname.
  - apply in_map_iff. exists {| label_id := id; label_name := labelName |}. now split.
Qed.

Section LabelUpdateResult.

Variable strict : bool.

(** What a successful label update leaves on the discussion, in terms of the
    state the service has once the labels of the document exist. *)
Lemma label_update_outcome (settings : OGDSettings) (tok : string) (post : GitHubPost)
  (frontMatter : object) (w0 w1 : World GitHub) (desired : list string) :
  wellFormed (remote w0) = true ->
  applyLabelUpdate strict settings tok post frontMatter w0 = (Ok tt, w1) ->
  labelsOf settings frontMatter = Ok desired ->
  exists (g : GitHub) (ids : LabelMap),
    NoDup (map label_id (gh_labels g)) /\
    gh_labels (remote w1) = gh_labels g /\
    (forall n, In n desired -> exists id, JsMap.get String.eqb n ids = Some id) /\
    (forall n id, In (n, id) ids ->
                  In n desired /\ In {| label_id := id; label_name := n |} (gh_labels g)) /\
    GitHubModel.labelsOn (post_id post) (remote w1)
    = GitHubModel.attach (JsMap.values ids)
        (GitHubModel.detach
           (existingLabelsToRemove settings
              (firstn 100 (GitHubModel.resolve g
                             (GitHubModel.labelsOn (post_id post) (remote w0)))))
           (GitHubModel.labelsOn (post_id post) (remote w0))).
Proof.
  intros WF0 Hrun Hdesired.
  unfold applyLabelUpdate, reconcileLabels in Hrun.
  unfold bind at 1, liftR in Hrun. rewrite Hdesired in Hrun.
  unfold bind at 1, createOrUpdateLabels in Hrun.
  destruct (createOrUpdateLabelsFrom (GitHubModel.transport strict)
              (gh_repositoryId (remote w0)) (knownLabels (remote w0)) desired tok [] w0)
    as [[ids|e] wA] eqn:Hcreate; [|discriminate].
  pose proof Hcreate as HA.
  apply createOrUpdateLabels_model in HA;
    [|assumption | apply ModelFacts.knownLabels_sound].
  destruct HA as [WFA [G [_ Hgather]]].
  pose proof (createOrUpdateLabelsFrom_result _ _ _ _ _ _ _ Hcreate) as [_ [Hids _]].
  pose proof Hrun as Hinv.
  apply replaceLabels_model_inv in Hinv as [[d Hfind] Hres].
  destruct (@replaceLabels_model strict settings tok post ids wA d Hfind Hres)
    as [w1' [d1 [Hrun' [Elabels [Hfind1 Hd1]]]]].
  rewrite Hrun' in Hrun. injection Hrun as ->.
  assert (Hfind0 : GitHubModel.findDiscussion (post_id post) (remote w0) = Some d).
  { destruct G as [_ [ED _]]. unfold GitHubModel.findDiscussion in *. now rewrite <- ED. }
  apply ModelFacts.wellFormed_spec in WFA as [NDid [NDname _]].
  exists (remote wA), ids. split; [assumption|]. split; [assumption|].
  split; [assumption|]. split.
  - intros n id Hin.
    rewrite <- (Hgather _ (allLabels_covers _ NDname)) in Hin.
    apply gather_In_names in Hin as [[Hn Hget]|[]].
    split; [assumption | now apply allLabels_sound].
  - unfold GitHubModel.labelsOn. now rewrite Hfind0, Hfind1, Hd1.
Qed.

(** X24. After a successful label update every label of the document is on
    the discussion: each name that [labelsOf] gives for the front matter
    names a label of the repository that the discussion now carries. *)
Theorem label_update_attaches_document_labels (settings : OGDSettings) (tok : string)
  (post : GitHubPost) (frontMatter : object) (w0 w1 : World GitHub)
  (desired : list string) :
  wellFormed (remote w0) = true ->
  applyLabelUpdate strict settings tok post frontMatter w0 = (Ok tt, w1) ->
  labelsOf settings frontMatter = Ok desired ->
  Forall (fun labelName =>
            exists id,
              In id (GitHubModel.labelsOn (post_id post) (remote w1)) /\
              GitHubModel.labelOfId (remote w1) id
              = Some {| label_id := id; label_name := labelName |})
         desired.
Proof.
  intros WF0 Hrun Hdesired.
  destruct (@label_update_outcome settings tok post frontMatter w0 w1 desired
              WF0 Hrun Hdesired)
    as [g [ids [NDid [Elabels [Hall [Hids Hon]]]]]].
  apply Forall_forall. intros n Hn. destruct (Hall n Hn) as [id Hget].
  apply get_In in Hget. exists id. split.
  - rewrite Hon. apply In_attach. right. unfold JsMap.values.
    now apply (in_map snd) in Hget.
  - destruct (Hids n id Hget) as [_ Hlabel].
    unfold GitHubModel.labelOfId. rewrite Elabels.
    now apply (labelOfId_In g _ NDid) in Hlabel.
Qed.

(** X25. After a successful label update of a discussion with at most a
    hundred labels, the labels on it whose names start with the tag or the
    series prefix are labels of the document: what the update left of the
    managed labels is what [labelsOf] gives for the front matter. *)
Theorem label_update_leaves_document_labels (settings : OGDSettings) (tok : string)
  (post : GitHubPost) (frontMatter : object) (w0 w1 : World GitHub)
  (desired : list string) (id : string) (label : Label) :
  wellFormed (remote w0) = true ->
  applyLabelUpdate strict settings tok post frontMatter w0 = (Ok tt, w1) ->
  labelsOf settings frontMatter = Ok desired ->
  List.length (GitHubModel.labelsOn (post_id post) (remote w0)) <= 100 ->
  In id (GitHubModel.labelsOn (post_id post) (remote w1)) ->
  GitHubModel.labelOfId (remote w1) id = Some label ->
  managedPrefix settings (label_name label) = true ->
  In (label_name label) desired.
Proof.
  intros WF0 Hrun Hdesired Hlen Hon1 Hlabel Hmanaged.
  destruct (@label_update_outcome settings tok post frontMatter w0 w1 desired
              WF0 Hrun Hdesired)
    as [g [ids [NDid [Elabels [Hall [Hids Hon]]]]]].
  assert (Hlabel' : GitHubModel.labelOfId g id = Some label)
    by (unfold GitHubModel.labelOfId in *; now rewrite <- Elabels).
  rewrite Hon in Hon1. apply In_attach in Hon1 as [Hkept|Hnew].
  - exfalso. apply In_detach in Hkept as [Hcur Hnot]. apply Hnot.
    apply In_existingLabelsToRemove. exists label.
    split; [|split; [now apply labelOfId_Some in Hlabel' | assumption]].
    rewrite firstn_all2
      by (etransitivity; [apply length_resolve | assumption]).
    apply In_resolve. now exists id.
  - unfold JsMap.values in Hnew. apply in_map_iff in Hnew as [[n id'] [E Hin]].
    cbn in E. subst id'. destruct (Hids n id Hin) as [Hn Hg].
    apply labelOfId_Some in Hlabel' as [Eid Hl].
    assert (label = {| label_id := id; label_name := n |})
      by (apply (NoDup_map_inj label_id (gh_labels g)); [assumption..|now cbn]).
    now subst label.
Qed.

End LabelUpdateResult.

Lemma label_update_keeps_unmanaged_witness :
  In "L1"
     (GitHubModel.labelsOn "D1"
        (remote (snd (applyLabelUpdate true Sample.settings "tok" Sample.postB
                        (entry_frontMatter Sample.entryB)
                        (Sample.start Sample.githubTagged))))).
Proof.
  apply (@label_update_keeps_unmanaged true Sample.settings "tok" Sample.postB
           (entry_frontMatter Sample.entryB) (Sample.start Sample.githubTagged) _
           "L1" {| label_id := "L1"; label_name := "area/infra" |}).
  - reflexivity.
  - vm_compute. reflexivity.
  - vm_compute. now left.
  - reflexivity.
  - reflexivity.
Defined.

Lemma label_update_attaches_document_labels_witness :
  Forall (fun labelName =>
            exists id,
              In id (GitHubModel.labelsOn "D1"
                       (remote (snd (applyLabelUpdate true Sample.settings "tok" Sample.postB
                                       (entry_frontMatter Sample.entryB)
                                       (Sample.start Sample.githubTagged))))) /\
              GitHubModel.labelOfId
                (remote (snd (applyLabelUpdate true Sample.settings "tok" Sample.postB
                                (entry_frontMatter Sample.entryB)
                                (Sample.start Sample.githubTagged)))) id
              = Some {| label_id := id; label_name := labelName |})
         ["tag/x"].
Proof.
  apply (@label_update_attaches_document_labels true Sample.settings "tok" Sample.postB
           (entry_frontMatter Sample.entryB) (Sample.start Sample.githubTagged)).
  - reflexivity.
  - vm_compute. reflexivity.
  - reflexivity.
Defined.

Lemma label_update_leaves_document_labels_witness :
  GitHubModel.labelOfId
    (remote (snd (applyLabelUpdate true Sample.settings "tok" Sample.postB
                    (entry_frontMatter Sample.entryB)
                    (Sample.start Sample.githubTagged)))) "L2"
  = Some {| label_id := "L2"; label_name := "tag/x" |} /\
  In (label_name {| label_id := "L2"; label_name := "tag/x" |}) ["tag/x"].
Proof.
  split; [reflexivity|].
  apply (@label_update_leaves_document_labels true Sample.settings "tok" Sample.postB
           (entry_frontMatter Sample.entryB) (Sample.start Sample.githubTagged)
           (snd (applyLabelUpdate true Sample.settings "tok" Sample.postB
                   (entry_frontMatter Sample.entryB) (Sample.start Sample.githubTagged)))
           ["tag/x"] "L2" {| label_id := "L2"; label_name := "tag/x" |}).
  - reflexivity.
  - vm_compute. reflexivity.
  - reflexivity.
  - vm_compute. lia.
  - vm_compute. right. now left.
  - reflexivity.
  - reflexivity.
Defined.

(** ** download: the update of the body of a local file *)

Section BodyUpdate.

Variable parseYaml : Value -> result (option object).
Variable stringifyYaml : object -> string.

(** X26. The body update of download, applied to a file matched with a
    remote article, writes the local metadata and the remote body; when the
    YAML functions give the metadata back and the delimiter does not show up
    inside them, applying it to the file just written writes the same text
    again. *)
Theorem updateBody_twice (ghArticleMap : list (Value * RemoteEntry)) (file : TFile)
  (frontmatter : object) (entry : RemoteEntry) :
  parseYaml (metadataBlock (content file)) = Ok (Some frontmatter) ->
  JsMap.get JS.strictEq (Object.get "slug" frontmatter) ghArticleMap = Some entry ->
  noMatchWithin "---" (JS.newline ++ stringifyYaml frontmatter)
    ("---" ++ JS.newline ++ JS.template (remote_body entry)) = true ->
  parseYaml (VStr (JS.newline ++ stringifyYaml frontmatter)) = Ok (Some frontmatter) ->
  exists text,
    updateBody parseYaml stringifyYaml ghArticleMap file = Ok (Some text) /\
    text = "---" ++ JS.newline ++ stringifyYaml frontmatter ++ "---" ++ JS.newline
           ++ JS.template (remote_body entry) /\
    forall written, content written = text ->
                    updateBody parseYaml stringifyYaml ghArticleMap written = Ok (Some text).
Proof.
  intros Hparse Hget Hno Hround.
  assert (Hrun : forall f, parseYaml (metadataBlock (content f)) = Ok (Some frontmatter) ->
                 updateBody parseYaml stringifyYaml ghArticleMap f
                 = Ok (Some ("---" ++ JS.newline ++ stringifyYaml frontmatter ++ "---"
                             ++ JS.newline ++ JS.template (remote_body entry)))).
  { intros f Hf. unfold updateBody.
    change (JS.index (JS.split "---" (content f)) 1) with (metadataBlock (content f)).
    rewrite Hf. cbn [rbind prop]. now rewrite Hget. }
  eexists. split; [now apply Hrun|]. split; [reflexivity|].
  intros written Hw. apply Hrun. rewrite Hw. unfold metadataBlock.
  rewrite (split_document _ _ Hno). exact Hround.
Qed.

End BodyUpdate.

Lemma updateBody_twice_witness :
  exists text,
    updateBody FlatYaml.parseYaml FlatYaml.stringifyYaml
      [(VStr "b",
        {| remote_frontMatter := [("slug", VStr "b")];
           remote_body := VStr (JS.newline ++ "remote text"); remote_title := "B" |})]
      (article "B" ["slug: b"; "description: d"] "local text") = Ok (Some text) /\
    text = "---" ++ JS.newline
           ++ FlatYaml.stringifyYaml [("slug", VStr "b"); ("description", VStr "d")]
           ++ "---" ++ JS.newline
           ++ JS.template (remote_body
                             {| remote_frontMatter := [("slug", VStr "b")];
                                remote_body := VStr (JS.newline ++ "remote text");
                                remote_title := "B" |}) /\
    forall written, content written = text ->
                    updateBody FlatYaml.parseYaml FlatYaml.stringifyYaml
                      [(VStr "b",
                        {| remote_frontMatter := [("slug", VStr "b")];
                           remote_body := VStr (JS.newline ++ "remote text");
                           remote_title := "B" |})] written = Ok (Some text).
Proof.
  apply (@updateBody_twice FlatYaml.parseYaml FlatYaml.stringifyYaml
           [(VStr "b",
             {| remote_frontMatter := [("slug", VStr "b")];
                remote_body := VStr (JS.newline ++ "remote text"); remote_title := "B" |})]
           (article "B" ["slug: b"; "description: d"] "local text")
           [("slug", VStr "b"); ("description", VStr "d")]).
  - vm_compute. reflexivity.
  - reflexivity.
  - vm_compute. reflexivity.
  - vm_compute. reflexivity.
Defined.

(** ** What the label update detaches from a discussion *)

Lemma skipn_app_length {A : Type} (l l' : list A) :
  skipn (List.length l) (l ++ l')%list = l'.
Proof. induction l as [|a l IH]; [reflexivity | exact IH]. Qed.

Lemma detachedIds_app (id : string) (a b : list Event) :
  detachedIds id (a ++ b) = (detachedIds id a ++ detachedIds id b)%list.
Proof. unfold detachedIds. now rewrite calls_app, filter_app, flat_map_app. Qed.

Lemma detachedIds_other (id : string) (c : Call) :
  (query c =? REMOVE_LABELS) = false -> detachedIds id [Fetch c] = [].
Proof. intros H. unfold detachedIds. cbn [calls filter]. now rewrite H. Qed.

Lemma detachedIds_remove (id : string) (ids : list string) (tok : string) :
  detachedIds id
    [Fetch {| query := REMOVE_LABELS;
              variables := [("labelableId", VStr id); ("labelIds", VList ids)];
              token := tok |}]
  = ids.
Proof.
  unfold detachedIds. cbn [calls filter query variables].
  rewrite String.eqb_refl. cbn [Object.get String.eqb Ascii.eqb Bool.eqb JS.strictEq andb].
  rewrite String.eqb_refl. cbn [flat_map Object.get String.eqb Ascii.eqb Bool.eqb].
  apply app_nil_r.
Qed.

Lemma detachedIds_created (id repoId tok : string) (names : list string) (sent : list Call) :
  Forall (fun c => exists labelName,
              In labelName names /\ c = createLabelCall repoId labelName tok) sent ->
  detachedIds id (map Fetch sent) = [].
Proof.
  induction 1 as [|c sent [n [_ ->]] _ IH]; [reflexivity|].
  change (map Fetch (createLabelCall repoId n tok :: sent))
    with ([Fetch (createLabelCall repoId n tok)] ++ map Fetch sent)%list.
  rewrite detachedIds_app, IH, app_nil_r. now apply detachedIds_other.
Qed.

Section Detached.

Variable strict : bool.

(** The second half of the label update on the model: what it sends carries,
    as ids to detach, those of the labels read that have a managed prefix. *)
Lemma replaceLabels_model_detached (settings : OGDSettings) (tok : string)
  (post : GitHubPost) (ids : LabelMap) (w : World GitHub) (d : Discussion) :
  GitHubModel.findDiscussion (post_id post) (remote w) = Some d ->
  exists sent : list Event,
    events (snd (replaceLabels (GitHubModel.transport strict) settings tok post ids w))
    = (events w ++ sent)%list /\
    detachedIds (post_id post) sent
    = existingLabelsToRemove settings
        (firstn 100 (GitHubModel.resolve (remote w) (discussion_labels d))).
Proof.
  intros Hfind.
  unfold replaceLabels. unfold bind at 1. rewrite exec_discussion_labels, Hfind.
  unfold bind at 1, liftR. cbn [discussionLabelNodes].
  set (R := existingLabelsToRemove settings _).
  set (labelsCall := Fetch {| query := GET_DISCUSSION_LABELS;
                              variables := [("id", VStr (post_id post))]; token := tok |}).
  set (removeCall := Fetch {| query := REMOVE_LABELS;
                              variables := [("labelableId", VStr (post_id post));
                                            ("labelIds", VList R)];
                              token := tok |}).
  set (addCall := Fetch {| query := ADD_LABELS_TO_DISCUSSION;
                           variables := [("labelableId", VStr (post_id post));
                                         ("labelIds", VList (JsMap.values ids))];
                           token := tok |}).
  assert (HL : detachedIds (post_id post) [labelsCall] = [])
    by (now apply detachedIds_other).
  assert (HA : detachedIds (post_id post) [addCall] = [])
    by (now apply detachedIds_other).
  assert (HR : detachedIds (post_id post) [removeCall] = R)
    by (apply detachedIds_remove).
  unfold bind at 1.
  destruct (0 <? List.length R)%nat eqn:ER.
  - unfold bind at 1. rewrite exec_remove_labels. cbn [remote logged].
    rewrite Hfind. unfold ret at 1.
    destruct (0 <? List.length ids)%nat eqn:EI.
    + unfold bind at 1. rewrite exec_add_labels. cbn [remote logged].
      exists ([labelsCall] ++ [removeCall] ++ [addCall])%list. split.
      * rewrite ?Hfind.
        repeat match goal with
               | |- context [match GitHubModel.findDiscussion ?a ?b with _ => _ end] =>
                   destruct (GitHubModel.findDiscussion a b)
               | |- context [if forallb ?f ?l then _ else _] => destruct (forallb f l)
               end;
          unfold ret; cbn [snd events logged]; now rewrite <- !app_assoc.
      * now rewrite !detachedIds_app, HL, HR, HA, app_nil_r.
    + exists ([labelsCall] ++ [removeCall])%list. split.
      * unfold ret. cbn [snd events logged]. now rewrite <- !app_assoc.
      * now rewrite detachedIds_app, HL, HR.
  - unfold ret at 1. apply length_zero in ER.
    destruct (0 <? List.length ids)%nat eqn:EI.
    + unfold bind at 1. rewrite exec_add_labels. cbn [remote logged].
      exists ([labelsCall] ++ [addCall])%list. split.
      * rewrite ?Hfind.
        repeat match goal with
               | |- context [match GitHubModel.findDiscussion ?a ?b with _ => _ end] =>
                   destruct (GitHubModel.findDiscussion a b)
               | |- context [if forallb ?f ?l then _ else _] => destruct (forallb f l)
               end;
          unfold ret; cbn [snd events logged]; now rewrite <- !app_assoc.
      * now rewrite detachedIds_app, HL, HA, ER.
    + exists [labelsCall]. split.
      * reflexivity.
      * now rewrite HL, ER.
Qed.

(** The label update on the model: the ids its remove-labels request carries
    and the labels it leaves on the discussion, in terms of the state [g] the
    service has once the labels of the document exist. *)
Lemma label_update_detached (settings : OGDSettings) (tok : string) (post : GitHubPost)
  (frontMatter : object) (w0 w1 : World GitHub) :
  wellFormed (remote w0) = true ->
  applyLabelUpdate strict settings tok post frontMatter w0 = (Ok tt, w1) ->
  exists (g : GitHub) (ids : LabelMap),
    NoDup (map label_id (gh_labels g)) /\
    grows (remote w0) g /\
    detachedIds (post_id post) (sentSince w0 w1)
    = existingLabelsToRemove settings
        (firstn 100 (GitHubModel.resolve g
                       (GitHubModel.labelsOn (post_id post) (remote w0)))) /\
    GitHubModel.labelsOn (post_id post) (remote w1)
    = GitHubModel.attach (JsMap.values ids)
        (GitHubModel.detach
           (existingLabelsToRemove settings
              (firstn 100 (GitHubModel.resolve g
                             (GitHubModel.labelsOn (post_id post) (remote w0)))))
           (GitHubModel.labelsOn (post_id post) (remote w0))).
Proof.
  intros WF0 Hrun.
  unfold applyLabelUpdate, reconcileLabels in Hrun.
  unfold bind at 1, liftR in Hrun.
  destruct (labelsOf settings frontMatter) as [desired|e] eqn:Hdesired; [|discriminate].
  unfold bind at 1, createOrUpdateLabels in Hrun.
  destruct (createOrUpdateLabelsFrom_events (GitHubModel.transport strict)
              (gh_repositoryId (remote w0)) (knownLabels (remote w0)) tok desired [] w0)
    as [created [Ecreated Fcreated]].
  destruct (createOrUpdateLabelsFrom (GitHubModel.transport strict)
              (gh_repositoryId (remote w0)) (knownLabels (remote w0)) desired tok [] w0)
    as [[ids|e] wA] eqn:Hcreate; [|discriminate].
  cbn [snd] in Ecreated.
  pose proof Hcreate as HA.
  apply createOrUpdateLabels_model in HA;
    [|assumption | apply ModelFacts.knownLabels_sound].
  destruct HA as [WFA [G _]].
  pose proof Hrun as Hinv.
  apply replaceLabels_model_inv in Hinv as [[d Hfind] Hres].
  destruct (@replaceLabels_model strict settings tok post ids wA d Hfind Hres)
    as [w1' [d1 [Hrun' [Elabels [Hfind1 Hd1]]]]].
  destruct (@replaceLabels_model_detached settings tok post ids wA d Hfind)
    as [sent [Esent Hsent]].
  rewrite Hrun' in Hrun. injection Hrun as ->. rewrite Hrun' in Esent. cbn [snd] in Esent.
  assert (Hfind0 : GitHubModel.findDiscussion (post_id post) (remote w0) = Some d).
  { destruct G as [_ [ED _]]. unfold GitHubModel.findDiscussion in *. now rewrite <- ED. }
  apply ModelFacts.wellFormed_spec in WFA as [NDid _].
  exists (remote wA), ids. split; [assumption|]. split; [assumption|].
  unfold GitHubModel.labelsOn. rewrite Hfind0, Hfind1, Hd1. split; [|reflexivity].
  unfold sentSince. rewrite Esent, Ecreated, <- app_assoc, skipn_app_length.
  rewrite detachedIds_app, Hsent.
  rewrite (@detachedIds_created (post_id post) (gh_repositoryId (remote w0)) tok desired created).
  - reflexivity.
  - eapply Forall_impl; [|exact Fcreated]. intros c [n [Hn [_ Hc]]]. now exists n.
Qed.

(** C1, amended. The label update of a matched discussion that carries at
    most the hundred labels the plugin reads: a label on the discussion is
    among the ids of the remove-labels request exactly when its name starts
    with the tag prefix or the series prefix.  A label with neither prefix is
    still on the discussion afterwards, and so is the draft label, which is
    no removal candidate unless it starts with one of the two prefixes. *)
Theorem detached_iff_managed_prefix (settings : OGDSettings) (tok : string)
  (post : GitHubPost) (frontMatter : object) (w0 w1 : World GitHub)
  (id : string) (label : Label) :
  wellFormed (remote w0) = true ->
  List.length (GitHubModel.labelsOn (post_id post) (remote w0)) <= 100 ->
  applyLabelUpdate strict settings tok post frontMatter w0 = (Ok tt, w1) ->
  In id (GitHubModel.labelsOn (post_id post) (remote w0)) ->
  GitHubModel.labelOfId (remote w0) id = Some label ->
  (In id (detachedIds (post_id post) (sentSince w0 w1))
   <-> managedPrefix settings (label_name label) = true) /\
  (managedPrefix settings (label_name label) = false ->
   In id (GitHubModel.labelsOn (post_id post) (remote w1))) /\
  (label_name label = draftLabel settings ->
   managedPrefix settings (draftLabel settings) = false ->
   ~ In id (detachedIds (post_id post) (sentSince w0 w1)) /\
   In id (GitHubModel.labelsOn (post_id post) (remote w1))).
Proof.
  intros WF0 Hlen Hrun Hon Hlabel.
  destruct (@label_update_detached settings tok post frontMatter w0 w1 WF0 Hrun)
    as [g [ids [NDid [G [Hdet Hon1]]]]].
  rewrite firstn_all2 in Hdet, Hon1
    by (etransitivity; [apply length_resolve | assumption]).
  assert (Hlabel' : GitHubModel.labelOfId g id = Some label).
  { apply labelOfId_Some in Hlabel as [Eid Hin].
    apply (ModelFacts.grows_In _ G) in Hin. subst id. now apply labelOfId_In. }
  assert (Iff : In id (detachedIds (post_id post) (sentSince w0 w1))
                <-> managedPrefix settings (label_name label) = true).
  { rewrite Hdet, In_existingLabelsToRemove. split.
    - intros [other [Hnode [Eid Hm]]].
      apply In_resolve in Hnode as [id' [_ Hother]].
      pose proof (labelOfId_Some _ _ Hother) as [Eid' _].
      assert (E : id' = id) by congruence. rewrite E, Hlabel' in Hother.
      injection Hother as <-. exact Hm.
    - intros Hm. exists label. split; [apply In_resolve; now exists id|].
      split; [now apply labelOfId_Some in Hlabel' | assumption]. }
  assert (Keep : managedPrefix settings (label_name label) = false ->
                 In id (GitHubModel.labelsOn (post_id post) (remote w1))).
  { intros Hm. rewrite Hon1. apply In_attach. left. apply In_detach.
    split; [assumption|]. rewrite <- Hdet. intros HR. apply Iff in HR. congruence. }
  split; [exact Iff|]. split; [exact Keep|].
  intros Edraft Hdraft. rewrite <- Edraft in Hdraft.
  split; [intros HR; apply Iff in HR; congruence | now apply Keep].
Qed.

End Detached.

Lemma detached_iff_managed_prefix_witness :
  let w0 := Sample.start Sample.githubDraft in
  let w1 := snd (applyLabelUpdate true Sample.settings "tok" Sample.postB
                   (entry_frontMatter Sample.entryB) w0) in
  GitHubModel.labelsOn "D1" (remote w0) = ["L1"; "L2"; "L3"] /\
  detachedIds "D1" (sentSince w0 w1) = ["L3"] /\
  ~ In "L2" (detachedIds "D1" (sentSince w0 w1)) /\
  In "L2" (GitHubModel.labelsOn "D1" (remote w1)).
Proof.
  cbv zeta. split; [reflexivity|]. split; [vm_compute; reflexivity|].
  destruct (@detached_iff_managed_prefix true Sample.settings "tok" Sample.postB
              (entry_frontMatter Sample.entryB) (Sample.start Sample.githubDraft)
              (snd (applyLabelUpdate true Sample.settings "tok" Sample.postB
                      (entry_frontMatter Sample.entryB) (Sample.start Sample.githubDraft)))
              "L2" {| label_id := "L2"; label_name := "state/draft" |})
    as [_ [_ Hdraft]].
  - reflexivity.
  - vm_compute. lia.
  - vm_compute. reflexivity.
  - vm_compute. right. now left.
  - reflexivity.
  - apply Hdraft; reflexivity.
Defined.
